(** * https_dns_proxy: the orchestrator of [src/main.c]

    A shallow embedding of [main.c] of https_dns_proxy, the UDP-to-HTTPS
    DNS proxy: the hostname parser [hostname_from_uri], the proxy scheme
    test [proxy_supports_name_resolution], the three reactor callbacks
    [dns_server_cb], [https_resp_cb] and [dns_poll_cb], and the part of
    [main] that decides whether bootstrap polling is started.

    Conventions.
    - A [char] is an [ascii]; the terminator is [NUL].
    - A [const char *] argument is the list of the characters stored from
      the pointer on, and the terminator follows them: reading past the
      end of the list yields [NUL]. None of the embedded functions reads
      past the first [NUL].
    - A writable [char] array is a [list ascii] of the array's size; a
      write outside of it is undefined behaviour and makes the function
      return [None].
    - Pointers are integers, [NULL] is [0]; what a live pointer points to
      is held in a [gmap Z block].
    - The callbacks run in a state monad over the process state, with
      three outcomes: return, exit of the process, undefined behaviour.
    - What the allocator, libcurl, c-ares and the other components of the
      proxy do is not decided by [main.c]: the pointer an allocation
      returns is an argument of the embedded function, and the other
      components are the inputs of a reactor. *)

From Stdlib Require Import ZArith Ascii String List Lia Bool.
From stdpp Require Import base decidable option list gmap strings.

Local Open Scope Z_scope.

(** ** Characters and the C library functions used by [main.c] *)

Module CLib.

Definition NUL : ascii := Ascii.zero.

Definition code (c : ascii) : Z := Z.of_N (N_of_ascii c).

(** [isalpha] of <ctype.h> in the "C" locale ([main] never calls
    [setlocale]): the 52 letters, and no character above 127. *)
Definition isalpha (c : ascii) : bool :=
  ((65 <=? code c) && (code c <=? 90)) || ((97 <=? code c) && (code c <=? 122)).

(** [tolower] of <ctype.h> in the "C" locale. *)
Definition tolower (c : ascii) : ascii :=
  if (65 <=? code c) && (code c <=? 90)
  then ascii_of_N (Z.to_N (code c + 32))
  else c.

(** The characters of a literal. *)
Definition chars (s : string) : list ascii := list_ascii_of_string s.

(** [s[i]] for a C string: the terminator follows the contents. *)
Definition char_at (s : list ascii) (i : nat) : ascii := nth i s NUL.

(** [strlen]: the number of characters before the first [NUL]. *)
Fixpoint strlen (s : list ascii) : nat :=
  match s with
  | [] => 0%nat
  | c :: s' => if decide (c = NUL) then 0%nat else S (strlen s')
  end.

(** The C string stored in an array: its characters up to the first [NUL]. *)
Definition cstring (s : list ascii) : list ascii := take (strlen s) s.

(** [strncmp a b n]: compares at most [n] characters, stops after a [NUL];
    the sign of the result is that of the first differing pair. *)
Fixpoint strncmp (a b : list ascii) (n : nat) : Z :=
  match n with
  | O => 0
  | S n' =>
      let ca := char_at a 0 in
      let cb := char_at b 0 in
      if decide (ca = cb)
      then if decide (ca = NUL) then 0 else strncmp (tail a) (tail b) n'
      else code ca - code cb
  end.

(** [strncasecmp a b n]: [strncmp] on the lower-cased characters. *)
Fixpoint strncasecmp (a b : list ascii) (n : nat) : Z :=
  match n with
  | O => 0
  | S n' =>
      let ca := tolower (char_at a 0) in
      let cb := tolower (char_at b 0) in
      if decide (ca = cb)
      then if decide (ca = NUL) then 0 else strncasecmp (tail a) (tail b) n'
      else code ca - code cb
  end.

(** What [strncpy dst src n] stores: [n] characters, those of [src] up to
    its terminator, then [NUL] padding. *)
Fixpoint strncpy_chars (src : list ascii) (n : nat) {struct n} : list ascii :=
  match n with
  | O => []
  | S n' =>
      match src with
      | [] => replicate (S n') NUL
      | c :: src' =>
          if decide (c = NUL) then replicate (S n') NUL
          else c :: strncpy_chars src' n'
      end
  end.

(** [strncpy dst src n] on an array [dst]: writes exactly [n] characters
    at its start; out of bounds when [n] exceeds the array. *)
Definition strncpy (dst src : list ascii) (n : nat) : option (list ascii) :=
  if decide (n ≤ length dst)%nat
  then Some (strncpy_chars src n ++ drop n dst)
  else None.

(** [a[i] = c] on an array, bounds-checked. *)
Definition store (a : list ascii) (i : nat) (c : ascii) : option (list ascii) :=
  if decide (i < length a)%nat then Some (<[i := c]> a) else None.

End CLib.

Import CLib.

(** ** [hostname_from_uri] (main.c, lines 54-68) *)

(** The loop [while ( *end && *end != '/') end++]: the number of steps
    from [uri] to [end]. *)
Fixpoint scan_host (uri : list ascii) : nat :=
  match uri with
  | [] => 0%nat
  | c :: uri' =>
      if decide (c = NUL) then 0%nat
      else if decide (c = "/"%char) then 0%nat
      else S (scan_host uri')
  end.

(** Returns the [int] result and the contents of the [hostname] array
    afterwards; [None] when a write falls outside of the array. *)
Definition hostname_from_uri (uri hostname : list ascii) (hostname_len : Z)
  : option (Z * list ascii) :=
  if decide (strncmp uri (chars "https://") 8 ≠ 0) then Some (0, hostname)
  else
    let uri := drop 8 uri in                       (* uri += 8 *)
    let e := scan_host uri in                      (* end - uri *)
    if decide (Z.of_nat e >= hostname_len) then Some (0, hostname)
    else if decide (e = 0%nat) then Some (0, hostname)
    else if negb (isalpha (char_at uri (e - 1))) then Some (0, hostname)
    else
      hostname ← strncpy hostname uri e;
      hostname ← store hostname e NUL;
      Some (1, hostname).

(** ** [proxy_supports_name_resolution] (main.c, lines 133-147) *)

Definition ptypes : list (list ascii) :=
  [chars "http:"; chars "https:"; chars "socks4a:"; chars "socks5h:"].

(** The [for] loop over [ptypes], from index [i] on. *)
Fixpoint ptypes_loop (proxy : list ascii) (ps : list (list ascii)) : Z :=
  match ps with
  | [] => 0
  | p :: ps' =>
      if decide (strncasecmp proxy p (strlen p) = 0) then 1
      else ptypes_loop proxy ps'
  end.

(** [proxy] is [None] for a [NULL] pointer. *)
Definition proxy_supports_name_resolution (proxy : option (list ascii)) : Z :=
  match proxy with
  | None => 0
  | Some proxy => ptypes_loop proxy ptypes
  end.

(** ** The process state: the heap, [app], and the calls made so far *)

Abbreviation ptr := Z (only parsing).
Definition NULL : ptr := 0.

(** [sizeof(struct sockaddr_storage)]. *)
Definition sizeof_sockaddr_storage : nat := 128.

(** [request_t] (main.c, lines 43-48). *)
Record request_t := mk_request {
  tx_id : Z;
  raddr : list Z;
  dns_server : ptr;
  dns_req : ptr
}.

(** [app_state_t] (main.c, lines 36-41). *)
Record app_state_t := mk_app {
  https_client : ptr;
  resolv : ptr;
  resolver_url : list ascii;
  using_dns_poller : Z
}.

(** What a live pointer points to. [Server] is the one field of
    [dns_server_t] that [main.c] reads; [Slist] is a [struct curl_slist]
    chain, held as its first node's [data] ([None] for a [NULL] string)
    and the [data] of the nodes after it. *)
Inductive block :=
| Bytes (bs : list Z)
| Request (r : request_t)
| Server (addrlen : nat)
| Slist (data : option (list ascii)) (rest : list (option (list ascii))).

(** The severities of logging.h. *)
Inductive level := LOG_DEBUG | LOG_INFO | LOG_WARNING | LOG_ERROR | LOG_FATAL.

(** The calls that leave [main.c]: the log macros, [free], and the three
    entry points of the other components. *)
Inductive event :=
| EvLog (l : level) (fmt : string)
| EvFree (p : ptr)
| EvSlistFreeAll (p : ptr)
| EvFetch (client : ptr) (url : list ascii) (body : ptr) (body_len : Z)
          (resolv : ptr) (ctx : ptr)
| EvRespond (server : ptr) (to : list Z) (buf : list Z) (buflen : Z)
| EvPollerInit (bootstrap_dns hostname : list ascii) (family : Z).

Record state := mk_state {
  app : app_state_t;
  heap : gmap Z block;
  inflight : list ptr;
  trace : list event
}.

(** A callback either returns, or the process exits inside it, or it runs
    into undefined behaviour. *)
Inductive outcome (A : Type) :=
| Ok (a : A) (s : state)
| Exit (s : state)
| Undefined.
Arguments Ok {A} a s.
Arguments Exit {A} s.
Arguments Undefined {A}.

Definition M (A : Type) : Type := state → outcome A.

#[global] Instance M_ret : MRet M := λ A a s, Ok a s.
#[global] Instance M_bind : MBind M := λ A B f m s,
  match m s with
  | Ok a s' => f a s'
  | Exit s' => Exit s'
  | Undefined => Undefined
  end.

Definition get : M state := λ s, Ok s s.
Definition undefined {A} : M A := λ _, Undefined.
Definition emit (e : event) : M unit := λ s,
  Ok tt (mk_state (app s) (heap s) (inflight s) (trace s ++ [e])).
Definition set_heap (h : gmap Z block) : M unit := λ s,
  Ok tt (mk_state (app s) h (inflight s) (trace s)).
Definition set_app (a : app_state_t) : M unit := λ s,
  Ok tt (mk_state a (heap s) (inflight s) (trace s)).
Definition set_inflight (l : list ptr) : M unit := λ s,
  Ok tt (mk_state (app s) (heap s) l (trace s)).

(** [when c m]: the statement [if (c) { m }]. *)
Definition when (c : bool) (m : M unit) : M unit := if c then m else mret tt.

(** *** logging.h *)

Definition DLOG (fmt : string) : M unit := emit (EvLog LOG_DEBUG fmt).
Definition ILOG (fmt : string) : M unit := emit (EvLog LOG_INFO fmt).
Definition WLOG (fmt : string) : M unit := emit (EvLog LOG_WARNING fmt).

(** Modelled from the spec: the macro [FLOG] of logging.h, which is not
    part of the sources at hand. Section 7 has a fatal error "terminate
    immediately with a logged fatal message": the message is logged and
    the process exits, nothing after the macro runs. *)
Definition FLOG {A} (fmt : string) : M A := λ s,
  Exit (mk_state (app s) (heap s) (inflight s) (trace s ++ [EvLog LOG_FATAL fmt])).

(** *** The allocator *)

(** [free(p)]: nothing for [NULL]; releasing what is not live (a second
    [free], a wild pointer) is undefined. *)
Definition free (p : ptr) : M unit :=
  emit (EvFree p);;
  if decide (p = NULL) then mret tt
  else
    s ← get;
    match heap s !! p with
    | Some _ => set_heap (delete p (heap s))
    | None => undefined
    end.

Definition zeroed_request : request_t :=
  mk_request 0 (replicate sizeof_sockaddr_storage 0) NULL NULL.

(** [calloc(1, sizeof(request_t))]. Which pointer comes back is the
    allocator's choice [ret]: [NULL], or a block that becomes live,
    zero-filled. That the block was not live before is a premise of the
    statements (see [enabled]), not a check made here. *)
Definition calloc_request (ret : ptr) : M ptr :=
  if decide (ret = NULL) then mret NULL
  else s ← get; set_heap (<[ret := Request zeroed_request]> (heap s));; mret ret.

(** Reading and writing [*req]. *)
Definition load_request (req : ptr) : M request_t :=
  s ← get;
  match heap s !! req with
  | Some (Request r) => mret r
  | _ => undefined
  end.

Definition store_request (req : ptr) (r : request_t) : M unit :=
  s ← get;
  match heap s !! req with
  | Some (Request _) => set_heap (<[req := Request r]> (heap s))
  | _ => undefined
  end.

(** The assignments [req->field = v]. *)
Definition assign_tx_id (req : ptr) (v : Z) : M unit :=
  r ← load_request req;
  store_request req (mk_request v (raddr r) (dns_server r) (dns_req r)).
Definition assign_raddr (req : ptr) (v : list Z) : M unit :=
  r ← load_request req;
  store_request req (mk_request (tx_id r) v (dns_server r) (dns_req r)).
Definition assign_dns_server (req : ptr) (v : ptr) : M unit :=
  r ← load_request req;
  store_request req (mk_request (tx_id r) (raddr r) v (dns_req r)).
Definition assign_dns_req (req : ptr) (v : ptr) : M unit :=
  r ← load_request req;
  store_request req (mk_request (tx_id r) (raddr r) (dns_server r) v).

(** [dns_server->addrlen]. *)
Definition load_addrlen (srv : ptr) : M nat :=
  s ← get;
  match heap s !! srv with
  | Some (Server n) => mret n
  | _ => undefined
  end.

(** [memcpy(dst, src, n)] on byte arrays: undefined when either array is
    shorter than [n]. *)
Definition memcpy (dst src : list Z) (n : nat) : M (list Z) :=
  if decide (n ≤ length dst ∧ n ≤ length src)%nat
  then mret (take n src ++ drop n dst)
  else undefined.

(** *** The other components, at their interface *)

(** Modelled from the spec: [https_client_fetch] of https_client.c, which
    is not part of the sources at hand. Section 4.2: the call returns
    immediately, the fetch is outstanding, keyed only by the opaque
    context, until its one completion callback. *)
Definition https_client_fetch (client : ptr) (url : list ascii)
    (body : ptr) (body_len : Z) (resolv : ptr) (ctx : ptr) : M unit :=
  emit (EvFetch client url body body_len resolv ctx);;
  s ← get; set_inflight (inflight s ++ [ctx]).

(** Modelled from the spec: [dns_server_respond] of dns_server.c, which is
    not part of the sources at hand. Section 4.1: sends the bytes as one
    datagram to the address, best effort. *)
Definition dns_server_respond (server : ptr) (to : list Z)
    (buf : list Z) (buflen : Z) : M unit :=
  emit (EvRespond server to buf buflen).

(** ** [https_resp_cb] (main.c, lines 78-89) *)

(** [buf] is [None] for a [NULL] response. *)
Definition https_resp_cb (data : ptr) (buf : option (list Z)) (buflen : Z)
  : M unit :=
  DLOG "buflen %u\n";;
  let req := data in
  when (bool_decide (req = NULL)) (FLOG "data NULL");;
  match buf with
  | Some b =>  (* Respond unless there is a timeout, DNS failure, or something similar. *)
      r ← load_request req;
      dns_server_respond (dns_server r) (raddr r) b buflen
  | None => mret tt
  end;;
  r ← load_request req;
  free (dns_req r);;
  free req.

(** ** [dns_server_cb] (main.c, lines 91-117) *)

(** [app->resolv == NULL || app->resolv->data == NULL], evaluated left to
    right. *)
Definition resolv_unset : M bool :=
  s ← get;
  if decide (resolv (app s) = NULL) then mret true
  else
    match heap s !! resolv (app s) with
    | Some (Slist data _) => mret (bool_decide (data = None))
    | _ => undefined
    end.

(** The first condition of [dns_server_cb]. *)
Definition not_bootstrapped : M bool :=
  s ← get;
  if decide (using_dns_poller (app s) ≠ 0) then resolv_unset else mret false.

(** [data] is [&app], which the state holds; [calloc_ret] is what
    [calloc] returns in the call. *)
Definition dns_server_cb (calloc_ret : ptr) (dns_server : ptr)
    (addr : list Z) (tx_id : Z) (dns_req : ptr) (dns_req_len : Z) : M unit :=
  DLOG "Received request for id: %04x, len: %d";;
  gate ← not_bootstrapped;
  if gate : bool then
    WLOG "Query received before bootstrapping is completed, discarding.";;
    free dns_req
  else
    req ← calloc_request calloc_ret;
    when (bool_decide (req = NULL)) (FLOG "Out of mem");;
    assign_tx_id req tx_id;;
    n ← load_addrlen dns_server;
    r ← load_request req;
    bytes ← memcpy (raddr r) addr n;
    assign_raddr req bytes;;
    assign_dns_server req dns_server;;
    assign_dns_req req dns_req;;  (* To free buffer after https request is complete. *)
    s ← get;
    https_client_fetch (https_client (app s)) (resolver_url (app s))
                       dns_req dns_req_len (resolv (app s)) req.

(** ** [dns_poll_cb] (main.c, lines 119-131) *)

(** An [option] result inside [M]: [None] is undefined behaviour. *)
Definition defined {A} (o : option A) : M A :=
  match o with Some a => mret a | None => undefined end.

(** [snprintf(buf, size, "%s", text)]: at most [size - 1] characters and a
    terminator; nothing at all for [size = 0]. *)
Definition snprintf (buf : list ascii) (size : nat) (text : list ascii)
  : option (list ascii) :=
  if decide (size = 0%nat) then Some buf
  else if decide (size ≤ length buf)%nat then
    let out := take (size - 1) text in
    Some (out ++ [NUL] ++ drop (length out + 1) buf)
  else None.

(** libcurl's [curl_slist_free_all]: releases every node of the list. *)
Definition curl_slist_free_all (l : ptr) : M unit :=
  emit (EvSlistFreeAll l);;
  if decide (l = NULL) then mret tt
  else
    s ← get;
    match heap s !! l with
    | Some (Slist _ _) => set_heap (delete l (heap s))
    | _ => undefined
    end.

(** libcurl's [curl_slist_append(NULL, data)]: a new one-node list holding
    a copy of the string, or [NULL] when it cannot allocate. The pointer
    is the allocator's choice [ret]. *)
Definition curl_slist_append_to_null (ret : ptr) (data : list ascii) : M ptr :=
  if decide (ret = NULL) then mret NULL
  else
    s ← get;
    set_heap (<[ret := Slist (Some (cstring data)) []]> (heap s));;
    mret ret.

Section Poll.

(** The text form of an address as c-ares produces it, [None] for a family
    it does not support. *)
Variable inet_ntop_text : Z → list Z → option (list ascii).

(** c-ares' [ares_inet_ntop(af, src, buf + pos, size)]: stores the text
    and its terminator when they fit in [size], else leaves the
    destination alone and fails; the caller ignores the result. *)
Definition ares_inet_ntop (af : Z) (src : list Z) (buf : list ascii)
    (pos size : nat) : option (list ascii) :=
  if decide (pos + size ≤ length buf)%nat then
    match inet_ntop_text af src with
    | Some t =>
        let t := cstring t in
        if decide (length t < size)%nat
        then Some (take pos buf ++ t ++ [NUL] ++ drop (pos + length t + 1) buf)
        else Some buf
    | None => Some buf
    end
  else None.

(** [data] is [&app.resolv]: the callback assigns [app.resolv];
    [append_ret] is what [curl_slist_append] returns in the call. *)
Definition dns_poll_cb (append_ret : ptr) (hostname : list ascii)
    (addr : list Z) (af : Z) : M unit :=
  let buf := replicate 280 NUL in                    (* memset *)
  when (bool_decide (254 < strlen hostname)%nat) (FLOG "Hostname too long.");;
  buf ← defined (snprintf buf (280 - 1) (cstring hostname ++ chars ":443:"));
  let pos := strlen buf in
  buf ← defined (ares_inet_ntop af addr buf pos (280 - 1 - pos));
  DLOG "Received new IP '%s'";;
  s ← get;
  curl_slist_free_all (resolv (app s));;
  l ← curl_slist_append_to_null append_ret buf;
  s ← get;
  set_app (mk_app (https_client (app s)) l (resolver_url (app s))
                  (using_dns_poller (app s))).

End Poll.

(** ** [main] (main.c, lines 149-242): the start of bootstrap polling *)

(** The fields of [struct Options] (options.h) that this part reads. *)
Record Options := mk_options {
  opt_resolver_url : list ascii;
  opt_curl_proxy : option (list ascii);
  opt_bootstrap_dns : list ascii;
  opt_ipv4 : Z
}.

Definition AF_UNSPEC : Z := 0.
Definition AF_INET : Z := 2.

(** Lines 175-179. *)
Definition main_app (opt : Options) (client : ptr) : app_state_t :=
  mk_app client NULL (opt_resolver_url opt) 0.

(** Lines 208-221. [hostname] is the uninitialised array [char
    hostname[255]]. *)
Definition main_poller (opt : Options) (hostname : list ascii) : M unit :=
  if decide (proxy_supports_name_resolution (opt_curl_proxy opt) = 0) then
    '(ok, hostname) ← defined (hostname_from_uri (opt_resolver_url opt) hostname 254);
    if decide (ok ≠ 0) then
      s ← get;
      set_app (mk_app (https_client (app s)) (resolv (app s))
                      (resolver_url (app s)) 1);;
      emit (EvPollerInit (opt_bootstrap_dns opt) (cstring hostname)
                         (if decide (opt_ipv4 opt ≠ 0) then AF_INET else AF_UNSPEC));;
      ILOG "DNS polling initialized for '%s'"
    else
      ILOG "Resolver prefix '%s' doesn't appear to contain a hostname. DNS polling disabled."
  else mret tt.

(** ** The reactor: what the other components deliver to the callbacks *)

Inductive input :=
| Query (buf : ptr) (payload : list Z) (calloc_ret : ptr) (server : ptr)
        (addr : list Z) (id : Z)
| Complete (ctx : ptr) (response : option (list Z)) (response_len : Z)
| Poll (append_ret : ptr) (hostname : list ascii) (addr : list Z) (af : Z).

(** Removes the first occurrence of [p]. *)
Fixpoint remove_first (p : ptr) (l : list ptr) : list ptr :=
  match l with
  | [] => []
  | q :: l' => if decide (p = q) then l' else q :: remove_first p l'
  end.

Section Reactor.

Variable inet_ntop_text : Z → list Z → option (list ascii).

(** Modelled from the spec: the read handler of dns_server.c, which is not
    part of the sources at hand. Section 4.1: it reads one datagram into a
    buffer, and invokes the callback with the source address, the
    transaction id and the payload, whose ownership passes to the
    callback. *)
Definition dns_server_recv (buf : ptr) (payload : list Z) (calloc_ret : ptr)
    (server : ptr) (addr : list Z) (id : Z) : M unit :=
  s ← get;
  set_heap (<[buf := Bytes payload]> (heap s));;
  dns_server_cb calloc_ret server addr id buf (Z.of_nat (length payload)).

(** Modelled from the spec: the completion of a fetch in https_client.c,
    which is not part of the sources at hand. Section 4.2: exactly one
    completion callback per fetch, with the context given to [fetch] and
    the response body, or null for any failure. *)
Definition https_client_complete (ctx : ptr) (response : option (list Z))
    (response_len : Z) : M unit :=
  s ← get;
  set_inflight (remove_first ctx (inflight s));;
  https_resp_cb ctx response response_len.

Definition react (i : input) : M unit :=
  match i with
  | Query buf payload calloc_ret server addr id =>
      dns_server_recv buf payload calloc_ret server addr id
  | Complete ctx response response_len =>
      https_client_complete ctx response response_len
  | Poll append_ret hostname addr af =>
      dns_poll_cb inet_ntop_text append_ret hostname addr af
  end.

(** What the environment may do in state [s]: the allocator returns
    [NULL] or a block that is not live, a datagram buffer is a fresh
    block, the server's source addresses have its [addrlen] bytes and fit
    a [sockaddr_storage], and only an outstanding fetch completes. *)
Definition enabled (s : state) (i : input) : Prop :=
  match i with
  | Query buf payload calloc_ret server addr id =>
      buf ≠ NULL ∧ heap s !! buf = None ∧
      (calloc_ret = NULL ∨ (heap s !! calloc_ret = None ∧ calloc_ret ≠ buf)) ∧
      ∃ n, heap s !! server = Some (Server n) ∧
           (n ≤ length addr)%nat ∧ (n ≤ sizeof_sockaddr_storage)%nat
  | Complete ctx response response_len => ctx ∈ inflight s
  | Poll append_ret hostname addr af =>
      append_ret = NULL ∨ heap s !! append_ret = None ∨
      append_ret = resolv (app s)
  end.

(** The runs of the reactor: the callbacks run one after the other, to
    completion, until one ends the process. *)
Inductive runs : state → list input → outcome unit → Prop :=
| runs_nil s : runs s [] (Ok tt s)
| runs_step s i s' rest o :
    enabled s i → react i s = Ok tt s' → runs s' rest o → runs s (i :: rest) o
| runs_exit s i s' rest :
    enabled s i → react i s = Exit s' → runs s (i :: rest) (Exit s')
| runs_undefined s i rest :
    enabled s i → react i s = Undefined → runs s (i :: rest) Undefined.

End Reactor.

(** Projections of a trace. *)
Definition is_fetch (e : event) : bool :=
  match e with EvFetch _ _ _ _ _ _ => true | _ => false end.
Definition is_respond (e : event) : bool :=
  match e with EvRespond _ _ _ _ => true | _ => false end.
Definition fetches (t : list event) : list event := List.filter is_fetch t.
Definition replies (t : list event) : list event := List.filter is_respond t.
Definition frees (p : ptr) (t : list event) : nat :=
  length (List.filter (λ e, match e with EvFree q => bool_decide (q = p) | _ => false end) t).

(** ** Vocabulary of the statements *)

(** A character of the host part, and what may follow the host part. *)
Definition host_char (c : ascii) : Prop := c ≠ NUL ∧ c ≠ "/"%char.
Definition host_end (rest : list ascii) : Prop :=
  char_at rest 0 = NUL ∨ char_at rest 0 = "/"%char.

(** The claim's words: [s] begins, case-insensitively, with [t]. *)
Definition begins_with_ci (s t : list ascii) : Prop :=
  ∃ pre rest, s = pre ++ rest ∧ tolower <$> pre = tolower <$> t.

(** The claim's words: the proxy string is non-null and begins,
    case-insensitively, with one of the four schemes. *)
Definition proxy_resolves_names (proxy : option (list ascii)) : Prop :=
  ∃ p t, proxy = Some p ∧
         t ∈ [chars "http:"; chars "https:"; chars "socks4a:"; chars "socks5h:"] ∧
         begins_with_ci p t.

(** The claim's words: an https:// URL with a non-empty, plausible
    hostname: a host part that ends in a letter and fits the name limit. *)
Definition plausible_https_url (url : list ascii) : Prop :=
  ∃ host c rest,
    url = chars "https://" ++ (host ++ [c]) ++ rest ∧
    Forall host_char (host ++ [c]) ∧ host_end rest ∧
    isalpha c = true ∧ (length (host ++ [c]) < 254)%nat.

(** The claim's words: polling is active and no address override has been
    published: the list is [NULL] or holds no data. *)
Definition bootstrapping (s : state) : Prop :=
  using_dns_poller (app s) ≠ 0 ∧
  (resolv (app s) = NULL ∨
   ∃ rest, heap s !! resolv (app s) = Some (Slist None rest)).

(** The gate is open: polling is off, or an override with data is there. *)
Definition bootstrapped (s : state) : Prop :=
  using_dns_poller (app s) = 0 ∨
  (resolv (app s) ≠ NULL ∧
   ∃ d rest, heap s !! resolv (app s) = Some (Slist (Some d) rest)).

Definition with_events (s : state) (es : list event) : state :=
  mk_state (app s) (heap s) (inflight s) (trace s ++ es).

(** What [memcpy] leaves in [raddr] of a zero-filled record. *)
Definition raddr_of (addr : list Z) (n : nat) : list Z :=
  take n addr ++ drop n (replicate sizeof_sockaddr_storage 0).

(** The events of a completion: the reply, if any, then the two [free]s. *)
Definition completion_events (ctx : ptr) (r : request_t)
    (buf : option (list Z)) (buflen : Z) : list event :=
  [EvLog LOG_DEBUG "buflen %u\n"] ++
  match buf with
  | Some b => [EvRespond (dns_server r) (raddr r) b buflen]
  | None => []
  end ++
  [EvFree (dns_req r); EvFree ctx].

(** The string handed to [curl_slist_append]: the host name, [":443:"],
    and the address text when c-ares produced one that fits. *)
Definition override_text (inet_ntop_text : Z → list Z → option (list ascii))
    (hostname : list ascii) (af : Z) (addr : list Z)
  : list ascii :=
  cstring hostname ++ chars ":443:" ++
  match inet_ntop_text af addr with
  | Some t =>
      if decide (length (cstring t) < 274 - strlen hostname)%nat
      then cstring t else []
  | None => []
  end.

(** The heap after [curl_slist_free_all p], and after a one-node list was
    allocated at [p]. *)
Definition released (p : ptr) (h : gmap Z block) : gmap Z block :=
  if decide (p = NULL) then h else delete p h.
Definition appended (p : ptr) (text : list ascii) (h : gmap Z block)
  : gmap Z block :=
  if decide (p = NULL) then h else <[p := Slist (Some text) []]> h.

(** Every outstanding fetch has its own live record, every record owns a
    live query buffer that no other record owns, and the override slot is
    empty or holds a one-node list with data. *)
Record wf (s : state) : Prop := mk_wf {
  wf_null : heap s !! NULL = None;
  wf_nodup : NoDup (inflight s);
  wf_owned : ∀ ctx, ctx ∈ inflight s →
    ∃ r bs, heap s !! ctx = Some (Request r) ∧
            heap s !! dns_req r = Some (Bytes bs);
  wf_unshared : ∀ c1 c2 r1 r2,
    c1 ∈ inflight s → c2 ∈ inflight s →
    heap s !! c1 = Some (Request r1) → heap s !! c2 = Some (Request r2) →
    dns_req r1 = dns_req r2 → c1 = c2;
  wf_resolv : resolv (app s) = NULL ∨
    ∃ d, heap s !! resolv (app s) = Some (Slist (Some d) [])
}.

(** The number of entries in the override slot. *)
Definition slot_entries (s : state) : nat :=
  if decide (resolv (app s) = NULL) then 0%nat
  else match heap s !! resolv (app s) with
       | Some (Slist _ rest) => S (length rest)
       | _ => 0%nat
       end.

Definition not_poll (i : input) : Prop :=
  match i with Poll _ _ _ _ => False | _ => True end.

(** A sample run-time environment for the examples: an address-to-text
    function that knows one IPv4 and one IPv6 address, a host name of 240
    characters, a state before the first poll result, and states after
    it. *)
Definition AF_INET6 : Z := 10.

Definition sample_ipv6 : list Z :=
  [32; 1; 13; 184; 133; 163; 18; 52; 86; 120; 138; 46; 3; 112; 115; 52].

Definition sample_ntop (af : Z) (addr : list Z) : option (list ascii) :=
  if decide (af = AF_INET ∧ addr = [8; 8; 8; 8]) then Some (chars "8.8.8.8")
  else if decide (af = AF_INET6 ∧ addr = sample_ipv6)
  then Some (chars "2001:db8:85a3:1234:5678:8a2e:370:7334")
  else None.

Definition long_hostname : list ascii :=
  replicate 63 "a"%char ++ chars "." ++ replicate 63 "b"%char ++ chars "." ++
  replicate 63 "c"%char ++ chars "." ++ replicate 40 "d"%char ++ chars ".example".

Definition sample_url : list ascii := chars "https://dns.google/resolve".

Definition sample_closed : state :=
  mk_state (mk_app 900 NULL sample_url 1)
           (<[100 := Bytes [18; 52; 1]]> (<[800 := Server 16]> ∅)) [] [].

Definition sample_open : state :=
  mk_state (mk_app 900 300 sample_url 1)
           (<[100 := Bytes [18; 52; 1]]>
              (<[300 := Slist (Some (chars "dns.google:443:8.8.8.8")) []]>
                 (<[800 := Server 16]> ∅))) [] [].

Definition sample_idle : state :=
  mk_state (mk_app 900 300 sample_url 1)
           (<[300 := Slist (Some (chars "dns.google:443:8.8.8.8")) []]>
              (<[800 := Server 16]> ∅)) [] [].

Definition sample_pending : state :=
  mk_state (mk_app 900 300 sample_url 1)
           (<[200 := Request (mk_request 4660 (raddr_of (replicate 16 7) 16) 800 100)]>
              (heap sample_open))
           [200] [].

(** ** Vocabulary of the further properties *)

(** ** Vocabulary of the further properties *)

(** [host] is the host part of [uri]: what stands between "https://" and
    the first '/' or the end of the string. *)
Definition host_of_uri (uri host : list ascii) : Prop :=
  ∃ rest, uri = chars "https://" ++ host ++ rest ∧
          Forall host_char host ∧ host_end rest.

(** What [hostname_from_uri] accepts with a given [hostname_len]: a host
    part that is not empty, ends in a letter and is shorter than
    [hostname_len]. *)
Definition accepted_uri (hostname_len : Z) (uri : list ascii) : Prop :=
  ∃ host c, host_of_uri uri (host ++ [c]) ∧ isalpha c = true ∧
            Z.of_nat (length (host ++ [c])) < hostname_len.

(** The ways a step of the reactor goes from a well-formed state, with the
    state it leads to: a query is discarded, ends the process for want of
    memory, or is forwarded; a fetch completes; a poll result ends the
    process for the length of the name, or is published. *)
Inductive step_shape (inet_ntop_text : Z → list Z → option (list ascii))
    (s : state) : input → outcome unit → Prop :=
| shape_discarded buf payload calloc_ret server addr id :
    bootstrapping s →
    step_shape inet_ntop_text s (Query buf payload calloc_ret server addr id)
      (Ok tt (with_events s
         [EvLog LOG_DEBUG "Received request for id: %04x, len: %d";
          EvLog LOG_WARNING "Query received before bootstrapping is completed, discarding.";
          EvFree buf]))
| shape_out_of_memory buf payload server addr id :
    bootstrapped s →
    step_shape inet_ntop_text s (Query buf payload NULL server addr id)
      (Exit (with_events
         (mk_state (app s) (<[buf := Bytes payload]> (heap s)) (inflight s) (trace s))
         [EvLog LOG_DEBUG "Received request for id: %04x, len: %d";
          EvLog LOG_FATAL "Out of mem"]))
| shape_forwarded buf payload calloc_ret server addr id n :
    bootstrapped s → calloc_ret ≠ NULL → heap s !! server = Some (Server n) →
    step_shape inet_ntop_text s (Query buf payload calloc_ret server addr id)
      (Ok tt (mk_state (app s)
         (<[calloc_ret := Request (mk_request id (raddr_of addr n) server buf)]>
            (<[buf := Bytes payload]> (heap s)))
         (inflight s ++ [calloc_ret])
         (trace s ++ [EvLog LOG_DEBUG "Received request for id: %04x, len: %d";
                      EvFetch (https_client (app s)) (resolver_url (app s)) buf
                              (Z.of_nat (length payload)) (resolv (app s))
                              calloc_ret])))
| shape_completed ctx response response_len r query :
    heap s !! ctx = Some (Request r) →
    heap s !! dns_req r = Some (Bytes query) →
    step_shape inet_ntop_text s (Complete ctx response response_len)
      (Ok tt (mk_state (app s) (delete ctx (delete (dns_req r) (heap s)))
         (remove_first ctx (inflight s))
         (trace s ++ completion_events ctx r response response_len)))
| shape_name_too_long append_ret hostname addr af :
    (254 < strlen hostname)%nat →
    step_shape inet_ntop_text s (Poll append_ret hostname addr af)
      (Exit (with_events s [EvLog LOG_FATAL "Hostname too long."]))
| shape_published append_ret hostname addr af :
    (strlen hostname ≤ 254)%nat →
    step_shape inet_ntop_text s (Poll append_ret hostname addr af)
      (Ok tt (mk_state
         (mk_app (https_client (app s)) append_ret (resolver_url (app s))
                 (using_dns_poller (app s)))
         (appended append_ret (override_text inet_ntop_text hostname af addr)
                   (released (resolv (app s)) (heap s)))
         (inflight s)
         (trace s ++ [EvLog LOG_DEBUG "Received new IP '%s'";
                      EvSlistFreeAll (resolv (app s))]))).

(** Every live block is accounted for: a record belongs to an outstanding
    fetch, a query buffer to the record of one, a list to the slot. *)
Definition tidy (s : state) : Prop :=
  ∀ p b, heap s !! p = Some b →
    match b with
    | Request _ => p ∈ inflight s
    | Bytes _ => ∃ ctx r, ctx ∈ inflight s ∧ heap s !! ctx = Some (Request r) ∧
                          dns_req r = p
    | Slist _ _ => p = resolv (app s)
    | Server _ => True
    end.

(** No more replies sent and fetches outstanding than fetches issued. *)
Definition balanced (s : state) : Prop :=
  (length (replies (trace s)) + length (inflight s)
   ≤ length (fetches (trace s)))%nat.

(** A poll result for which libcurl could allocate the list. *)
Definition append_succeeds (i : input) : Prop :=
  match i with Poll append_ret _ _ _ => append_ret ≠ NULL | _ => True end.

(** The state in which [main] reaches line 208: [app] as set up in lines
    175-179, the server as the one live block. *)
Definition main_state (opt : Options) (client server : ptr) (n : nat) : state :=
  mk_state (main_app opt client) {[server := Server n]} [] [].

(** Lines 225-227 of [main]: whether [dns_poller_cleanup] is called on the
    local [dns_poller] once [ev_run] has returned. *)
Definition main_poller_cleanup (opt : Options) : bool :=
  bool_decide (proxy_supports_name_resolution (opt_curl_proxy opt) = 0).

(** Whether [dns_poller_init] was called on it. *)
Definition is_poller_init (e : event) : bool :=
  match e with EvPollerInit _ _ _ => true | _ => false end.
Definition poller_initialised (t : list event) : bool := existsb is_poller_init t.

(** The fetches of a trace go through [client] to [url], and carry an
    override unless polling is off. *)
Definition fetch_to (client : ptr) (url : list ascii) (polling : Z) (e : event)
  : Prop :=
  match e with
  | EvFetch c u _ _ l _ => c = client ∧ u = url ∧ (l = NULL → polling = 0)
  | _ => True
  end.

Definition sample_options : Options :=
  mk_options sample_url None (chars "8.8.8.8") 0.
Definition sample_array : list ascii := replicate 255 "x"%char.

(** The state in which the sample configuration enters the loop. *)
Definition sample_start : state :=
  mk_state (mk_app 900 NULL sample_url 1) {[800 := Server 16]} []
    [EvPollerInit (chars "8.8.8.8") (chars "dns.google") AF_UNSPEC;
     EvLog LOG_INFO "DNS polling initialized for '%s'"].

Definition sample_run : list input :=
  [Query 101 [18; 52; 2] 201 800 (replicate 16 7) 4660;
   Poll 300 (chars "dns.google") [8; 8; 8; 8] AF_INET;
   Query 102 [18; 52; 3] 202 800 (replicate 16 7) 4661;
   Complete 202 (Some [18; 52; 131]) 3].

Ltac run_step :=
  unfold mbind, M_bind, mret, M_ret, get, emit, set_heap, set_app,
    set_inflight, undefined, when, DLOG, WLOG, ILOG, FLOG; simpl.

(** * Proofs *)

(** ** Facts about the C library functions *)

Lemma code_inj c d : code c = code d → c = d.
Proof.
  unfold code. intros H. apply N2Z.inj in H.
  rewrite <- (ascii_N_embedding c), <- (ascii_N_embedding d). by rewrite H.
Qed.

Lemma code_range c : 0 ≤ code c < 256.
Proof.
  unfold code. pose proof (N_ascii_bounded c). lia.
Qed.

Lemma tolower_NUL c : tolower c = NUL → c = NUL.
Proof.
  unfold tolower. destruct c as [[] [] [] [] [] [] [] []]; vm_compute; congruence.
Qed.

Lemma strlen_no_NUL s : Forall (λ c, c ≠ NUL) s → strlen s = length s.
Proof.
  induction 1 as [|c s Hc _ IH]; simpl; [done|].
  case_decide; [done|]. by rewrite IH.
Qed.

Lemma strlen_le s : (strlen s ≤ length s)%nat.
Proof. induction s as [|c s IH]; simpl; [lia|]. case_decide; lia. Qed.

Lemma cstring_no_NUL s : Forall (λ c, c ≠ NUL) (cstring s).
Proof.
  unfold cstring. induction s as [|c s IH]; simpl; [constructor|].
  case_decide; simpl; [constructor|]. by constructor.
Qed.

Lemma length_cstring s : length (cstring s) = strlen s.
Proof.
  unfold cstring. rewrite length_take. pose proof (strlen_le s). lia.
Qed.

Lemma strlen_app_NUL t r :
  Forall (λ c, c ≠ NUL) t → strlen (t ++ NUL :: r) = length t.
Proof.
  induction 1 as [|c t Hc _ IH]; simpl; [done|].
  rewrite decide_False by done. by rewrite IH.
Qed.

Lemma cstring_app_NUL t r :
  Forall (λ c, c ≠ NUL) t → cstring (t ++ NUL :: r) = t.
Proof.
  intros H. unfold cstring. rewrite strlen_app_NUL by done.
  by rewrite take_app_length.
Qed.

(** [strncmp] against a terminator-free string of the compared length
    tests for a prefix. *)
Lemma strncmp_prefix t : Forall (λ c, c ≠ NUL) t →
  ∀ s, strncmp s t (length t) = 0 ↔ take (length t) s = t.
Proof.
  induction 1 as [|c t Hc _ IH]; intros s; simpl.
  - done.
  - destruct s as [|d s]; simpl; unfold char_at; simpl.
    + case_decide as E; [congruence|]. split; [|done].
      intros H. exfalso. apply E. apply code_inj. lia.
    + case_decide as E.
      * subst d. case_decide; [done|]. rewrite IH. split; congruence.
      * split; [|congruence]. intros H. exfalso. apply E, code_inj. lia.
Qed.

Lemma strncasecmp_prefix t : Forall (λ c, c ≠ NUL) t →
  ∀ s, strncasecmp s t (length t) = 0
       ↔ tolower <$> take (length t) s = tolower <$> t.
Proof.
  induction 1 as [|c t Hc _ IH]; intros s; simpl.
  - done.
  - destruct s as [|d s]; simpl; unfold char_at; simpl.
    + case_decide as E.
      { exfalso. apply Hc, tolower_NUL. by rewrite <- E. }
      split; [|done]. intros H. exfalso. apply E, code_inj. lia.
    + case_decide as E.
      * case_decide as E0.
        { exfalso. apply Hc, tolower_NUL. by rewrite <- E. }
        rewrite IH, E. change (list_fmap ascii ascii tolower) with (fmap (M:=list) tolower).
        split; [by intros ->|by intros [=]].
      * split; [|simpl; congruence].
        intros H. exfalso. apply E, code_inj. lia.
Qed.

Lemma length_strncpy_chars src n : length (strncpy_chars src n) = n.
Proof.
  revert src. induction n as [|n IH]; intros src; [done|].
  destruct src as [|c src]; simpl; [by rewrite length_replicate|].
  case_decide; simpl; [by rewrite length_replicate|]. by rewrite IH.
Qed.

(** ** [hostname_from_uri]: what it accepts and what it stores *)

Lemma scan_host_app host rest :
  Forall host_char host → host_end rest → scan_host (host ++ rest) = length host.
Proof.
  induction 1 as [|c host [Hc1 Hc2] _ IH]; intros Hrest; simpl.
  - destruct rest as [|c rest]; [done|]. simpl.
    destruct Hrest as [H|H]; unfold char_at in H; simpl in H; subst c.
    + by rewrite decide_True.
    + rewrite decide_False by done. by rewrite decide_True.
  - rewrite !decide_False by done. by rewrite IH.
Qed.

Lemma scan_host_split uri :
  Forall host_char (take (scan_host uri) uri) ∧ host_end (drop (scan_host uri) uri).
Proof.
  induction uri as [|c uri [IH1 IH2]]; simpl.
  - split; [constructor|]. unfold host_end. by left.
  - case_decide as E1; simpl.
    { split; [constructor|]. unfold host_end. left. subst. reflexivity. }
    case_decide as E2; simpl.
    { split; [constructor|]. unfold host_end. right. subst. reflexivity. }
    split; [|done]. by constructor.
Qed.

Lemma scan_host_le uri : (scan_host uri ≤ length uri)%nat.
Proof.
  induction uri as [|c uri IH]; simpl; [lia|]. repeat case_decide; lia.
Qed.

Lemma strncpy_chars_host host rest :
  Forall host_char host → strncpy_chars (host ++ rest) (length host) = host.
Proof.
  induction 1 as [|c host [Hc _] _ IH]; simpl; [done|].
  rewrite decide_False by done. by rewrite IH.
Qed.

Lemma store_after host a :
  (length host < length a)%nat →
  store (host ++ drop (length host) a) (length host) NUL
  = Some (host ++ [NUL] ++ drop (S (length host)) a).
Proof.
  intros Hlt. unfold store.
  rewrite decide_True by (rewrite length_app, length_drop; lia).
  destruct (lookup_lt_is_Some_2 a (length host) Hlt) as [x Hx].
  rewrite (drop_S _ _ _ Hx).
  rewrite insert_app_r_alt by lia. by rewrite Nat.sub_diag.
Qed.

Lemma strlen_host host rest :
  Forall host_char host → strlen (host ++ NUL :: rest) = length host.
Proof.
  induction 1 as [|c host [Hc _] _ IH]; simpl.
  - done.
  - rewrite decide_False by done. by rewrite IH.
Qed.

Lemma https_prefix uri :
  strncmp uri (chars "https://") 8 = 0 ↔ ∃ u, uri = chars "https://" ++ u.
Proof.
  change 8%nat with (length (chars "https://")).
  rewrite strncmp_prefix by (repeat constructor; done).
  split.
  - intros H. exists (drop 8 uri). rewrite <- H at 1.
    symmetry. apply take_drop.
  - intros [u ->]. done.
Qed.

(** The accepting path: the host part is stored with its terminator. *)
Lemma hostname_from_uri_accepts host c rest hostname hostname_len :
  Forall host_char (host ++ [c]) → host_end rest → isalpha c = true →
  Z.of_nat (length (host ++ [c])) < hostname_len →
  (length (host ++ [c]) < length hostname)%nat →
  hostname_from_uri (chars "https://" ++ (host ++ [c]) ++ rest) hostname hostname_len
  = Some (1, (host ++ [c]) ++ [NUL] ++ drop (S (length (host ++ [c]))) hostname).
Proof.
  intros Hhost Hrest Hc Hlen Hfit. unfold hostname_from_uri.
  rewrite decide_False
    by (intros H; apply H; apply https_prefix; eauto).
  change (drop 8 (chars "https://" ++ ?u)) with u.
  rewrite scan_host_app by done.
  rewrite decide_False by lia.
  rewrite decide_False by (rewrite length_app; simpl; lia).
  replace (char_at ((host ++ [c]) ++ rest) (length (host ++ [c]) - 1)) with c.
  2:{ unfold char_at. rewrite <- app_assoc, length_app. simpl.
      replace (length host + 1 - 1)%nat with (length host) by lia.
      rewrite app_nth2 by lia. by rewrite Nat.sub_diag. }
  rewrite Hc. simpl.
  unfold strncpy. rewrite decide_True by lia. simpl.
  rewrite strncpy_chars_host by done.
  by rewrite store_after.
Qed.

Lemma hostname_from_uri_rejects_non_alpha host c rest hostname hostname_len :
  Forall host_char (host ++ [c]) → host_end rest → isalpha c = false →
  hostname_from_uri (chars "https://" ++ (host ++ [c]) ++ rest) hostname hostname_len
  = Some (0, hostname).
Proof.
  intros Hhost Hrest Hc. unfold hostname_from_uri.
  rewrite decide_False
    by (intros H; apply H; apply https_prefix; eauto).
  change (drop 8 (chars "https://" ++ ?u)) with u.
  rewrite scan_host_app by done.
  case_decide; [done|].
  rewrite decide_False by (rewrite length_app; simpl; lia).
  replace (char_at ((host ++ [c]) ++ rest) (length (host ++ [c]) - 1)) with c.
  2:{ unfold char_at. rewrite <- app_assoc, length_app. simpl.
      replace (length host + 1 - 1)%nat with (length host) by lia.
      rewrite app_nth2 by lia. by rewrite Nat.sub_diag. }
  by rewrite Hc.
Qed.

(** Every other path leaves the array alone and returns 0; the accepting
    path is the only one that returns non-zero. *)
Lemma hostname_from_uri_inv uri hostname hostname_len r hostname' :
  hostname_from_uri uri hostname hostname_len = Some (r, hostname') →
  r ≠ 0 →
  ∃ host c rest,
    uri = chars "https://" ++ (host ++ [c]) ++ rest ∧
    Forall host_char (host ++ [c]) ∧ host_end rest ∧ isalpha c = true ∧
    Z.of_nat (length (host ++ [c])) < hostname_len ∧
    (length (host ++ [c]) < length hostname)%nat ∧
    r = 1 ∧
    hostname' = (host ++ [c]) ++ [NUL] ++ drop (S (length (host ++ [c]))) hostname.
Proof.
  unfold hostname_from_uri. intros H Hr.
  case_decide as E1; [by simplify_eq|].
  apply https_prefix in E1 as [u ->].
  change (drop 8 (chars "https://" ++ u)) with u in H.
  case_decide as E2; [by simplify_eq|].
  case_decide as E3; [by simplify_eq|].
  destruct (isalpha (char_at u (scan_host u - 1))) eqn:E4; simpl in H;
    [|by simplify_eq].
  destruct (scan_host_split u) as [Hh Hr'].
  pose proof (scan_host_le u) as Hle.
  set (e := scan_host u) in *.
  destruct (exists_last (l := take e u)) as (host & c & Ehost).
  { intros E. apply (f_equal length) in E. rewrite length_take in E. simpl in E. lia. }
  assert (Hlen : length (host ++ [c]) = e).
  { rewrite <- Ehost, length_take. lia. }
  assert (Eu : u = (host ++ [c]) ++ drop e u).
  { rewrite <- Ehost. symmetry. apply take_drop. }
  assert (Ec : char_at u (e - 1) = c).
  { unfold char_at. rewrite Eu, <- app_assoc.
    rewrite length_app in Hlen. simpl in Hlen.
    rewrite app_nth2 by lia. replace (e - 1 - length host)%nat with 0%nat by lia.
    done. }
  rewrite Ec in E4. rewrite Ehost in Hh.
  unfold strncpy in H. case_decide as E5; simpl in H; [|done].
  assert (strncpy_chars u e = host ++ [c]) as Hcp.
  { rewrite Eu, <- Hlen. by rewrite strncpy_chars_host. }
  rewrite Hcp, <- Hlen in H.
  destruct (decide (length (host ++ [c]) < length hostname)%nat) as [Hfit|Hfit].
  2:{ unfold store in H. rewrite decide_False in H; [done|].
      rewrite (length_app (host ++ [c])), length_drop. lia. }
  rewrite store_after in H by done. simpl in H.
  exists host, c, (drop e u). rewrite Hlen in *.
  split_and!; try done; try lia.
  - by rewrite <- Eu.
  - by simplify_eq.
  - by simplify_eq.
Qed.

(** The array is never overrun when its size exceeds [hostname_len]. *)
Lemma hostname_from_uri_defined uri hostname hostname_len :
  hostname_len ≤ Z.of_nat (length hostname) →
  is_Some (hostname_from_uri uri hostname hostname_len).
Proof.
  intros Hlen. unfold hostname_from_uri.
  case_decide; [by eexists|].
  case_decide; [by eexists|].
  case_decide; [by eexists|].
  destruct (isalpha _); simpl; [|by eexists].
  unfold strncpy. rewrite decide_True by lia. simpl.
  unfold store. rewrite decide_True; [by eexists|].
  rewrite length_app, length_drop.
  rewrite length_strncpy_chars. lia.
Qed.

(** ** [proxy_supports_name_resolution] and the scheme prefixes *)

Lemma begins_with_ci_take s t :
  begins_with_ci s t ↔ tolower <$> take (length t) s = tolower <$> t.
Proof.
  split.
  - intros (pre & rest & -> & H).
    assert (length pre = length t) as <-.
    { apply (f_equal length) in H. by rewrite !length_fmap in H. }
    by rewrite take_app_length.
  - intros H. exists (take (length t) s), (drop (length t) s).
    split; [|done]. symmetry. apply take_drop.
Qed.

Lemma ptypes_loop_spec proxy ps :
  Forall (Forall (λ c, c ≠ NUL)) ps →
  (ptypes_loop proxy ps = 1 ↔ ∃ t, t ∈ ps ∧ begins_with_ci proxy t) ∧
  (ptypes_loop proxy ps = 0 ∨ ptypes_loop proxy ps = 1).
Proof.
  induction 1 as [|t ps Ht _ [IH1 IH2]]; simpl.
  - split; [|by left]. split; [done|]. intros (t & Ht & _). by apply elem_of_nil in Ht.
  - rewrite (strlen_no_NUL _ Ht).
    case_decide as E.
    + split; [|by right]. split; [|done]. intros _. exists t. split; [by left|].
      apply begins_with_ci_take. by apply strncasecmp_prefix.
    + split; [|done]. rewrite IH1. split.
      * intros (t' & Ht' & Hb). exists t'. split; [by right|done].
      * intros (t' & Ht' & Hb). apply elem_of_cons in Ht' as [->|Ht'].
        -- exfalso. apply E. apply strncasecmp_prefix; [done|].
           by apply begins_with_ci_take.
        -- eauto.
Qed.

Lemma ptypes_no_NUL : Forall (Forall (λ c, c ≠ NUL)) ptypes.
Proof. repeat constructor; done. Qed.

Lemma proxy_supports_spec proxy :
  (proxy_supports_name_resolution proxy = 1 ↔ proxy_resolves_names proxy) ∧
  (proxy_supports_name_resolution proxy = 0 ↔ ¬ proxy_resolves_names proxy).
Proof.
  destruct proxy as [p|].
  - change (proxy_supports_name_resolution (Some p)) with (ptypes_loop p ptypes).
    destruct (ptypes_loop_spec p ptypes ptypes_no_NUL) as [H1 H2].
    assert (ptypes_loop p ptypes = 1 ↔ proxy_resolves_names (Some p)) as H.
    { rewrite H1. split.
      - intros (t & Ht & Hb). by exists p, t.
      - intros (p' & t & [= <-] & Ht & Hb). by exists t. }
    split; [done|]. rewrite <- H. destruct H2 as [-> | ->]; lia.
  - simpl. split.
    + split; [done|]. by intros (p & t & [=] & _).
    + split; [|done]. by intros _ (p & t & [=] & _).
Qed.

(** ** [main]: the three ways through the start of polling *)

(** What [main_poller] does, by the two results it depends on. *)
Lemma main_poller_skipped opt hostname s :
  proxy_supports_name_resolution (opt_curl_proxy opt) ≠ 0 →
  main_poller opt hostname s = Ok tt s.
Proof. intros H. unfold main_poller. by rewrite decide_False. Qed.

Lemma main_poller_started opt hostname hostname' s :
  proxy_supports_name_resolution (opt_curl_proxy opt) = 0 →
  hostname_from_uri (opt_resolver_url opt) hostname 254 = Some (1, hostname') →
  main_poller opt hostname s =
  Ok tt (mk_state (mk_app (https_client (app s)) (resolv (app s))
                          (resolver_url (app s)) 1)
                  (heap s) (inflight s)
                  (trace s ++ [EvPollerInit (opt_bootstrap_dns opt) (cstring hostname')
                                 (if decide (opt_ipv4 opt ≠ 0) then AF_INET else AF_UNSPEC);
                               EvLog LOG_INFO "DNS polling initialized for '%s'"])).
Proof.
  intros H1 H2. unfold main_poller. rewrite decide_True by done.
  unfold mbind, M_bind. rewrite H2. simpl. 
  unfold emit, ILOG, emit. simpl. by rewrite <- app_assoc.
Qed.

Lemma main_poller_disabled opt hostname s :
  proxy_supports_name_resolution (opt_curl_proxy opt) = 0 →
  hostname_from_uri (opt_resolver_url opt) hostname 254 = Some (0, hostname) →
  main_poller opt hostname s =
  Ok tt (with_events s [EvLog LOG_INFO
    "Resolver prefix '%s' doesn't appear to contain a hostname. DNS polling disabled."]).
Proof.
  intros H1 H2. unfold main_poller. rewrite decide_True by done.
  unfold mbind, M_bind. rewrite H2. done.
Qed.

(** ** The callbacks, path by path *)

Lemma not_bootstrapped_closed s :
  bootstrapping s → not_bootstrapped s = Ok true s.
Proof.
  intros [Hp Hr]. unfold not_bootstrapped, resolv_unset. run_step.
  rewrite decide_True by done.
  destruct Hr as [Hr|[rest Hr]].
  - by rewrite decide_True.
  - case_decide; [done|]. by rewrite Hr.
Qed.

Lemma not_bootstrapped_open s :
  bootstrapped s → not_bootstrapped s = Ok false s.
Proof.
  intros Hb. unfold not_bootstrapped, resolv_unset. run_step.
  case_decide as E; [|done].
  destruct Hb as [Hb|(Hn & d & rest & Hr)]; [done|].
  rewrite decide_False by done. by rewrite Hr.
Qed.

Lemma not_bootstrapped_trace s es :
  not_bootstrapped (with_events s es)
  = match not_bootstrapped s with
    | Ok b _ => Ok b (with_events s es)
    | Exit _ => Exit (with_events s es)
    | Undefined => Undefined
    end.
Proof.
  unfold not_bootstrapped, resolv_unset. run_step.
  case_decide; [|done]. unfold with_events; simpl. case_decide; [done|].
  destruct (heap s !! resolv (app s)) as [[]|]; done.
Qed.

Lemma dns_server_cb_closed s calloc_ret server addr id buf len bs :
  bootstrapping s → heap s !! buf = Some bs → buf ≠ NULL →
  dns_server_cb calloc_ret server addr id buf len s
  = Ok tt (mk_state (app s) (delete buf (heap s)) (inflight s)
       (trace s ++ [EvLog LOG_DEBUG "Received request for id: %04x, len: %d";
                    EvLog LOG_WARNING "Query received before bootstrapping is completed, discarding.";
                    EvFree buf])).
Proof.
  intros Hb Hbuf Hn. unfold dns_server_cb.
  unfold mbind at 1. unfold M_bind at 1. unfold DLOG, emit.
  change (mk_state (app s) (heap s) (inflight s) (trace s ++ ?es)) with (with_events s es).
  unfold mbind at 1. unfold M_bind at 1.
  rewrite not_bootstrapped_trace, (not_bootstrapped_closed s Hb).
  unfold free, with_events. run_step. rewrite decide_False by done. simpl. rewrite Hbuf.
  by rewrite <- !app_assoc.
Qed.

Lemma dns_server_cb_oom s server addr id buf len :
  bootstrapped s →
  dns_server_cb NULL server addr id buf len s
  = Exit (with_events s [EvLog LOG_DEBUG "Received request for id: %04x, len: %d";
                         EvLog LOG_FATAL "Out of mem"]).
Proof.
  intros Hb. unfold dns_server_cb.
  unfold mbind at 1. unfold M_bind at 1. unfold DLOG, emit.
  change (mk_state (app s) (heap s) (inflight s) (trace s ++ ?es)) with (with_events s es).
  unfold mbind at 1. unfold M_bind at 1.
  rewrite not_bootstrapped_trace, (not_bootstrapped_open s Hb).
  unfold calloc_request, with_events. run_step. by rewrite <- !app_assoc.
Qed.

Opaque sizeof_sockaddr_storage.

Lemma dns_server_cb_open s calloc_ret server addr id buf len n :
  bootstrapped s → calloc_ret ≠ NULL → heap s !! calloc_ret = None →
  heap s !! server = Some (Server n) →
  (n ≤ length addr)%nat → (n ≤ sizeof_sockaddr_storage)%nat →
  dns_server_cb calloc_ret server addr id buf len s
  = Ok tt (mk_state (app s)
       (<[calloc_ret := Request (mk_request id (raddr_of addr n) server buf)]> (heap s))
       (inflight s ++ [calloc_ret])
       (trace s ++ [EvLog LOG_DEBUG "Received request for id: %04x, len: %d";
                    EvFetch (https_client (app s)) (resolver_url (app s)) buf len
                            (resolv (app s)) calloc_ret])).
Proof.
  intros Hb Hn Hfresh Hsrv Hn1 Hn2. unfold dns_server_cb.
  unfold mbind at 1. unfold M_bind at 1. unfold DLOG, emit.
  change (mk_state (app s) (heap s) (inflight s) (trace s ++ ?es)) with (with_events s es).
  unfold mbind at 1. unfold M_bind at 1.
  rewrite not_bootstrapped_trace, (not_bootstrapped_open s Hb).
  assert (server ≠ calloc_ret) as Hne by (intros ->; congruence).
  unfold calloc_request, assign_tx_id, assign_raddr, assign_dns_server,
    assign_dns_req, load_request, store_request, load_addrlen, memcpy,
    https_client_fetch, with_events.
  run_step. rewrite decide_False by done. simpl.
  rewrite bool_decide_false by done. simpl.
  repeat (first [rewrite lookup_insert_eq | rewrite insert_insert_eq]; simpl).
  rewrite lookup_insert_ne by done. rewrite Hsrv. simpl.
  repeat (first [rewrite lookup_insert_eq | rewrite insert_insert_eq]; simpl).
  rewrite decide_True by (rewrite length_replicate; done). simpl.
  repeat (first [rewrite lookup_insert_eq | rewrite insert_insert_eq]; simpl).
  by rewrite <- !app_assoc.
Qed.

Transparent sizeof_sockaddr_storage.

Lemma https_resp_cb_null s buf buflen :
  https_resp_cb NULL buf buflen s
  = Exit (with_events s [EvLog LOG_DEBUG "buflen %u\n"; EvLog LOG_FATAL "data NULL"]).
Proof.
  unfold https_resp_cb, with_events. run_step. by rewrite <- !app_assoc.
Qed.

Lemma https_resp_cb_live s ctx r bs buf buflen :
  ctx ≠ NULL → heap s !! ctx = Some (Request r) →
  dns_req r ≠ NULL → heap s !! dns_req r = Some bs → dns_req r ≠ ctx →
  https_resp_cb ctx buf buflen s
  = Ok tt (mk_state (app s) (delete ctx (delete (dns_req r) (heap s)))
             (inflight s) (trace s ++ completion_events ctx r buf buflen)).
Proof.
  intros Hn Hctx Hbn Hb Hne.
  unfold https_resp_cb, load_request, dns_server_respond, free, completion_events.
  run_step. rewrite bool_decide_false by done. simpl.
  destruct buf as [b|]; simpl; rewrite ?Hctx; simpl; rewrite ?Hctx; simpl;
    rewrite decide_False by done; simpl; rewrite Hb; simpl;
    rewrite decide_False by done; simpl;
    rewrite lookup_delete_ne by done; rewrite Hctx; simpl;
    by rewrite <- !app_assoc.
Qed.

Section PollPaths.

Variable inet_ntop_text : Z → list Z → option (list ascii).

Lemma poll_buffer hostname af addr :
  (strlen hostname ≤ 254)%nat →
  ∃ buf1 buf2,
    snprintf (replicate 280 NUL) (280 - 1) (cstring hostname ++ chars ":443:")
      = Some buf1 ∧
    ares_inet_ntop inet_ntop_text af addr buf1 (strlen buf1) (280 - 1 - strlen buf1)
      = Some buf2 ∧
    cstring buf2 = override_text inet_ntop_text hostname af addr.
Proof.
  intros Hlen.
  set (text := cstring hostname ++ chars ":443:").
  assert (Forall (λ c, c ≠ NUL) text) as Htext.
  { apply Forall_app. split; [apply cstring_no_NUL|repeat constructor; done]. }
  assert (length text = strlen hostname + 5)%nat as Hl.
  { unfold text. by rewrite length_app, length_cstring. }
  set (zeros := replicate 280 NUL).
  assert (length zeros = 280%nat) as Hz by apply length_replicate.
  exists (text ++ NUL :: drop (length text + 1) zeros).
  assert (snprintf zeros (280 - 1) text
          = Some (text ++ NUL :: drop (length text + 1) zeros)) as H1.
  { unfold snprintf. rewrite decide_False by lia.
    rewrite decide_True by lia.
    rewrite take_ge by lia. done. }
  set (buf1 := text ++ NUL :: drop (length text + 1) zeros) in *.
  assert (strlen buf1 = length text) as Hs1 by (by apply strlen_app_NUL).
  assert (length buf1 = 280%nat) as Hl1.
  { unfold buf1. rewrite length_app, length_cons, length_drop. lia. }
  assert (take (length text) buf1 = text) as Ht1.
  { unfold buf1. by rewrite take_app_length. }
  unfold ares_inet_ntop, override_text. rewrite Hs1.
  rewrite decide_True by lia.
  replace (280 - 1 - length text)%nat with (274 - strlen hostname)%nat by lia.
  destruct (inet_ntop_text af addr) as [t|].
  - case_decide as Hfit.
    + eexists. split_and!; [done..|].
      rewrite Ht1. rewrite (app_assoc text).
      change ([NUL] ++ ?x) with (NUL :: x).
      rewrite cstring_app_NUL; [unfold text; by rewrite <- app_assoc|].
      apply Forall_app. split; [done|apply cstring_no_NUL].
    + eexists. split_and!; [done..|].
      unfold buf1. rewrite cstring_app_NUL by done. unfold text. by rewrite app_nil_r.
  - eexists. split_and!; [done..|].
    unfold buf1. rewrite cstring_app_NUL by done. unfold text. by rewrite app_nil_r.
Qed.

Lemma dns_poll_cb_too_long s append_ret hostname addr af :
  (254 < strlen hostname)%nat →
  dns_poll_cb inet_ntop_text append_ret hostname addr af s
  = Exit (with_events s [EvLog LOG_FATAL "Hostname too long."]).
Proof.
  intros H. unfold dns_poll_cb. cbv zeta.
  rewrite bool_decide_true by done. done.
Qed.

Lemma dns_poll_cb_ok s append_ret hostname addr af :
  (strlen hostname ≤ 254)%nat →
  (resolv (app s) = NULL ∨
   ∃ d rest, heap s !! resolv (app s) = Some (Slist d rest)) →
  dns_poll_cb inet_ntop_text append_ret hostname addr af s
  = Ok tt (mk_state
       (mk_app (https_client (app s)) append_ret (resolver_url (app s))
               (using_dns_poller (app s)))
       (appended append_ret (override_text inet_ntop_text hostname af addr)
                 (released (resolv (app s)) (heap s)))
       (inflight s)
       (trace s ++ [EvLog LOG_DEBUG "Received new IP '%s'";
                    EvSlistFreeAll (resolv (app s))])).
Proof.
  intros Hlen Hres. unfold dns_poll_cb. cbv zeta.
  rewrite bool_decide_false by lia.
  destruct (poll_buffer hostname af addr Hlen) as (buf1 & buf2 & H1 & H2 & H3).
  unfold when, mbind, M_bind, mret, M_ret. rewrite H1. unfold defined at 1.
  unfold mret, M_ret. rewrite H2. unfold defined.
  unfold curl_slist_free_all, curl_slist_append_to_null, released, appended.
  run_step. rewrite H3.
  destruct Hres as [Hres|(d & rest & Hres)].
  - destruct (decide (resolv (app s) = NULL)) as [E|E]; [|done]. simpl.
    destruct (decide (append_ret = NULL)) as [->|Ha]; simpl;
      by rewrite <- !app_assoc.
  - destruct (decide (resolv (app s) = NULL)) as [E|E]; simpl.
    + destruct (decide (append_ret = NULL)) as [->|Ha]; simpl;
        by rewrite <- !app_assoc.
    + rewrite Hres. simpl.
      destruct (decide (append_ret = NULL)) as [->|Ha]; simpl;
        by rewrite <- !app_assoc.
Qed.

Lemma dns_poll_cb_exit_inv append_ret hostname addr af s s' :
  dns_poll_cb inet_ntop_text append_ret hostname addr af s = Exit s' →
  (254 < strlen hostname)%nat.
Proof.
  intros Hexit. destruct (decide (254 < strlen hostname)%nat) as [|Hshort]; [done|].
  exfalso. revert Hexit. unfold dns_poll_cb. cbv zeta.
  rewrite bool_decide_false by done.
  destruct (poll_buffer hostname af addr) as (buf1 & buf2 & H1 & H2 & H3);
    [lia|].
  unfold when, mbind, M_bind, mret, M_ret. rewrite H1. unfold defined at 1.
  unfold mret, M_ret. rewrite H2. unfold defined.
  unfold curl_slist_free_all, curl_slist_append_to_null.
  run_step.
  destruct (decide (resolv (app s) = NULL)); simpl.
  - destruct (decide (append_ret = NULL)); simpl; discriminate.
  - destruct (heap s !! resolv (app s)) as [[]|]; simpl; try discriminate;
      destruct (decide (append_ret = NULL)); simpl; discriminate.
Qed.

End PollPaths.

(** ** The steps of the reactor *)

Lemma frees_singleton p : frees p [EvFree p] = 1%nat.
Proof. unfold frees. simpl. by rewrite bool_decide_true. Qed.

Lemma fetches_app t1 t2 : fetches (t1 ++ t2) = fetches t1 ++ fetches t2.
Proof. apply List.filter_app. Qed.

Lemma replies_app t1 t2 : replies (t1 ++ t2) = replies t1 ++ replies t2.
Proof. apply List.filter_app. Qed.

Lemma bootstrapping_insert s p b :
  bootstrapping s → heap s !! p = None →
  bootstrapping (mk_state (app s) (<[p := b]> (heap s)) (inflight s) (trace s)).
Proof.
  intros [Hp Hr] Hfresh. split; [done|]. simpl.
  destruct Hr as [Hr|[rest Hr]]; [by left|]. right. exists rest.
  rewrite lookup_insert_ne; [done|]. intros ->. congruence.
Qed.

Lemma bootstrapped_insert s p b :
  bootstrapped s → heap s !! p = None →
  bootstrapped (mk_state (app s) (<[p := b]> (heap s)) (inflight s) (trace s)).
Proof.
  intros Hb Hfresh. destruct Hb as [Hb|(Hn & d & rest & Hr)]; [by left|].
  right. split; [done|]. exists d, rest. simpl.
  rewrite lookup_insert_ne; [done|]. intros ->. congruence.
Qed.

Lemma remove_first_subseteq p l q : q ∈ remove_first p l → q ∈ l.
Proof.
  induction l as [|x l IH]; simpl; [done|].
  case_decide as E; [by right|]. intros [->|H]%elem_of_cons; [by left|].
  right. by apply IH.
Qed.

Lemma remove_first_NoDup p l : NoDup l → NoDup (remove_first p l).
Proof.
  induction 1 as [|x l Hx Hl IH]; simpl; [constructor|].
  case_decide as E; [done|]. constructor; [|done].
  intros H'. by apply Hx, (remove_first_subseteq p).
Qed.

Lemma remove_first_not_elem p l : NoDup l → p ∉ remove_first p l.
Proof.
  induction 1 as [|x l Hx Hl IH]; simpl; [by intros ?%elem_of_nil|].
  case_decide as E; [by subst|].
  intros [->|H]%elem_of_cons; [done|]. by apply IH.
Qed.

Lemma remove_first_other p q l : q ≠ p → q ∈ l → q ∈ remove_first p l.
Proof.
  intros Hne. induction l as [|x l IH]; simpl; [done|].
  intros [->|Hin]%elem_of_cons.
  - rewrite decide_False by done. by left.
  - case_decide; [done|]. right. by apply IH.
Qed.

Lemma dns_server_recv_eq s buf payload calloc_ret server addr id :
  dns_server_recv buf payload calloc_ret server addr id s
  = dns_server_cb calloc_ret server addr id buf (Z.of_nat (length payload))
      (mk_state (app s) (<[buf := Bytes payload]> (heap s)) (inflight s) (trace s)).
Proof. reflexivity. Qed.

Lemma https_client_complete_eq s ctx response response_len :
  https_client_complete ctx response response_len s
  = https_resp_cb ctx response response_len
      (mk_state (app s) (heap s) (remove_first ctx (inflight s)) (trace s)).
Proof. reflexivity. Qed.

Section Steps.

Variable inet_ntop_text : Z → list Z → option (list ascii).

(** A query that arrives while the gate is closed leaves nothing behind
    but three trace entries. *)
Lemma react_query_closed s buf payload calloc_ret server addr id :
  bootstrapping s → enabled s (Query buf payload calloc_ret server addr id) →
  react inet_ntop_text (Query buf payload calloc_ret server addr id) s
  = Ok tt (with_events s
      [EvLog LOG_DEBUG "Received request for id: %04x, len: %d";
       EvLog LOG_WARNING "Query received before bootstrapping is completed, discarding.";
       EvFree buf]).
Proof.
  intros Hg (Hbn & Hfresh & _). unfold react. rewrite dns_server_recv_eq.
  erewrite dns_server_cb_closed;
    [|by apply bootstrapping_insert|apply lookup_insert_eq|done].
  simpl. by rewrite delete_insert_id.
Qed.

Lemma react_query_open s buf payload calloc_ret server addr id n :
  bootstrapped s → buf ≠ calloc_ret → calloc_ret ≠ NULL →
  heap s !! buf = None → heap s !! calloc_ret = None →
  heap s !! server = Some (Server n) →
  (n ≤ length addr)%nat → (n ≤ sizeof_sockaddr_storage)%nat →
  react inet_ntop_text (Query buf payload calloc_ret server addr id) s
  = Ok tt (mk_state (app s)
       (<[calloc_ret := Request (mk_request id (raddr_of addr n) server buf)]>
          (<[buf := Bytes payload]> (heap s)))
       (inflight s ++ [calloc_ret])
       (trace s ++ [EvLog LOG_DEBUG "Received request for id: %04x, len: %d";
                    EvFetch (https_client (app s)) (resolver_url (app s)) buf
                            (Z.of_nat (length payload)) (resolv (app s)) calloc_ret])).
Proof.
  intros Hg Hne Hcn Hb Hc Hsrv Hn1 Hn2. unfold react.
  rewrite dns_server_recv_eq.
  erewrite dns_server_cb_open; [done|by apply bootstrapped_insert|done| | |done|done].
  - simpl. by rewrite lookup_insert_ne.
  - simpl. rewrite lookup_insert_ne; [done|]. intros ->. congruence.
Qed.

Lemma react_complete_live s ctx r query buf buflen :
  ctx ≠ NULL → dns_req r ≠ NULL →
  heap s !! ctx = Some (Request r) → heap s !! dns_req r = Some (Bytes query) →
  react inet_ntop_text (Complete ctx buf buflen) s
  = Ok tt (mk_state (app s) (delete ctx (delete (dns_req r) (heap s)))
             (remove_first ctx (inflight s))
             (trace s ++ completion_events ctx r buf buflen)).
Proof.
  intros Hcn Hbn Hr Hb. unfold react. rewrite https_client_complete_eq.
  erewrite https_resp_cb_live; [done|done| |done| |]; simpl; try done.
  intros E. rewrite E in Hb. congruence.
Qed.

Lemma closed_gate_runs s ins o :
  runs inet_ntop_text s ins o →
  bootstrapping s → inflight s = [] → Forall not_poll ins →
  ∃ s', o = Ok tt s' ∧ bootstrapping s' ∧ app s' = app s ∧ heap s' = heap s ∧
        inflight s' = [] ∧
        fetches (trace s') = fetches (trace s) ∧
        replies (trace s') = replies (trace s).
Proof.
  induction 1 as [s|s i s' rest o Hen Hstep Hrun IH|s i s' rest Hen Hstep
                  |s i rest Hen Hstep]; intros Hg Hin Hnp.
  - by exists s.
  - apply Forall_cons in Hnp as [Hi Hnp].
    destruct i as [buf payload cr srv addr id|ctx resp len|ar hn addr af];
      [|simpl in Hen; rewrite Hin in Hen; by apply elem_of_nil in Hen|done].
    rewrite (react_query_closed _ _ _ _ _ _ _ Hg Hen) in Hstep.
    injection Hstep as <-.
    destruct IH as (s'' & -> & Hg' & Ha & Hh & Hi' & Hf & Hr); [done..|].
    exists s''. split_and!; try done.
    + rewrite Hf. simpl. rewrite fetches_app. simpl. by rewrite app_nil_r.
    + rewrite Hr. simpl. rewrite replies_app. simpl. by rewrite app_nil_r.
  - apply Forall_cons in Hnp as [Hi Hnp].
    destruct i as [buf payload cr srv addr id|ctx resp len|ar hn addr af];
      [|simpl in Hen; rewrite Hin in Hen; by apply elem_of_nil in Hen|done].
    by rewrite (react_query_closed _ _ _ _ _ _ _ Hg Hen) in Hstep.
  - apply Forall_cons in Hnp as [Hi Hnp].
    destruct i as [buf payload cr srv addr id|ctx resp len|ar hn addr af];
      [|simpl in Hen; rewrite Hin in Hen; by apply elem_of_nil in Hen|done].
    by rewrite (react_query_closed _ _ _ _ _ _ _ Hg Hen) in Hstep.
Qed.

End Steps.

(** ** The ownership invariant of the reactor *)

Lemma wf_gate s : wf s → bootstrapping s ∨ bootstrapped s.
Proof.
  intros Hwf. destruct (decide (using_dns_poller (app s) = 0)) as [E|E].
  { right. by left. }
  destruct (wf_resolv s Hwf) as [Hr|[d Hr]].
  - left. split; [done|]. by left.
  - right. right. split; [|by eauto].
    intros Hn. rewrite Hn, (wf_null s Hwf) in Hr. done.
Qed.

Lemma wf_trace a h l t t' : wf (mk_state a h l t) → wf (mk_state a h l t').
Proof. intros [H1 H2 H3 H4 H5]. by constructor. Qed.

Lemma wf_slot_entries s : wf s → (slot_entries s ≤ 1)%nat.
Proof.
  intros Hwf. unfold slot_entries. case_decide; [lia|].
  destruct (wf_resolv s Hwf) as [?|[d Hd]]; [done|]. rewrite Hd. simpl. lia.
Qed.

Section Invariant.

Variable inet_ntop_text : Z → list Z → option (list ascii).

Lemma query_preserves s buf payload calloc_ret server addr id :
  wf s → enabled s (Query buf payload calloc_ret server addr id) →
  (∃ s', react inet_ntop_text (Query buf payload calloc_ret server addr id) s = Ok tt s' ∧ wf s') ∨
  (∃ s', react inet_ntop_text (Query buf payload calloc_ret server addr id) s = Exit s').
Proof.
  intros Hwf (Hbn & Hbuf & Hret & n & Hsrv & Hn1 & Hn2).
  unfold react. rewrite dns_server_recv_eq.
  set (s1 := mk_state (app s) (<[buf := Bytes payload]> (heap s)) (inflight s) (trace s)).
  assert (∀ p b, heap s !! p = Some b → heap s1 !! p = Some b) as Hkeep.
  { intros p b Hp. simpl. rewrite lookup_insert_ne; [done|]. intros ->. congruence. }
  destruct (wf_gate s Hwf) as [Hg|Hg].
  - (* the gate is closed: the buffer, just allocated, is released *)
    left. assert (bootstrapping s1) as Hg1.
    { destruct Hg as [Hp [Hr|[rest Hr]]]; split; try done; [by left|].
      right. exists rest. by apply Hkeep. }
    erewrite dns_server_cb_closed; [|done| |done].
    2:{ simpl. apply lookup_insert_eq. }
    eexists. split; [done|]. simpl.
    rewrite delete_insert_id by done.
    destruct s. by eapply wf_trace.
  - assert (bootstrapped s1) as Hg1.
    { destruct Hg as [Hp|(Hr & d & rest & Hl)]; [by left|].
      right. split; [done|]. exists d, rest. by apply Hkeep. }
    destruct (decide (calloc_ret = NULL)) as [->|Hcn].
    { right. rewrite dns_server_cb_oom by done. by eexists. }
    destruct Hret as [?|[Hfresh Hne]]; [done|].
    left. erewrite (dns_server_cb_open s1); [|done|done| |by apply Hkeep|done|done].
    2:{ simpl. by rewrite lookup_insert_ne. }
    eexists. split; [done|].
    assert (∀ p b, heap s !! p = Some b →
       (<[calloc_ret := Request (mk_request id (raddr_of addr n) server buf)]>
          (<[buf := Bytes payload]> (heap s))) !! p = Some b) as Hkeep2.
    { intros p b Hp. rewrite lookup_insert_ne; [by apply Hkeep|].
      intros ->. congruence. }
    assert (calloc_ret ∉ inflight s) as Hnew.
    { intros Hin. destruct (wf_owned s Hwf _ Hin) as (r & bs & Hr & _). congruence. }
    constructor; simpl.
    + rewrite !lookup_insert_ne by done. apply Hwf.
    + apply NoDup_app. split_and!; [apply Hwf| |apply NoDup_singleton].
      intros x Hx ->%list_elem_of_singleton. done.
    + intros ctx [Hin| ->%list_elem_of_singleton]%elem_of_app.
      * destruct (wf_owned s Hwf _ Hin) as (r & bs & Hr & Hb).
        exists r, bs. split; by apply Hkeep2.
      * eexists _, payload. rewrite lookup_insert_eq. split; [done|]. simpl.
        rewrite lookup_insert_ne by done. apply lookup_insert_eq.
    + intros c1 c2 r1 r2 Hc1 Hc2 H1 H2 Heq.
      apply elem_of_app in Hc1 as [Hc1| ->%list_elem_of_singleton];
        apply elem_of_app in Hc2 as [Hc2| ->%list_elem_of_singleton];
        [|exfalso|exfalso|done].
      * destruct (wf_owned s Hwf _ Hc1) as (r1' & bs1 & Hr1 & Hb1).
        destruct (wf_owned s Hwf _ Hc2) as (r2' & bs2 & Hr2 & Hb2).
        rewrite (Hkeep2 _ _ Hr1) in H1. rewrite (Hkeep2 _ _ Hr2) in H2.
        simplify_eq. by eapply (wf_unshared s Hwf c1 c2).
      * destruct (wf_owned s Hwf _ Hc1) as (r1' & bs1 & Hr1 & Hb1).
        rewrite (Hkeep2 _ _ Hr1) in H1. rewrite lookup_insert_eq in H2.
        simplify_eq. simpl in *. simplify_eq.
      * destruct (wf_owned s Hwf _ Hc2) as (r2' & bs2 & Hr2 & Hb2).
        rewrite (Hkeep2 _ _ Hr2) in H2. rewrite lookup_insert_eq in H1.
        simplify_eq. simpl in *. simplify_eq.
    + destruct (wf_resolv s Hwf) as [Hr|[d Hr]]; [by left|].
      right. exists d. by apply Hkeep2.
Qed.

Lemma complete_preserves s ctx response response_len :
  wf s → enabled s (Complete ctx response response_len) →
  ∃ r bs,
    heap s !! ctx = Some (Request r) ∧ heap s !! dns_req r = Some (Bytes bs) ∧
    react inet_ntop_text (Complete ctx response response_len) s
    = Ok tt (mk_state (app s) (delete ctx (delete (dns_req r) (heap s)))
               (remove_first ctx (inflight s))
               (trace s ++ completion_events ctx r response response_len)) ∧
    wf (mk_state (app s) (delete ctx (delete (dns_req r) (heap s)))
               (remove_first ctx (inflight s))
               (trace s ++ completion_events ctx r response response_len)).
Proof.
  intros Hwf Hin. simpl in Hin.
  destruct (wf_owned s Hwf _ Hin) as (r & bs & Hr & Hb).
  exists r, bs. split; [done|]. split; [done|].
  assert (ctx ≠ NULL) as Hcn.
  { intros ->. rewrite (wf_null s Hwf) in Hr. done. }
  assert (dns_req r ≠ NULL) as Hbn.
  { intros E. rewrite E, (wf_null s Hwf) in Hb. done. }
  assert (dns_req r ≠ ctx) as Hne.
  { intros E. rewrite E in Hb. congruence. }
  split.
  { unfold react. rewrite https_client_complete_eq.
    by erewrite https_resp_cb_live. }
  assert (∀ c, c ∈ remove_first ctx (inflight s) → c ∈ inflight s ∧ c ≠ ctx) as Hrest.
  { intros c Hc. split; [by eapply remove_first_subseteq|].
    intros ->. by eapply remove_first_not_elem; [apply Hwf|]. }
  assert (∀ c r' bs', c ∈ inflight s → c ≠ ctx →
            heap s !! c = Some (Request r') → heap s !! dns_req r' = Some (Bytes bs') →
            delete ctx (delete (dns_req r) (heap s)) !! c = Some (Request r') ∧
            delete ctx (delete (dns_req r) (heap s)) !! dns_req r' = Some (Bytes bs'))
    as Hkeep.
  { intros c r' bs' Hc Hcne Hr' Hb'. split.
    - rewrite lookup_delete_ne by done. rewrite lookup_delete_ne; [done|].
      intros E. rewrite E in Hb. congruence.
    - rewrite lookup_delete_ne by (intros E; rewrite <- E in Hb'; congruence).
      rewrite lookup_delete_ne; [done|].
      intros E. apply Hcne. symmetry. by eapply (wf_unshared s Hwf ctx c). }
  constructor; simpl.
  - rewrite !lookup_delete_ne by done. apply Hwf.
  - apply remove_first_NoDup, Hwf.
  - intros c [Hc Hcne]%Hrest.
    destruct (wf_owned s Hwf _ Hc) as (r' & bs' & Hr' & Hb').
    exists r', bs'. by apply Hkeep.
  - intros c1 c2 r1 r2 [Hc1 Hn1]%Hrest [Hc2 Hn2]%Hrest H1 H2 Heq.
    destruct (wf_owned s Hwf _ Hc1) as (r1' & bs1 & Hr1 & Hb1).
    destruct (wf_owned s Hwf _ Hc2) as (r2' & bs2 & Hr2 & Hb2).
    destruct (Hkeep _ _ _ Hc1 Hn1 Hr1 Hb1) as [K1 _].
    destruct (Hkeep _ _ _ Hc2 Hn2 Hr2 Hb2) as [K2 _].
    rewrite K1 in H1. rewrite K2 in H2. simplify_eq.
    by eapply (wf_unshared s Hwf c1 c2).
  - destruct (wf_resolv s Hwf) as [Hn|[d Hd]]; [by left|].
    right. exists d.
    rewrite lookup_delete_ne by (intros E; rewrite <- E in Hd; congruence).
    rewrite lookup_delete_ne; [done|].
    intros E. rewrite <- E in Hd. congruence.
Qed.

Lemma poll_preserves s append_ret hostname addr af :
  wf s → enabled s (Poll append_ret hostname addr af) →
  (∃ s', react inet_ntop_text (Poll append_ret hostname addr af) s = Ok tt s' ∧ wf s') ∨
  (∃ s', react inet_ntop_text (Poll append_ret hostname addr af) s = Exit s').
Proof.
  intros Hwf Hen. simpl in Hen. unfold react.
  destruct (decide (254 < strlen hostname)%nat) as [Hlong|Hshort].
  { right. rewrite dns_poll_cb_too_long by done. by eexists. }
  left. rewrite dns_poll_cb_ok; [|lia|].
  2:{ destruct (wf_resolv s Hwf) as [Hn|[d Hd]]; [by left|]. right. eauto. }
  eexists. split; [done|].
  assert (∀ p b, heap s !! p = Some b → (∀ d rest, b ≠ Slist d rest) →
     appended append_ret (override_text inet_ntop_text hostname af addr)
       (released (resolv (app s)) (heap s)) !! p = Some b) as Hkeep.
  { intros p b Hp Hb.
    assert (released (resolv (app s)) (heap s) !! p = Some b) as Hrel.
    { unfold released. case_decide; [done|].
      rewrite lookup_delete_ne; [done|]. intros E.
      destruct (wf_resolv s Hwf) as [Hn|[d Hd]]; [done|].
      rewrite E in Hd. rewrite Hd in Hp. simplify_eq. by eapply Hb. }
    unfold appended. case_decide as Ea; [done|].
    rewrite lookup_insert_ne; [done|]. intros <-.
    destruct Hen as [?|[Hf|Hr]]; [done|congruence|].
    destruct (wf_resolv s Hwf) as [Hn|[d Hd]]; [congruence|].
    rewrite <- Hr in Hd. rewrite Hd in Hp. simplify_eq. by eapply Hb. }
  constructor; simpl.
  - unfold appended, released.
    case_decide; [|rewrite lookup_insert_ne by done];
      (case_decide; [|rewrite lookup_delete_ne by done]); apply Hwf.
  - apply Hwf.
  - intros c Hc. destruct (wf_owned s Hwf _ Hc) as (r & bs & Hr & Hb).
    exists r, bs. split; by apply Hkeep.
  - intros c1 c2 r1 r2 Hc1 Hc2 H1 H2 Heq.
    destruct (wf_owned s Hwf _ Hc1) as (r1' & bs1 & Hr1 & Hb1).
    destruct (wf_owned s Hwf _ Hc2) as (r2' & bs2 & Hr2 & Hb2).
    rewrite (Hkeep _ _ Hr1) in H1 by done. rewrite (Hkeep _ _ Hr2) in H2 by done.
    simplify_eq. by eapply (wf_unshared s Hwf c1 c2).
  - unfold appended. case_decide as Ea; [by left|]. right.
    eexists. apply lookup_insert_eq.
Qed.

(** One step of the reactor from a well-formed state is never undefined,
    and leaves the state well-formed. *)
Lemma react_preserves s i :
  wf s → enabled s i →
  (∃ s', react inet_ntop_text i s = Ok tt s' ∧ wf s') ∨
  (∃ s', react inet_ntop_text i s = Exit s').
Proof.
  intros Hwf Hen. destruct i as [buf payload cr srv addr id|ctx resp len|ar hn addr af].
  - by apply query_preserves.
  - left. destruct (complete_preserves s ctx resp len Hwf Hen)
      as (r & bs & _ & _ & Hrun & Hwf'). eauto.
  - by apply poll_preserves.
Qed.

Lemma runs_preserve s ins o :
  runs inet_ntop_text s ins o → wf s →
  o ≠ Undefined ∧ ∀ s', o = Ok tt s' → wf s'.
Proof.
  induction 1 as [s|s i s' rest o Hen Hstep Hrun IH|s i s' rest Hen Hstep
                  |s i rest Hen Hstep]; intros Hwf.
  - split; [done|]. by intros s' [= <-].
  - apply IH. destruct (react_preserves s i Hwf Hen) as [(s1 & H1 & Hwf1)|(s1 & H1)];
      rewrite H1 in Hstep; by simplify_eq.
  - split; [done|]. by intros s1 [=].
  - exfalso. destruct (react_preserves s i Hwf Hen) as [(s1 & H1 & Hwf1)|(s1 & H1)];
      rewrite H1 in Hstep; done.
Qed.

End Invariant.

(** The state in which [main] enters the event loop is well-formed: the
    heap holds the server, nothing is outstanding, the slot is [NULL]. *)
Lemma wf_main opt client server n hostname s' :
  server ≠ NULL →
  main_poller opt hostname
    (mk_state (main_app opt client) {[server := Server n]} [] []) = Ok tt s' →
  wf s'.
Proof.
  intros Hsrv Hrun.
  assert (∀ a t, resolv a = NULL →
            wf (mk_state a {[server := Server n]} [] t)) as Hwf.
  { intros a t Ha. constructor; simpl.
    - by apply lookup_singleton_ne.
    - constructor.
    - by intros ctx ?%elem_of_nil.
    - by intros c1 c2 r1 r2 ?%elem_of_nil.
    - by left. }
  revert Hrun. unfold main_poller. case_decide; [|intros [= <-]; by apply Hwf].
  unfold mbind, M_bind, defined.
  destruct (hostname_from_uri _ _ _) as [[ok h]|]; simpl; [|done].
  case_decide; run_step; intros [= <-]; by apply Hwf.
Qed.

(** Wholesale replacement of the override: a poll result for a host name
    that passes the length check makes [dns_poll_cb] release the whole
    previous list with [curl_slist_free_all] and assign the slot the list
    that [curl_slist_append(NULL, ...)] returns: when libcurl can allocate,
    a list of exactly one entry, the host name, ":443:", and the text of
    the address when c-ares stored it; the slot is [NULL] otherwise.
    Nothing of the previous list is kept, and in every run of the reactor
    from a well-formed state the slot holds at most one entry. *)
Lemma override_replaced_wholesale
    (inet_ntop_text : Z → list Z → option (list ascii))
    (s : state) (append_ret : ptr) (hostname : list ascii) (addr : list Z) (af : Z) :
  (strlen hostname ≤ 254)%nat →
  (resolv (app s) = NULL ∨
   ∃ d rest, heap s !! resolv (app s) = Some (Slist d rest)) →
  ∃ s',
    dns_poll_cb inet_ntop_text append_ret hostname addr af s = Ok tt s' ∧
    trace s' = trace s ++ [EvLog LOG_DEBUG "Received new IP '%s'";
                           EvSlistFreeAll (resolv (app s))] ∧
    resolv (app s') = append_ret ∧
    (resolv (app s) ≠ NULL → append_ret ≠ resolv (app s) →
     heap s' !! resolv (app s) = None) ∧
    (append_ret ≠ NULL →
     heap s' !! append_ret
       = Some (Slist (Some (override_text inet_ntop_text hostname af addr)) []) ∧
     slot_entries s' = 1%nat) ∧
    (append_ret = NULL → slot_entries s' = 0%nat) ∧
    (∀ t, inet_ntop_text af addr = Some t → Forall (λ c, c ≠ NUL) t →
          (length t < 274 - strlen hostname)%nat →
          override_text inet_ntop_text hostname af addr
          = cstring hostname ++ chars ":443:" ++ t) ∧
    (∀ ins o s'', wf s → runs inet_ntop_text s ins o → o = Ok tt s'' →
                  (slot_entries s'' ≤ 1)%nat).
Proof.
  intros Hlen Hres. eexists. split; [by apply dns_poll_cb_ok|]. simpl.
  split; [done|]. split; [done|]. split_and!.
  - intros Hold Hne. unfold appended, released.
    destruct (decide (append_ret = NULL)), (decide (resolv (app s) = NULL));
      try done; rewrite ?lookup_insert_ne by done; apply lookup_delete_eq.
  - intros Hn. unfold appended. rewrite decide_False by done.
    rewrite lookup_insert_eq. split; [done|].
    unfold slot_entries. simpl. rewrite decide_False by done.
    by rewrite lookup_insert_eq.
  - intros ->. unfold slot_entries. simpl. done.
  - intros t Ht Hnn Hfit. unfold override_text. rewrite Ht.
    assert (cstring t = t) as ->.
    { unfold cstring. rewrite strlen_no_NUL by done. apply firstn_all. }
    by rewrite decide_True.
  - intros ins o s'' Hwf Hrun ->.
    apply wf_slot_entries.
    by apply (runs_preserve inet_ntop_text s ins (Ok tt s'') Hrun Hwf).
Qed.

(** ** Examples *)

Example proxy_socks5h_upper :
  proxy_supports_name_resolution (Some (chars "SOCKS5H://127.0.0.1:1080")) = 1.
Proof. reflexivity. Qed.

Example proxy_socks5_plain :
  proxy_supports_name_resolution (Some (chars "socks5://127.0.0.1:1080")) = 0.
Proof. reflexivity. Qed.

Example hostname_from_uri_http :
  hostname_from_uri (chars "http://dns.google/resolve") (replicate 255 NUL) 254
  = Some (0, replicate 255 NUL).
Proof. reflexivity. Qed.

Example hostname_from_uri_port :
  hostname_from_uri (chars "https://dns.google:443/resolve") (replicate 255 NUL) 254
  = Some (0, replicate 255 NUL).
Proof. reflexivity. Qed.

Example override_replaced_sample :
  ∃ s',
    dns_poll_cb sample_ntop 301 (chars "dns.google") [8; 8; 8; 8] AF_INET sample_idle
      = Ok tt s' ∧
    resolv (app s') = 301 ∧
    heap s' !! 300 = None ∧
    heap s' !! 301 = Some (Slist (Some (chars "dns.google:443:8.8.8.8")) []).
Proof. eexists. split; [vm_compute; reflexivity|]. split_and!; reflexivity. Qed.

Example poll_then_query_then_reply :
  ∃ s,
    runs sample_ntop sample_closed
      [Query 101 [18; 52; 2] 201 800 (replicate 16 7) 4660;
       Poll 300 (chars "dns.google") [8; 8; 8; 8] AF_INET;
       Query 102 [18; 52; 3] 202 800 (replicate 16 7) 4661;
       Complete 202 (Some [18; 52; 131]) 3] (Ok tt s) ∧
    fetches (trace s) = [EvFetch 900 sample_url 102 3 300 202] ∧
    replies (trace s)
      = [EvRespond 800 (raddr_of (replicate 16 7) 16) [18; 52; 131] 3].
Proof.
  eexists. split.
  - eapply runs_step; [|vm_compute; reflexivity|].
    { split; [discriminate|]. split; [reflexivity|].
      split; [right; split; [reflexivity|discriminate]|].
      exists 16%nat. split; [reflexivity|]. split; vm_compute; lia. }
    eapply runs_step; [|vm_compute; reflexivity|].
    { right. left. reflexivity. }
    eapply runs_step; [|vm_compute; reflexivity|].
    { split; [discriminate|]. split; [reflexivity|].
      split; [right; split; [reflexivity|discriminate]|].
      exists 16%nat. split; [reflexivity|]. split; vm_compute; lia. }
    eapply runs_step; [|vm_compute; reflexivity|constructor].
    vm_compute. by left.
  - split; reflexivity.
Qed.

(** * The claims *)

(** C1. Fail-closed bootstrap gate: when [dns_server_cb] is called while
    polling is on and the override list is [NULL] or holds no data, it
    returns after releasing the query buffer, once; it issues no fetch,
    sends no reply, allocates no record and leaves no fetch outstanding.
    The reactor's state after such a query is the state before it, but for
    the trace; and from a state with nothing outstanding, any number of
    queries, with no poll result in between, ends with the fetches and the
    replies of the trace as they were. *)
Theorem C1_fail_closed_gate (inet_ntop_text : Z → list Z → option (list ascii))
    (s : state) (calloc_ret server : ptr)
    (addr : list Z) (id : Z) (dns_req : ptr) (dns_req_len : Z) (b : block) :
  bootstrapping s → dns_req ≠ NULL → heap s !! dns_req = Some b →
  (∃ new,
     dns_server_cb calloc_ret server addr id dns_req dns_req_len s
     = Ok tt (mk_state (app s) (delete dns_req (heap s)) (inflight s)
                       (trace s ++ new)) ∧
     fetches new = [] ∧ replies new = [] ∧ frees dns_req new = 1%nat) ∧
  (∀ buf payload,
     enabled s (Query buf payload calloc_ret server addr id) →
     ∃ new, react inet_ntop_text (Query buf payload calloc_ret server addr id) s
            = Ok tt (with_events s new) ∧
            fetches new = [] ∧ replies new = []) ∧
  (∀ ins o,
     inflight s = [] → Forall not_poll ins → runs inet_ntop_text s ins o →
     ∃ s', o = Ok tt s' ∧ bootstrapping s' ∧ inflight s' = [] ∧
           fetches (trace s') = fetches (trace s) ∧
           replies (trace s') = replies (trace s)).
Proof.
  intros Hg Hn Hlive. split_and!.
  - eexists. split; [by eapply dns_server_cb_closed|].
    split; [done|]. split; [done|]. unfold frees. simpl.
    by rewrite bool_decide_true.
  - intros buf payload Hen. eexists.
    split; [by apply react_query_closed|]. done.
  - intros ins o Hin Hnp Hrun.
    destruct (closed_gate_runs inet_ntop_text s ins o Hrun Hg Hin Hnp)
      as (s' & -> & Hg' & _ & _ & Hi & Hf & Hr).
    by exists s'.
Qed.

Lemma C1_fail_closed_gate_witness :
  bootstrapping sample_closed ∧ 100 ≠ NULL ∧
  heap sample_closed !! 100 = Some (Bytes [18; 52; 1]) ∧
  ∃ new,
    dns_server_cb 200 800 (replicate 16 7) 4660 100 3 sample_closed
    = Ok tt (mk_state (app sample_closed) (delete 100 (heap sample_closed))
                      (inflight sample_closed) (trace sample_closed ++ new)) ∧
    fetches new = [] ∧ replies new = [] ∧ frees 100 new = 1%nat.
Proof.
  assert (bootstrapping sample_closed) as H1.
  { split; [discriminate|]. left. reflexivity. }
  assert (100 ≠ NULL) as H2 by discriminate.
  assert (heap sample_closed !! 100 = Some (Bytes [18; 52; 1])) as H3
    by reflexivity.
  split; [exact H1|]. split; [exact H2|]. split; [exact H3|].
  exact (proj1 (C1_fail_closed_gate sample_ntop sample_closed 200 800
                  (replicate 16 7) 4660 100 3 _ H1 H2 H3)).
Defined.

(** C2. Completion of a fetch: called with the record of a pending request
    whose query buffer is live, [https_resp_cb] returns, having sent one
    reply, to the address stored in the record and with the response as
    given, when the response is non-null, and no reply when it is null;
    in both cases it has released the query buffer and the record, each by
    exactly one [free], and nothing else. In a well-formed state every
    outstanding fetch is in that situation, and after its completion the
    state is well-formed and the fetch is outstanding no more. *)
Theorem C2_completion_replies_and_releases
    (inet_ntop_text : Z → list Z → option (list ascii)) (s : state) (data : ptr)
    (r : request_t) (query : list Z) (buf : option (list Z)) (buflen : Z) :
  heap s !! NULL = None →
  heap s !! data = Some (Request r) →
  heap s !! dns_req r = Some (Bytes query) →
  ∃ s' new,
    https_resp_cb data buf buflen s = Ok tt s' ∧
    trace s' = trace s ++ new ∧
    replies new = match buf with
                  | Some b => [EvRespond (dns_server r) (raddr r) b buflen]
                  | None => []
                  end ∧
    (replies new ≠ [] ↔ buf ≠ None) ∧
    frees (dns_req r) new = 1%nat ∧ frees data new = 1%nat ∧
    (∀ p, frees p new = if decide (p = dns_req r ∨ p = data) then 1%nat else 0%nat) ∧
    heap s' = delete data (delete (dns_req r) (heap s)) ∧
    app s' = app s ∧ inflight s' = inflight s ∧
    (wf s → data ∈ inflight s →
     ∃ s'', react inet_ntop_text (Complete data buf buflen) s = Ok tt s'' ∧
            trace s'' = trace s' ∧ heap s'' = heap s' ∧
            wf s'' ∧ data ∉ inflight s'').
Proof.
  intros Hnull Hreq Hbuf.
  assert (data ≠ NULL) as Hdn by (intros ->; congruence).
  assert (dns_req r ≠ NULL) as Hbn by (intros E; rewrite E in Hbuf; congruence).
  assert (dns_req r ≠ data) as Hne by (intros E; rewrite E in Hbuf; congruence).
  eexists _, _. split; [by eapply https_resp_cb_live|]. simpl.
  split; [done|].
  assert (∀ p, frees p (completion_events data r buf buflen)
               = if decide (p = dns_req r ∨ p = data) then 1%nat else 0%nat) as Hfrees.
  { intros p. unfold frees, completion_events.
    destruct buf; simpl;
      destruct (bool_decide_reflect (dns_req r = p)),
               (bool_decide_reflect (data = p)),
               (decide (p = dns_req r ∨ p = data));
      simpl; try done; exfalso; intuition congruence. }
  split_and!; try done.
  - by destruct buf.
  - destruct buf; simpl; split; try done.
  - rewrite Hfrees. by rewrite decide_True by auto.
  - rewrite Hfrees. by rewrite decide_True by auto.
  - intros Hwf Hin.
    destruct (complete_preserves inet_ntop_text s data buf buflen Hwf Hin)
      as (r' & q' & Hr' & _ & Hstep & Hwf').
    rewrite Hreq in Hr'. injection Hr' as <-.
    eexists. split; [exact Hstep|]. simpl. split_and!; try done.
    apply remove_first_not_elem, Hwf.
Qed.

Lemma C2_completion_replies_and_releases_witness :
  heap sample_pending !! NULL = None ∧
  heap sample_pending !! 200
    = Some (Request (mk_request 4660 (raddr_of (replicate 16 7) 16) 800 100)) ∧
  heap sample_pending !! 100 = Some (Bytes [18; 52; 1]) ∧
  ∃ s' new,
    https_resp_cb 200 (Some [18; 52; 129]) 3 sample_pending = Ok tt s' ∧
    trace s' = trace sample_pending ++ new ∧
    replies new = [EvRespond 800 (raddr_of (replicate 16 7) 16) [18; 52; 129] 3].
Proof.
  split; [reflexivity|]. split; [reflexivity|]. split; [reflexivity|].
  destruct (C2_completion_replies_and_releases sample_ntop sample_pending 200
              (mk_request 4660 (raddr_of (replicate 16 7) 16) 800 100)
              [18; 52; 1] (Some [18; 52; 129]) 3 eq_refl eq_refl eq_refl)
    as (s' & new & H1 & H2 & H3 & _).
  exists s', new. split; [exact H1|]. split; [exact H2|exact H3].
Defined.

(** C3. Correlation by record: two queries dispatched one after the
    other, with any transaction ids and any source addresses, equal or
    not, get two distinct records; each fetch carries its own record as
    context, and each record holds its own query's source address and
    buffer. Whichever fetch completes first, each reply goes to the
    address in the record of the completing fetch, with that fetch's
    response. The transaction ids occur in neither the fetches nor the
    replies. *)
Theorem C3_correlation_by_record (inet_ntop_text : Z → list Z → option (list ascii))
    (s : state) (server : ptr) (n : nat)
    (b1 c1 b2 c2 : ptr) (a1 a2 : list Z) (id1 id2 : Z) (p1 p2 : list Z)
    (resp1 resp2 : list Z) (len1 len2 : Z) :
  bootstrapped s →
  heap s !! server = Some (Server n) →
  (n ≤ length a1)%nat → (n ≤ length a2)%nat → (n ≤ sizeof_sockaddr_storage)%nat →
  NoDup [NULL; b1; c1; b2; c2] →
  heap s !! b1 = None → heap s !! c1 = None →
  heap s !! b2 = None → heap s !! c2 = None →
  let q1 := Query b1 p1 c1 server a1 id1 in
  let q2 := Query b2 p2 c2 server a2 id2 in
  let done1 := Complete c1 (Some resp1) len1 in
  let done2 := Complete c2 (Some resp2) len2 in
  let reply1 := EvRespond server (raddr_of a1 n) resp1 len1 in
  let reply2 := EvRespond server (raddr_of a2 n) resp2 len2 in
  ∃ s2,
    runs inet_ntop_text s [q1; q2] (Ok tt s2) ∧
    fetches (drop (length (trace s)) (trace s2))
      = [EvFetch (https_client (app s)) (resolver_url (app s)) b1
                 (Z.of_nat (length p1)) (resolv (app s)) c1;
         EvFetch (https_client (app s)) (resolver_url (app s)) b2
                 (Z.of_nat (length p2)) (resolv (app s)) c2] ∧
    c1 ≠ c2 ∧
    heap s2 !! c1 = Some (Request (mk_request id1 (raddr_of a1 n) server b1)) ∧
    heap s2 !! c2 = Some (Request (mk_request id2 (raddr_of a2 n) server b2)) ∧
    (∃ s4, runs inet_ntop_text s2 [done2; done1] (Ok tt s4) ∧
           replies (drop (length (trace s2)) (trace s4)) = [reply2; reply1]) ∧
    (∃ s4, runs inet_ntop_text s2 [done1; done2] (Ok tt s4) ∧
           replies (drop (length (trace s2)) (trace s4)) = [reply1; reply2]).
Proof.
  intros Hg Hsrv Hn1 Hn2 Hn3 Hnd Hb1 Hc1 Hb2 Hc2 q1 q2 done1 done2 reply1 reply2.
  assert (NULL ≠ b1 ∧ NULL ≠ c1 ∧ NULL ≠ b2 ∧ NULL ≠ c2 ∧ b1 ≠ c1 ∧ b1 ≠ b2 ∧
          b1 ≠ c2 ∧ c1 ≠ b2 ∧ c1 ≠ c2 ∧ b2 ≠ c2) as Hd.
  { repeat (apply NoDup_cons in Hnd as [? Hnd]).
    repeat match goal with
           | H : _ ∉ _ :: _ |- _ => apply not_elem_of_cons in H as [? H]
           end.
    split_and!; assumption. }
  destruct Hd as (N1 & N2 & N3 & N4 & D1 & D2 & D3 & D4 & D5 & D6).
  assert (server ≠ b1 ∧ server ≠ c1 ∧ server ≠ b2 ∧ server ≠ c2) as (S1 & S2 & S3 & S4).
  { split_and!; intros <-; congruence. }
  (* the state after the first query, and after the second *)
  pose proof (react_query_open inet_ntop_text s b1 p1 c1 server a1 id1 n
                Hg D1 (not_eq_sym N2) Hb1 Hc1 Hsrv Hn1 Hn3) as Hq1.
  set (s1 := mk_state (app s)
       (<[c1 := Request (mk_request id1 (raddr_of a1 n) server b1)]>
          (<[b1 := Bytes p1]> (heap s)))
       (inflight s ++ [c1])
       (trace s ++ [EvLog LOG_DEBUG "Received request for id: %04x, len: %d";
                    EvFetch (https_client (app s)) (resolver_url (app s)) b1
                            (Z.of_nat (length p1)) (resolv (app s)) c1])) in *.
  assert (bootstrapped s1) as Hg1.
  { unfold s1. destruct Hg as [Hg|(Hr & d & rest & Hl)]; [by left|].
    right. split; [done|]. exists d, rest. simpl.
    rewrite !lookup_insert_ne; [done|intros E; congruence..]. }
  assert (heap s1 !! b2 = None) as Hb2' by (simpl; by rewrite !lookup_insert_ne).
  assert (heap s1 !! c2 = None) as Hc2' by (simpl; by rewrite !lookup_insert_ne).
  assert (heap s1 !! server = Some (Server n)) as Hsrv'
    by (simpl; by rewrite !lookup_insert_ne).
  pose proof (react_query_open inet_ntop_text s1 b2 p2 c2 server a2 id2 n
                Hg1 D6 (not_eq_sym N4) Hb2' Hc2' Hsrv' Hn2 Hn3) as Hq2.
  set (s2 := mk_state _ _ _ _) in Hq2.
  assert (heap s2 !! c1 = Some (Request (mk_request id1 (raddr_of a1 n) server b1)))
    as L1.
  { simpl. rewrite !lookup_insert_ne by done. apply lookup_insert_eq. }
  assert (heap s2 !! c2 = Some (Request (mk_request id2 (raddr_of a2 n) server b2)))
    as L2.
  { simpl. apply lookup_insert_eq. }
  assert (heap s2 !! b1 = Some (Bytes p1)) as L3.
  { simpl. rewrite !lookup_insert_ne by done. apply lookup_insert_eq. }
  assert (heap s2 !! b2 = Some (Bytes p2)) as L4.
  { simpl. rewrite !lookup_insert_ne by done. apply lookup_insert_eq. }
  assert (c1 ∈ inflight s2) as I1.
  { simpl. apply elem_of_app. left. apply elem_of_app. right. by left. }
  assert (c2 ∈ inflight s2) as I2.
  { simpl. apply elem_of_app. right. by left. }
  exists s2. split_and!; try done.
  - eapply runs_step; [|exact Hq1|].
    { split; [done|]. split; [done|]. split; [right; by split|]. by exists n. }
    eapply runs_step; [|exact Hq2|constructor].
    split; [done|]. split; [exact Hb2'|].
    split; [right; split; [exact Hc2'|done]|]. exists n. by split.
  - simpl. rewrite <- app_assoc. by rewrite drop_app_length.
  - (* the second fetch completes first *)
    clearbody s2.
    pose proof (react_complete_live inet_ntop_text s2 c2
                  (mk_request id2 (raddr_of a2 n) server b2) p2 (Some resp2) len2
                  (not_eq_sym N4) (not_eq_sym N3) L2 L4) as Hd2.
    set (s3 := mk_state _ _ _ _) in Hd2.
    assert (heap s3 !! c1 = Some (Request (mk_request id1 (raddr_of a1 n) server b1)))
      as L1'.
    { simpl. rewrite !lookup_delete_ne by done. exact L1. }
    assert (heap s3 !! b1 = Some (Bytes p1)) as L3'.
    { simpl. rewrite !lookup_delete_ne by done. exact L3. }
    pose proof (react_complete_live inet_ntop_text s3 c1
                  (mk_request id1 (raddr_of a1 n) server b1) p1 (Some resp1) len1
                  (not_eq_sym N2) (not_eq_sym N1) L1' L3') as Hd1.
    eexists. split.
    + eapply runs_step; [exact I2|exact Hd2|].
      eapply runs_step; [|exact Hd1|constructor].
      simpl. by apply remove_first_other.
    + simpl. rewrite <- app_assoc. by rewrite drop_app_length.
  - (* the first fetch completes first *)
    clearbody s2.
    pose proof (react_complete_live inet_ntop_text s2 c1
                  (mk_request id1 (raddr_of a1 n) server b1) p1 (Some resp1) len1
                  (not_eq_sym N2) (not_eq_sym N1) L1 L3) as Hd1.
    set (s3 := mk_state _ _ _ _) in Hd1.
    assert (heap s3 !! c2 = Some (Request (mk_request id2 (raddr_of a2 n) server b2)))
      as L2'.
    { simpl. rewrite !lookup_delete_ne by done. exact L2. }
    assert (heap s3 !! b2 = Some (Bytes p2)) as L4'.
    { simpl. rewrite !lookup_delete_ne by done. exact L4. }
    pose proof (react_complete_live inet_ntop_text s3 c2
                  (mk_request id2 (raddr_of a2 n) server b2) p2 (Some resp2) len2
                  (not_eq_sym N4) (not_eq_sym N3) L2' L4') as Hd2.
    eexists. split.
    + eapply runs_step; [exact I1|exact Hd1|].
      eapply runs_step; [|exact Hd2|constructor].
      simpl. by apply remove_first_other.
    + simpl. rewrite <- app_assoc. by rewrite drop_app_length.
Qed.

Lemma C3_correlation_by_record_witness :
  bootstrapped sample_idle ∧
  heap sample_idle !! 800 = Some (Server 16) ∧
  NoDup [NULL; 100; 200; 101; 201] ∧
  ∃ s2,
    runs sample_ntop sample_idle
      [Query 100 [18; 52; 1] 200 800 (replicate 16 7) 4660;
       Query 101 [18; 52; 2] 201 800 (replicate 16 7) 4660] (Ok tt s2) ∧
    fetches (drop (length (trace sample_idle)) (trace s2))
      = [EvFetch 900 sample_url 100 3 300 200;
         EvFetch 900 sample_url 101 3 300 201].
Proof.
  assert (bootstrapped sample_idle) as H1.
  { right. split; [discriminate|]. eexists _, _. reflexivity. }
  assert (NoDup [NULL; 100; 200; 101; 201]) as H2.
  { apply (bool_decide_unpack _). vm_compute. exact I. }
  assert (16 ≤ length (replicate 16 7))%nat as H3 by (simpl; lia).
  assert (16 ≤ sizeof_sockaddr_storage)%nat as H4
    by (unfold sizeof_sockaddr_storage; lia).
  split; [exact H1|]. split; [reflexivity|]. split; [exact H2|].
  destruct (C3_correlation_by_record sample_ntop sample_idle 800 16%nat
              100 200 101 201 (replicate 16 7) (replicate 16 7) 4660 4660
              [18; 52; 1] [18; 52; 2] [18; 52; 129] [18; 52; 130] 3 3
              H1 eq_refl H3 H3 H4 H2 eq_refl eq_refl eq_refl eq_refl)
    as (s2 & Hrun & Hf & _).
  exists s2. split; [exact Hrun|exact Hf].
Defined.

(** C4. Transparent passthrough: when the gate is open, every fetch that
    [dns_server_cb] issues has as body pointer and length the [dns_req]
    and [dns_req_len] it was called with, and the buffer holds afterwards
    the bytes it held: with a record allocated, that is exactly one fetch;
    with no record, none, for the process ends. For a datagram that the
    server delivers, the body of the fetch is the buffer that holds the
    datagram, with the datagram's length. *)
Theorem C4_transparent_passthrough (inet_ntop_text : Z → list Z → option (list ascii))
    (s : state) (calloc_ret server : ptr) (addr : list Z) (id : Z)
    (dns_req : ptr) (dns_req_len : Z) (query : list Z) (n : nat) :
  bootstrapped s →
  calloc_ret = NULL ∨ heap s !! calloc_ret = None →
  heap s !! server = Some (Server n) →
  (n ≤ length addr)%nat → (n ≤ sizeof_sockaddr_storage)%nat →
  let fetch body len :=
    EvFetch (https_client (app s)) (resolver_url (app s)) body len
            (resolv (app s)) calloc_ret in
  (heap s !! dns_req = Some (Bytes query) →
   ∃ o s' new,
     dns_server_cb calloc_ret server addr id dns_req dns_req_len s = o ∧
     (o = Ok tt s' ∨ o = Exit s') ∧
     trace s' = trace s ++ new ∧
     fetches new = (if decide (calloc_ret = NULL) then []
                    else [fetch dns_req dns_req_len]) ∧
     (o = Ok tt s' ↔ calloc_ret ≠ NULL) ∧
     heap s' !! dns_req = Some (Bytes query)) ∧
  (∀ buf payload,
     enabled s (Query buf payload calloc_ret server addr id) →
     calloc_ret ≠ NULL →
     ∃ s' new,
       react inet_ntop_text (Query buf payload calloc_ret server addr id) s = Ok tt s' ∧
       trace s' = trace s ++ new ∧
       fetches new = [fetch buf (Z.of_nat (length payload))] ∧
       heap s' !! buf = Some (Bytes payload)).
Proof.
  intros Hg Hret Hsrv Hn1 Hn2 fetch. split.
  - intros Hq. destruct (decide (calloc_ret = NULL)) as [->|Hcn].
    + eexists _, _, _. split; [by apply dns_server_cb_oom|].
      split; [by right|]. simpl. split; [done|]. split; [done|].
      split; [|done]. split; [done|]. done.
    + destruct Hret as [?|Hfresh]; [done|].
      eexists _, _, _. split; [by eapply dns_server_cb_open|].
      split; [by left|]. simpl. split; [done|]. split; [done|].
      split; [done|].
      rewrite lookup_insert_ne; [done|]. intros ->. congruence.
  - intros buf payload (Hbn & Hbfresh & Hret' & _) Hcn.
    destruct Hret' as [?|[Hfresh Hne]]; [done|].
    unfold react. rewrite dns_server_recv_eq.
    eexists _, _. split.
    { eapply dns_server_cb_open; [by apply bootstrapped_insert|done| | |done|done].
      - simpl. by rewrite lookup_insert_ne.
      - simpl. rewrite lookup_insert_ne; [done|]. intros ->. congruence. }
    simpl. split; [done|]. split; [done|].
    rewrite lookup_insert_ne by done. apply lookup_insert_eq.
Qed.

Lemma C4_transparent_passthrough_witness :
  bootstrapped sample_open ∧ heap sample_open !! 200 = None ∧
  heap sample_open !! 800 = Some (Server 16) ∧
  (16 ≤ length (replicate 16 7))%nat ∧ (16 ≤ sizeof_sockaddr_storage)%nat ∧
  heap sample_open !! 100 = Some (Bytes [18; 52; 1]) ∧
  ∃ o s' new,
    dns_server_cb 200 800 (replicate 16 7) 4660 100 3 sample_open = o ∧
    (o = Ok tt s' ∨ o = Exit s') ∧
    trace s' = trace sample_open ++ new ∧
    fetches new = [EvFetch 900 sample_url 100 3 300 200].
Proof.
  assert (bootstrapped sample_open) as H1.
  { right. split; [discriminate|]. eexists _, _. reflexivity. }
  assert (16 ≤ length (replicate 16 7))%nat as H5 by (simpl; lia).
  assert (16 ≤ sizeof_sockaddr_storage)%nat as H6
    by (unfold sizeof_sockaddr_storage; lia).
  split; [exact H1|]. split; [reflexivity|].
  split; [reflexivity|]. split; [exact H5|]. split; [exact H6|].
  split; [reflexivity|].
  destruct (proj1 (C4_transparent_passthrough sample_ntop sample_open 200 800
                     (replicate 16 7) 4660 100 3 [18; 52; 1] 16%nat
                     H1 (or_intror eq_refl) eq_refl H5 H6) eq_refl)
    as (o & s' & new & Ho & Hcase & Htr & Hf & _).
  exists o, s', new. split; [exact Ho|]. split; [exact Hcase|].
  split; [exact Htr|exact Hf].
Defined.

(** C5. Hostname parsing scenario: on "https://dns.google/resolve"
    [hostname_from_uri] succeeds and stores the C string "dns.google", and
    [main] then switches polling on and starts the poller for that name;
    on "https://8.8.8.8/resolve" it returns 0, and [main] leaves polling
    off and only logs. [hostname] is the 255-character array of [main],
    whose contents are arbitrary. *)
Theorem C5_hostname_parsing_scenario (hostname : list ascii) (opt : Options) (s : state) :
  length hostname = 255%nat →
  proxy_supports_name_resolution (opt_curl_proxy opt) = 0 →
  (∃ hostname',
     hostname_from_uri (chars "https://dns.google/resolve") hostname 254
       = Some (1, hostname') ∧
     cstring hostname' = chars "dns.google" ∧
     (opt_resolver_url opt = chars "https://dns.google/resolve" →
      ∃ s', main_poller opt hostname s = Ok tt s' ∧
            using_dns_poller (app s') = 1 ∧
            trace s' = trace s ++
              [EvPollerInit (opt_bootstrap_dns opt) (chars "dns.google")
                 (if decide (opt_ipv4 opt ≠ 0) then AF_INET else AF_UNSPEC);
               EvLog LOG_INFO "DNS polling initialized for '%s'"])) ∧
  hostname_from_uri (chars "https://8.8.8.8/resolve") hostname 254
    = Some (0, hostname) ∧
  (opt_resolver_url opt = chars "https://8.8.8.8/resolve" →
   main_poller opt hostname s =
   Ok tt (with_events s [EvLog LOG_INFO
     "Resolver prefix '%s' doesn't appear to contain a hostname. DNS polling disabled."])).
Proof.
  intros Hlen Hproxy.
  assert (hostname_from_uri (chars "https://dns.google/resolve") hostname 254
          = Some (1, chars "dns.google" ++ [NUL] ++ drop 11 hostname)) as Hg.
  { apply (hostname_from_uri_accepts (chars "dns.googl") "e" (chars "/resolve")).
    - repeat constructor; done.
    - by right.
    - done.
    - simpl. lia.
    - rewrite Hlen. simpl. lia. }
  assert (hostname_from_uri (chars "https://8.8.8.8/resolve") hostname 254
          = Some (0, hostname)) as Hi.
  { apply (hostname_from_uri_rejects_non_alpha (chars "8.8.8.") "8" (chars "/resolve")).
    - repeat constructor; done.
    - by right.
    - done. }
  assert (cstring (chars "dns.google" ++ [NUL] ++ drop 11 hostname)
          = chars "dns.google") as Hc.
  { apply cstring_app_NUL. repeat constructor; done. }
  split_and!.
  - eexists. split; [exact Hg|]. split; [exact Hc|].
    intros Hurl. eexists. rewrite <- Hurl in Hg.
    rewrite (main_poller_started _ _ _ _ Hproxy Hg). rewrite Hc. done.
  - exact Hi.
  - intros Hurl. rewrite <- Hurl in Hi. by apply main_poller_disabled.
Qed.

Lemma C5_hostname_parsing_scenario_witness :
  length (replicate 255 "x"%char) = 255%nat ∧
  proxy_supports_name_resolution None = 0 ∧
  hostname_from_uri (chars "https://8.8.8.8/resolve") (replicate 255 "x"%char) 254
    = Some (0, replicate 255 "x"%char).
Proof.
  split; [reflexivity|]. split; [reflexivity|].
  refine (proj1 (proj2 (C5_hostname_parsing_scenario (replicate 255 "x"%char)
    (mk_options (chars "https://8.8.8.8/resolve") None (chars "8.8.8.8") 0)
    (mk_state (mk_app 1 NULL (chars "https://8.8.8.8/resolve") 0) ∅ [] [])
    _ _))); reflexivity.
Defined.

(** The claim as it stands names "host1.example" among the hosts that are
    refused; that host ends in the letter e, and is accepted. *)
Lemma C6_host1_example_accepted :
  ∃ hostname',
    hostname_from_uri (chars "https://host1.example/resolve")
                      (replicate 255 NUL) 254 = Some (1, hostname') ∧
    cstring hostname' = chars "host1.example".
Proof. eexists. split; vm_compute; reflexivity. Qed.

(** C6, amended. Hostname-vs-IP heuristic: for every URL that is
    "https://", then a non-empty host part ending in the character [c],
    then the end of the string or a '/', [hostname_from_uri] returns 0 and
    leaves the array alone when [c] is not a letter, so that [main] does
    not start polling; and whenever it returns non-zero on such a URL,
    [c] is a letter. A host name with a digit inside, as "host1.example",
    ends in a letter and is accepted. *)
Theorem C6_non_alpha_host_refused (host : list ascii) (c : ascii)
    (rest hostname : list ascii) (hostname_len : Z) (opt : Options) (s : state) :
  Forall host_char (host ++ [c]) → host_end rest →
  let uri := chars "https://" ++ (host ++ [c]) ++ rest in
  (isalpha c = false →
     hostname_from_uri uri hostname hostname_len = Some (0, hostname) ∧
     (opt_resolver_url opt = uri →
      ∃ s', main_poller opt hostname s = Ok tt s' ∧ app s' = app s ∧
            ∀ b h f, EvPollerInit b h f ∉ drop (length (trace s)) (trace s'))) ∧
  (∀ r hostname', hostname_from_uri uri hostname hostname_len = Some (r, hostname') →
     r ≠ 0 → isalpha c = true).
Proof.
  intros Hhost Hrest uri. split.
  - intros Hc.
    pose proof (hostname_from_uri_rejects_non_alpha host c rest hostname
                  hostname_len Hhost Hrest Hc) as Hrej.
    split; [exact Hrej|]. intros Hurl.
    destruct (decide (proxy_supports_name_resolution (opt_curl_proxy opt) = 0))
      as [Hp|Hp].
    + pose proof (hostname_from_uri_rejects_non_alpha host c rest hostname
                  254 Hhost Hrest Hc) as Hrej'.
      fold uri in Hrej'. rewrite <- Hurl in Hrej'.
      rewrite (main_poller_disabled _ _ _ Hp Hrej').
      eexists. split; [done|]. split; [done|]. simpl.
      rewrite drop_app_length. intros b h f Hin%list_elem_of_singleton. discriminate.
    + rewrite main_poller_skipped by done.
      eexists. split; [done|]. split; [done|].
      rewrite drop_all. intros b h f []%elem_of_nil.
  - intros r hostname' Hres Hr.
    destruct (isalpha c) eqn:Hc; [done|].
    unfold uri in Hres.
    rewrite (hostname_from_uri_rejects_non_alpha host c rest hostname
               hostname_len Hhost Hrest Hc) in Hres.
    by simplify_eq.
Qed.

Lemma C6_non_alpha_host_refused_witness :
  Forall host_char (chars "8.8.8." ++ ["8"%char]) ∧ host_end (chars "/resolve") ∧
  hostname_from_uri (chars "https://8.8.8.8/resolve") (replicate 255 NUL) 254
    = Some (0, replicate 255 NUL).
Proof.
  assert (Forall host_char (chars "8.8.8." ++ ["8"%char])) as H1
    by (repeat constructor; discriminate).
  assert (host_end (chars "/resolve")) as H2 by (right; reflexivity).
  split; [exact H1|]. split; [exact H2|].
  exact (proj1 (proj1 (C6_non_alpha_host_refused (chars "8.8.8.") "8"
    (chars "/resolve") (replicate 255 NUL) 254
    (mk_options [] None [] 0) (mk_state (mk_app 1 NULL [] 0) ∅ [] []) H1 H2)
    eq_refl)).
Defined.

(** C7. Activation policy: [proxy_supports_name_resolution] returns 1
    exactly when the proxy string is non-null and begins,
    case-insensitively, with "http:", "https:", "socks4a:" or "socks5h:",
    and 0 otherwise; and [main], which starts with polling off, switches
    polling on and starts the poller if and only if the proxy does not
    resolve names and the resolver URL is "https://" followed by a
    non-empty host part that ends in a letter and is shorter than 254
    characters. *)
Theorem C7_activation_policy (opt : Options) (hostname : list ascii) (s : state) :
  length hostname = 255%nat → using_dns_poller (app s) = 0 →
  let policy := ¬ proxy_resolves_names (opt_curl_proxy opt) ∧
                plausible_https_url (opt_resolver_url opt) in
  (proxy_supports_name_resolution (opt_curl_proxy opt) = 1
     ↔ proxy_resolves_names (opt_curl_proxy opt)) ∧
  (proxy_supports_name_resolution (opt_curl_proxy opt) = 0
     ↔ ¬ proxy_resolves_names (opt_curl_proxy opt)) ∧
  ∃ s', main_poller opt hostname s = Ok tt s' ∧
        (using_dns_poller (app s') = 1 ↔ policy) ∧
        ((∃ b h f, EvPollerInit b h f ∈ drop (length (trace s)) (trace s')) ↔ policy) ∧
        (¬ policy → app s' = app s).
Proof.
  intros Hlen Hoff policy.
  destruct (proxy_supports_spec (opt_curl_proxy opt)) as [Hp1 Hp0].
  split; [done|]. split; [done|].
  destruct (decide (proxy_supports_name_resolution (opt_curl_proxy opt) = 0))
    as [Hp|Hp].
  - destruct (hostname_from_uri_defined (opt_resolver_url opt) hostname 254)
      as [[r hostname'] Hres]; [lia|].
    destruct (decide (r = 0)) as [->|Hr].
    + (* refused: the array is untouched *)
      assert (¬ plausible_https_url (opt_resolver_url opt)) as Hnot.
      { intros (host & c & rest & Hurl & Hh & He & Hc & Hl).
        rewrite Hurl in Hres.
        rewrite hostname_from_uri_accepts in Hres; [done|done..|lia|lia]. }
      assert (hostname' = hostname) as ->.
      { unfold hostname_from_uri in Hres.
        repeat case_decide; simplify_eq; try done.
        destruct (isalpha _); simpl in Hres; [|by simplify_eq].
        destruct (strncpy _ _ _); simpl in Hres; [|done].
        destruct (store _ _ _); simpl in Hres; by simplify_eq. }
      rewrite (main_poller_disabled _ _ _ Hp Hres).
      eexists. split; [done|]. simpl. split_and!.
      * rewrite Hoff. unfold policy. split; [done|]. by intros [_ ?].
      * rewrite drop_app_length. split.
        -- intros (b & h & f & Hin%list_elem_of_singleton). discriminate.
        -- by intros [_ ?].
      * done.
    + apply hostname_from_uri_inv in Hres as Hinv; [|done].
      destruct Hinv as (host & c & rest & Hurl & Hh & He & Hc & Hl1 & Hl2 & -> & _).
      assert (policy) as Hpol.
      { split; [by apply Hp0|]. exists host, c, rest. split_and!; try done. lia. }
      rewrite (main_poller_started _ _ _ _ Hp Hres).
      eexists. split; [done|]. simpl. split_and!; [done| |done].
      split; [done|]. intros _. rewrite drop_app_length.
      do 3 eexists. by left.
  - rewrite main_poller_skipped by done.
    assert (¬ policy) as Hpol by (intros [? _]; by apply Hp, Hp0).
    eexists. split; [done|]. split_and!.
    + rewrite Hoff. split; [done|]. done.
    + rewrite drop_all. split; [|done].
      by intros (b & h & f & Hin%elem_of_nil).
    + done.
Qed.

Lemma C7_activation_policy_witness :
  length (replicate 255 NUL) = 255%nat ∧
  (proxy_supports_name_resolution (Some (chars "SOCKS5H://127.0.0.1:1080")) = 1
   ↔ proxy_resolves_names (Some (chars "SOCKS5H://127.0.0.1:1080"))).
Proof.
  split; [reflexivity|].
  exact (proj1 (C7_activation_policy
    (mk_options (chars "https://dns.google/resolve")
                (Some (chars "SOCKS5H://127.0.0.1:1080")) (chars "8.8.8.8") 0)
    (replicate 255 NUL)
    (mk_state (mk_app 1 NULL (chars "https://dns.google/resolve") 0) ∅ [] [])
    eq_refl eq_refl)).
Defined.

(** C8, at the input where the code departs from it: a poll result with an
    IPv6 address for a host name of 240 characters. The name passes the
    length check and takes 245 of the 279 usable characters of [buf] with
    its ":443:"; c-ares has the text of the address, 37 characters, but is
    given 34 and stores nothing; its result is not looked at. The one
    entry of the new list is the host name and ":443:", with no address
    after it. *)
Theorem C8_long_name_entry_lacks_address :
  length long_hostname = 240%nat ∧
  sample_ntop AF_INET6 sample_ipv6
    = Some (chars "2001:db8:85a3:1234:5678:8a2e:370:7334") ∧
  ∃ s',
    dns_poll_cb sample_ntop 301 long_hostname sample_ipv6 AF_INET6 sample_idle
      = Ok tt s' ∧
    resolv (app s') = 301 ∧
    heap s' !! 301 = Some (Slist (Some (long_hostname ++ chars ":443:")) []).
Proof.
  split; [reflexivity|]. split; [reflexivity|].
  eexists. split; [vm_compute; reflexivity|]. split; reflexivity.
Qed.

(** C9. Out of memory: when [calloc] returns [NULL] for the record, the
    callback logs the fatal "Out of mem" and the process ends there: the
    query buffer is not released, no fetch is issued, and the reactor
    handles no further input. *)
Theorem C9_out_of_memory_is_fatal (inet_ntop_text : Z → list Z → option (list ascii))
    (s : state) (server : ptr) (addr : list Z)
    (id : Z) (dns_req : ptr) (dns_req_len : Z) :
  bootstrapped s →
  dns_server_cb NULL server addr id dns_req dns_req_len s
  = Exit (with_events s [EvLog LOG_DEBUG "Received request for id: %04x, len: %d";
                         EvLog LOG_FATAL "Out of mem"]) ∧
  ∀ payload rest o,
    enabled s (Query dns_req payload NULL server addr id) →
    runs inet_ntop_text s (Query dns_req payload NULL server addr id :: rest) o →
    ∃ s', o = Exit s' ∧
          trace s' = trace s ++ [EvLog LOG_DEBUG "Received request for id: %04x, len: %d";
                                 EvLog LOG_FATAL "Out of mem"] ∧
          inflight s' = inflight s.
Proof.
  intros Hg. split; [by apply dns_server_cb_oom|].
  intros payload rest o Hen Hrun.
  assert (react inet_ntop_text (Query dns_req payload NULL server addr id) s
          = Exit (with_events
                    (mk_state (app s) (<[dns_req := Bytes payload]> (heap s))
                              (inflight s) (trace s))
                    [EvLog LOG_DEBUG "Received request for id: %04x, len: %d";
                     EvLog LOG_FATAL "Out of mem"])) as Hstep.
  { unfold react. rewrite dns_server_recv_eq.
    apply dns_server_cb_oom. apply bootstrapped_insert; [done|]. apply Hen. }
  inversion Hrun as [|? ? ? ? ? _ Hs _|? ? ? ? _ Hs|? ? ? _ Hs]; subst;
    rewrite Hstep in Hs; try done.
  injection Hs as <-. by eexists.
Qed.

Lemma C9_out_of_memory_is_fatal_witness :
  bootstrapped sample_open ∧
  dns_server_cb NULL 800 (replicate 16 7) 4660 100 3 sample_open
  = Exit (with_events sample_open
            [EvLog LOG_DEBUG "Received request for id: %04x, len: %d";
             EvLog LOG_FATAL "Out of mem"]).
Proof.
  assert (bootstrapped sample_open) as H1.
  { right. split; [discriminate|]. eexists _, _. reflexivity. }
  split; [exact H1|].
  exact (proj1 (C9_out_of_memory_is_fatal sample_ntop sample_open 800
                  (replicate 16 7) 4660 100 3 H1)).
Defined.

(** C10. With [hostname_len = 254] and the 255-character array of [main],
    [hostname_from_uri] never writes outside of the array, whatever the
    URI; when it accepts, the array holds a terminated string of at most
    253 characters, the last element of the array is not written, and
    [dns_poll_cb] called with that array does not reach the FLOG of
    "Hostname too long.": it never ends the process. *)
Theorem C10_hostname_fits_array (inet_ntop_text : Z → list Z → option (list ascii))
    (uri hostname : list ascii) :
  length hostname = 255%nat →
  is_Some (hostname_from_uri uri hostname 254) ∧
  ∀ r hostname',
    hostname_from_uri uri hostname 254 = Some (r, hostname') → r ≠ 0 →
    length hostname' = 255%nat ∧
    (strlen hostname' ≤ 253)%nat ∧
    hostname' !! strlen hostname' = Some NUL ∧
    drop 254 hostname' = drop 254 hostname ∧
    ¬ (254 < strlen hostname')%nat ∧
    ∀ append_ret addr af s s',
      dns_poll_cb inet_ntop_text append_ret hostname' addr af s ≠ Exit s'.
Proof.
  intros Hlen. split; [apply hostname_from_uri_defined; lia|].
  intros r hostname' Hres Hr.
  apply hostname_from_uri_inv in Hres as
    (host & c & rest & Hurl & Hh & He & Hc & Hl1 & Hl2 & -> & ->); [|done].
  set (h := host ++ [c]) in *.
  assert (Forall (λ c, c ≠ NUL) h) as Hnn.
  { eapply Forall_impl; [exact Hh|]. by intros x [? _]. }
  assert (strlen (h ++ [NUL] ++ drop (S (length h)) hostname) = length h) as Hs.
  { by apply strlen_app_NUL. }
  rewrite Hs. split_and!.
  - rewrite !length_app, length_drop. simpl. lia.
  - lia.
  - rewrite lookup_app_r by lia. by rewrite Nat.sub_diag.
  - rewrite drop_app_ge by lia. simpl.
    replace (254 - length h)%nat with (S (253 - length h)) by lia. simpl.
    rewrite drop_drop. f_equal. lia.
  - lia.
  - intros append_ret addr af s s'.
    intros Hexit%dns_poll_cb_exit_inv. rewrite Hs in Hexit. lia.
Qed.

Lemma C10_hostname_fits_array_witness :
  length (replicate 255 "x"%char) = 255%nat ∧
  is_Some (hostname_from_uri (chars "https://dns.google/resolve")
                             (replicate 255 "x"%char) 254).
Proof.
  split; [reflexivity|].
  exact (proj1 (C10_hostname_fits_array (λ _ _, None)
    (chars "https://dns.google/resolve") (replicate 255 "x"%char) eq_refl)).
Defined.

(** * Further properties *)

(** ** Further properties of [hostname_from_uri] *)

Lemma hostname_from_uri_refused_untouched uri hostname hostname_len r hostname' :
  hostname_from_uri uri hostname hostname_len = Some (r, hostname') →
  r = 0 → hostname' = hostname.
Proof.
  unfold hostname_from_uri. intros H Hr.
  repeat case_decide; simplify_eq; try done.
  destruct (isalpha _); simpl in H; [|by simplify_eq].
  destruct (strncpy _ _ _); simpl in H; [|done].
  destruct (store _ _ _); simpl in H; by simplify_eq.
Qed.

Lemma host_of_uri_unique uri host1 host2 :
  host_of_uri uri host1 → host_of_uri uri host2 → host1 = host2.
Proof.
  intros (rest1 & -> & Hh1 & He1) (rest2 & Heq & Hh2 & He2).
  apply app_inv_head in Heq.
  assert (length host1 = length host2) as Hlen.
  { rewrite <- (scan_host_app host1 rest1), <- (scan_host_app host2 rest2) by done.
    by rewrite Heq. }
  apply (f_equal (take (length host1))) in Heq.
  rewrite take_app_length in Heq. rewrite Hlen, take_app_length in Heq. done.
Qed.

(** X1. [hostname_from_uri], when [hostname_len] does not exceed the
    array, returns 1 exactly for the URIs whose host part is not empty,
    ends in a letter and is shorter than [hostname_len], and 0 for every
    other string; it returns no other value. *)
Theorem X1_hostname_from_uri_decides (uri hostname : list ascii) (hostname_len : Z) :
  hostname_len ≤ Z.of_nat (length hostname) →
  ∃ r hostname',
    hostname_from_uri uri hostname hostname_len = Some (r, hostname') ∧
    (r = 0 ∨ r = 1) ∧
    (r = 1 ↔ accepted_uri hostname_len uri).
Proof.
  intros Hfit.
  destruct (hostname_from_uri_defined uri hostname hostname_len Hfit)
    as [[r hostname'] Hres].
  exists r, hostname'. split; [done|].
  destruct (decide (r = 0)) as [->|Hr].
  - split; [by left|]. split; [done|].
    intros (host & c & (rest & -> & Hh & He) & Hc & Hl).
    rewrite hostname_from_uri_accepts in Hres; [done|done..|lia].
  - apply hostname_from_uri_inv in Hres as Hinv; [|done].
    destruct Hinv as (host & c & rest & -> & Hh & He & Hc & Hl1 & Hl2 & -> & _).
    split; [by right|]. split; [|done]. intros _.
    exists host, c. split_and!; try done. by exists rest.
Qed.

Lemma X1_hostname_from_uri_decides_witness :
  254 ≤ Z.of_nat (length (replicate 255 NUL)) ∧
  ∃ r hostname',
    hostname_from_uri (chars "https://dns.google/dns-query") (replicate 255 NUL) 254
      = Some (r, hostname') ∧ (r = 0 ∨ r = 1).
Proof.
  assert (254 ≤ Z.of_nat (length (replicate 255 NUL))) as H by (vm_compute; discriminate).
  split; [exact H|].
  destruct (X1_hostname_from_uri_decides (chars "https://dns.google/dns-query")
              (replicate 255 NUL) 254 H) as (r & h & H1 & H2 & _).
  exists r, h. split; [exact H1|exact H2].
Defined.

(** X2. What [hostname_from_uri] stores when it accepts: the array then
    holds, as a C string, the host part of the URI, and is unchanged
    after the terminator; parsing "https://" followed by the stored name
    gives the same array again. *)
Theorem X2_hostname_from_uri_extracts (uri hostname : list ascii)
    (hostname_len r : Z) (hostname' : list ascii) :
  hostname_from_uri uri hostname hostname_len = Some (r, hostname') → r ≠ 0 →
  host_of_uri uri (cstring hostname') ∧
  length hostname' = length hostname ∧
  hostname' !! strlen hostname' = Some NUL ∧
  drop (S (strlen hostname')) hostname' = drop (S (strlen hostname')) hostname ∧
  hostname_from_uri (chars "https://" ++ cstring hostname') hostname hostname_len
    = Some (r, hostname').
Proof.
  intros Hres Hr.
  apply hostname_from_uri_inv in Hres as
    (host & c & rest & -> & Hh & He & Hc & Hl1 & Hl2 & -> & ->); [|done].
  set (h := host ++ [c]) in *.
  assert (Forall (λ c, c ≠ NUL) h) as Hnn.
  { eapply Forall_impl; [exact Hh|]. by intros x [? _]. }
  assert (strlen (h ++ [NUL] ++ drop (S (length h)) hostname) = length h) as Hs
    by (by apply strlen_app_NUL).
  assert (cstring (h ++ [NUL] ++ drop (S (length h)) hostname) = h) as Hc'
    by (by apply cstring_app_NUL).
  rewrite Hs, Hc'. split_and!.
  - by exists rest.
  - rewrite !length_app, length_drop. simpl. lia.
  - rewrite lookup_app_r by lia. by rewrite Nat.sub_diag.
  - rewrite drop_app_ge by lia.
    replace (S (length h) - length h)%nat with 1%nat by lia. done.
  - pose proof (hostname_from_uri_accepts host c [] hostname hostname_len) as Ha.
    rewrite app_nil_r in Ha. apply Ha; try done. by left.
Qed.

Lemma X2_hostname_from_uri_extracts_witness :
  ∃ hostname',
    hostname_from_uri (chars "https://dns.google/dns-query") (replicate 255 "x"%char) 254
      = Some (1, hostname') ∧
    1 ≠ 0 ∧
    host_of_uri (chars "https://dns.google/dns-query") (cstring hostname').
Proof.
  eexists. split; [vm_compute; reflexivity|]. split; [discriminate|].
  refine (proj1 (X2_hostname_from_uri_extracts (chars "https://dns.google/dns-query")
                   (replicate 255 "x"%char) 254 1 _ _ _)).
  - vm_compute. reflexivity.
  - discriminate.
Defined.

(** X3. A URI that [hostname_from_uri] refuses leaves the array as it
    was, whatever the sizes. *)
Theorem X3_hostname_from_uri_refusal_writes_nothing (uri hostname : list ascii)
    (hostname_len : Z) (hostname' : list ascii) :
  hostname_from_uri uri hostname hostname_len = Some (0, hostname') →
  hostname' = hostname.
Proof. intros H. by eapply hostname_from_uri_refused_untouched. Qed.

Lemma X3_hostname_from_uri_refusal_writes_nothing_witness :
  ∃ hostname',
    hostname_from_uri (chars "https://1.1.1.1/dns-query") (replicate 4 "x"%char) 254
      = Some (0, hostname') ∧
    hostname' = replicate 4 "x"%char.
Proof.
  eexists. split; [reflexivity|].
  apply (X3_hostname_from_uri_refusal_writes_nothing
           (chars "https://1.1.1.1/dns-query") (replicate 4 "x"%char) 254).
  reflexivity.
Defined.

(** X4. [hostname_len] counts the terminator: [hostname_from_uri] stays
    within the array for every URI exactly when [hostname_len] is at most
    the size of the array (or at most 1, when it accepts nothing). With a
    larger [hostname_len] some URI makes it write past the end. *)
Theorem X4_hostname_len_is_the_capacity (hostname : list ascii) (hostname_len : Z) :
  (∀ uri, is_Some (hostname_from_uri uri hostname hostname_len))
  ↔ (hostname_len ≤ Z.of_nat (length hostname) ∨ hostname_len ≤ 1).
Proof.
  split.
  - intros Hall.
    destruct (decide (hostname_len ≤ Z.of_nat (length hostname))) as [|Hbig];
      [by left|].
    destruct (decide (hostname_len ≤ 1)) as [|Hbig1]; [by right|].
    exfalso.
    set (k := (length hostname `max` 1)%nat).
    set (host := replicate k "a"%char).
    assert (length host = k) as Hk by apply length_replicate.
    assert (Forall host_char host) as Hh.
    { apply Forall_replicate. split; discriminate. }
    destruct (Hall (chars "https://" ++ host)) as [res Hres].
    revert Hres. unfold hostname_from_uri.
    rewrite decide_False by (intros H; apply H; apply https_prefix; eauto).
    change (drop 8 (chars "https://" ++ ?u)) with u.
    assert (scan_host host = k) as ->.
    { pose proof (scan_host_app host [] Hh) as Hs.
      rewrite app_nil_r in Hs. rewrite Hs; [done|by left]. }
    rewrite decide_False by lia. rewrite decide_False by lia.
    replace (char_at host (k - 1)) with "a"%char.
    2:{ unfold char_at, host. symmetry.
        apply nth_lookup_Some with (d := NUL). apply lookup_replicate_2. lia. }
    simpl. unfold strncpy. case_decide as E; simpl; [|done].
    unfold store. rewrite decide_False; [done|].
    rewrite length_app, length_strncpy_chars, length_drop. lia.
  - intros [Hfit|Hone] uri; [by apply hostname_from_uri_defined|].
    unfold hostname_from_uri.
    case_decide; [by eexists|]. case_decide; [by eexists|].
    case_decide; [by eexists|]. lia.
Qed.

(** ** Further properties of [proxy_supports_name_resolution] *)

Lemma tolower_idemp c : tolower (tolower c) = tolower c.
Proof. destruct c as [[] [] [] [] [] [] [] []]; reflexivity. Qed.

Lemma strncasecmp_tolower n : ∀ a b,
  strncasecmp (tolower <$> a) b n = strncasecmp a b n.
Proof.
  induction n as [|n IH]; intros a b; [done|].
  assert (char_at (tolower <$> a) 0 = tolower (char_at a 0)) as Hc
    by (by destruct a).
  assert (tail (tolower <$> a) = tolower <$> tail a) as Ht by (by destruct a).
  simpl. rewrite Hc, Ht, tolower_idemp, IH. done.
Qed.

Lemma ptypes_loop_tolower ps p :
  ptypes_loop (tolower <$> p) ps = ptypes_loop p ps.
Proof.
  induction ps as [|t ps IH]; simpl; [done|].
  by rewrite strncasecmp_tolower, IH.
Qed.

(** X5. The answer of [proxy_supports_name_resolution] does not depend on
    the case of the letters of the proxy string. *)
Theorem X5_proxy_scheme_case_insensitive (p q : list ascii) :
  tolower <$> p = tolower <$> q →
  proxy_supports_name_resolution (Some p) = proxy_supports_name_resolution (Some q).
Proof.
  intros H. unfold proxy_supports_name_resolution.
  rewrite <- (ptypes_loop_tolower ptypes p), <- (ptypes_loop_tolower ptypes q).
  by rewrite H.
Qed.

Lemma X5_proxy_scheme_case_insensitive_witness :
  tolower <$> chars "Socks5H://Gate:1080" = tolower <$> chars "socks5h://gate:1080" ∧
  proxy_supports_name_resolution (Some (chars "Socks5H://Gate:1080"))
  = proxy_supports_name_resolution (Some (chars "socks5h://gate:1080")).
Proof.
  split; [reflexivity|].
  apply X5_proxy_scheme_case_insensitive. reflexivity.
Defined.

(** ** Further properties of [dns_server_cb] and [https_resp_cb] *)

Lemma raddr_of_length addr n :
  (n ≤ length addr)%nat → (n ≤ sizeof_sockaddr_storage)%nat →
  length (raddr_of addr n) = sizeof_sockaddr_storage.
Proof.
  intros H1 H2. unfold raddr_of.
  rewrite length_app, length_take, length_drop, length_replicate. lia.
Qed.

(** X6. The record that [dns_server_cb] fills for a forwarded query: the
    transaction id, the server and the query buffer as passed, and as
    address a whole [sockaddr_storage] whose first [addrlen] bytes are
    those of the source address and whose other bytes are zero. *)
Theorem X6_record_of_forwarded_query (s : state) (calloc_ret server : ptr)
    (addr : list Z) (id : Z) (buf : ptr) (buf_len : Z) (n : nat) :
  bootstrapped s →
  calloc_ret ≠ NULL → heap s !! calloc_ret = None →
  heap s !! server = Some (Server n) →
  (n ≤ length addr)%nat → (n ≤ sizeof_sockaddr_storage)%nat →
  ∃ s' r,
    dns_server_cb calloc_ret server addr id buf buf_len s = Ok tt s' ∧
    heap s' !! calloc_ret = Some (Request r) ∧
    tx_id r = id ∧ dns_server r = server ∧ dns_req r = buf ∧
    length (raddr r) = sizeof_sockaddr_storage ∧
    take n (raddr r) = take n addr ∧
    (∀ i, (n ≤ i < sizeof_sockaddr_storage)%nat → raddr r !! i = Some 0) ∧
    (∀ p, p ≠ calloc_ret → heap s' !! p = heap s !! p).
Proof.
  intros Hg Hcn Hfresh Hsrv Hn1 Hn2.
  eexists _, _. split; [by eapply dns_server_cb_open|]. simpl.
  split; [apply lookup_insert_eq|]. simpl.
  do 3 (split; [done|]). split_and!.
  - by apply raddr_of_length.
  - unfold raddr_of. rewrite take_app_le by (rewrite length_take; lia).
    rewrite take_take. f_equal. lia.
  - intros i Hi. unfold raddr_of.
    rewrite lookup_app_r by (rewrite length_take; lia).
    rewrite length_take, lookup_drop. apply lookup_replicate_2. lia.
  - intros p Hp. by rewrite lookup_insert_ne.
Qed.

Lemma X6_record_of_forwarded_query_witness :
  bootstrapped sample_open ∧ 200 ≠ NULL ∧ heap sample_open !! 200 = None ∧
  heap sample_open !! 800 = Some (Server 16) ∧
  (16 ≤ length (replicate 28 7))%nat ∧ (16 ≤ sizeof_sockaddr_storage)%nat ∧
  ∃ s' r,
    dns_server_cb 200 800 (replicate 28 7) 4660 100 3 sample_open = Ok tt s' ∧
    heap s' !! 200 = Some (Request r) ∧ tx_id r = 4660.
Proof.
  assert (bootstrapped sample_open) as H1.
  { right. split; [discriminate|]. eexists _, _. reflexivity. }
  assert (200 ≠ NULL) as H2 by discriminate.
  assert (16 ≤ length (replicate 28 7))%nat as H5 by (simpl; lia).
  assert (16 ≤ sizeof_sockaddr_storage)%nat as H6
    by (unfold sizeof_sockaddr_storage; lia).
  split; [exact H1|]. split; [exact H2|]. split; [reflexivity|].
  split; [reflexivity|]. split; [exact H5|]. split; [exact H6|].
  destruct (X6_record_of_forwarded_query sample_open 200 800 (replicate 28 7)
              4660 100 3 16%nat H1 H2 eq_refl eq_refl H5 H6)
    as (s' & r & Hrun & Hr & Hid & _).
  exists s', r. split; [exact Hrun|]. split; [exact Hr|exact Hid].
Defined.

Lemma https_resp_cb_dead s data buf buflen :
  data ≠ NULL → heap s !! data = None →
  https_resp_cb data buf buflen s = Undefined.
Proof.
  intros Hn Hdead. unfold https_resp_cb, load_request, dns_server_respond.
  run_step. rewrite bool_decide_false by done. simpl.
  destruct buf; simpl; by rewrite Hdead.
Qed.

(** X7. A context completes once: after [https_resp_cb] has run for a
    pending request, the record is released, and a second call with the
    same context, whatever the response, reads released memory. *)
Theorem X7_second_completion_is_undefined (s : state) (data : ptr)
    (r : request_t) (query : list Z) (buf buf' : option (list Z)) (buflen buflen' : Z) :
  heap s !! NULL = None →
  heap s !! data = Some (Request r) →
  heap s !! dns_req r = Some (Bytes query) →
  ∃ s', https_resp_cb data buf buflen s = Ok tt s' ∧
        heap s' !! data = None ∧ heap s' !! dns_req r = None ∧
        https_resp_cb data buf' buflen' s' = Undefined.
Proof.
  intros Hnull Hreq Hbuf.
  assert (data ≠ NULL) as Hdn by (intros ->; congruence).
  assert (dns_req r ≠ NULL) as Hbn by (intros E; rewrite E in Hbuf; congruence).
  assert (dns_req r ≠ data) as Hne by (intros E; rewrite E in Hbuf; congruence).
  eexists. split; [by eapply https_resp_cb_live|]. simpl.
  assert (delete data (delete (dns_req r) (heap s)) !! data = None) as Hd
    by apply lookup_delete_eq.
  split; [done|]. split.
  - rewrite lookup_delete_ne by done. apply lookup_delete_eq.
  - by apply https_resp_cb_dead.
Qed.

Lemma X7_second_completion_is_undefined_witness :
  heap sample_pending !! NULL = None ∧
  heap sample_pending !! 200
    = Some (Request (mk_request 4660 (raddr_of (replicate 16 7) 16) 800 100)) ∧
  heap sample_pending !! 100 = Some (Bytes [18; 52; 1]) ∧
  ∃ s', https_resp_cb 200 None 0 sample_pending = Ok tt s' ∧
        https_resp_cb 200 (Some [18; 52; 129]) 3 s' = Undefined.
Proof.
  split; [reflexivity|]. split; [reflexivity|]. split; [reflexivity|].
  destruct (X7_second_completion_is_undefined sample_pending 200
              (mk_request 4660 (raddr_of (replicate 16 7) 16) 800 100)
              [18; 52; 1] None (Some [18; 52; 129]) 0 3 eq_refl eq_refl eq_refl)
    as (s' & H1 & _ & _ & H2).
  exists s'. split; [exact H1|exact H2].
Defined.

(** X8. The transaction id is carried, not used: two states that differ
    only in the [tx_id] of the record give [https_resp_cb] the same
    outcome, state and trace. *)
Theorem X8_completion_ignores_tx_id (s : state) (data : ptr) (r : request_t)
    (id' : Z) (query : list Z) (buf : option (list Z)) (buflen : Z) :
  heap s !! NULL = None →
  heap s !! data = Some (Request r) →
  heap s !! dns_req r = Some (Bytes query) →
  let r' := mk_request id' (raddr r) (dns_server r) (dns_req r) in
  let s_id' := mk_state (app s) (<[data := Request r']> (heap s))
                        (inflight s) (trace s) in
  https_resp_cb data buf buflen s_id' = https_resp_cb data buf buflen s.
Proof.
  intros Hnull Hreq Hbuf r' s_id'.
  assert (data ≠ NULL) as Hdn by (intros ->; congruence).
  assert (dns_req r ≠ NULL) as Hbn by (intros E; rewrite E in Hbuf; congruence).
  assert (dns_req r ≠ data) as Hne by (intros E; rewrite E in Hbuf; congruence).
  erewrite (https_resp_cb_live s); [|done..].
  erewrite (https_resp_cb_live s_id' data r'); [|done|apply lookup_insert_eq|done| |done].
  2:{ simpl. rewrite lookup_insert_ne by done. exact Hbuf. }
  simpl. f_equal. f_equal.
  rewrite (delete_insert_ne _ _ _ _ Hne). by rewrite delete_insert_eq.
Qed.

Lemma X8_completion_ignores_tx_id_witness :
  heap sample_pending !! NULL = None ∧
  heap sample_pending !! 200
    = Some (Request (mk_request 4660 (raddr_of (replicate 16 7) 16) 800 100)) ∧
  heap sample_pending !! 100 = Some (Bytes [18; 52; 1]) ∧
  https_resp_cb 200 (Some [18; 52; 129]) 3
    (mk_state (app sample_pending)
       (<[200 := Request (mk_request 7 (raddr_of (replicate 16 7) 16) 800 100)]>
          (heap sample_pending))
       (inflight sample_pending) (trace sample_pending))
  = https_resp_cb 200 (Some [18; 52; 129]) 3 sample_pending.
Proof.
  split; [reflexivity|]. split; [reflexivity|]. split; [reflexivity|].
  exact (X8_completion_ignores_tx_id sample_pending 200
           (mk_request 4660 (raddr_of (replicate 16 7) 16) 800 100) 7
           [18; 52; 1] (Some [18; 52; 129]) 3 eq_refl eq_refl eq_refl).
Defined.

(** ** Further properties of [dns_poll_cb] *)

(** X9. The 280-character buffer of [dns_poll_cb] is never overrun,
    whatever the host name, the address and the length of its text: with
    a valid slot the callback returns when the name has at most 254
    characters, and otherwise ends the process with the fatal log and
    with the slot, the heap and the list untouched. *)
Theorem X9_poll_buffer_never_overrun
    (inet_ntop_text : Z → list Z → option (list ascii))
    (s : state) (append_ret : ptr) (hostname : list ascii) (addr : list Z) (af : Z) :
  (resolv (app s) = NULL ∨
   ∃ d rest, heap s !! resolv (app s) = Some (Slist d rest)) →
  dns_poll_cb inet_ntop_text append_ret hostname addr af s ≠ Undefined ∧
  ((strlen hostname ≤ 254)%nat →
   ∃ s', dns_poll_cb inet_ntop_text append_ret hostname addr af s = Ok tt s') ∧
  ((254 < strlen hostname)%nat →
   dns_poll_cb inet_ntop_text append_ret hostname addr af s
   = Exit (with_events s [EvLog LOG_FATAL "Hostname too long."])).
Proof.
  intros Hslot.
  destruct (decide (254 < strlen hostname)%nat) as [Hlong|Hshort].
  - rewrite dns_poll_cb_too_long by done. split_and!; [done|lia|done].
  - rewrite dns_poll_cb_ok by (done || lia).
    split_and!; [done|by eexists|lia].
Qed.

Lemma X9_poll_buffer_never_overrun_witness :
  (∃ d rest, heap sample_idle !! resolv (app sample_idle) = Some (Slist d rest)) ∧
  dns_poll_cb sample_ntop 301 long_hostname sample_ipv6 AF_INET6 sample_idle
  ≠ Undefined.
Proof.
  assert (∃ d rest, heap sample_idle !! resolv (app sample_idle)
                    = Some (Slist d rest)) as H
    by (eexists _, _; reflexivity).
  split; [exact H|].
  exact (proj1 (X9_poll_buffer_never_overrun sample_ntop sample_idle 301
                  long_hostname sample_ipv6 AF_INET6 (or_intror H))).
Defined.

(** X10. An address text of at most 19 characters, as every dotted IPv4
    address is, fits behind any host name that passes the length check:
    the entry of the new list is then the host name, ":443:" and the
    text. *)
Theorem X10_short_address_text_always_fits
    (inet_ntop_text : Z → list Z → option (list ascii))
    (s : state) (append_ret : ptr) (hostname : list ascii) (addr : list Z) (af : Z)
    (t : list ascii) :
  (strlen hostname ≤ 254)%nat →
  (resolv (app s) = NULL ∨
   ∃ d rest, heap s !! resolv (app s) = Some (Slist d rest)) →
  append_ret ≠ NULL →
  inet_ntop_text af addr = Some t → Forall (λ c, c ≠ NUL) t → (length t ≤ 19)%nat →
  ∃ s',
    dns_poll_cb inet_ntop_text append_ret hostname addr af s = Ok tt s' ∧
    resolv (app s') = append_ret ∧
    heap s' !! append_ret
      = Some (Slist (Some (cstring hostname ++ chars ":443:" ++ t)) []).
Proof.
  intros Hlen Hslot Hn Ht Hnn Hshort.
  destruct (override_replaced_wholesale inet_ntop_text s append_ret hostname addr af
              Hlen Hslot) as (s' & Hrun & _ & Hr & _ & Hnew & _ & Htext & _).
  exists s'. split; [done|]. split; [done|].
  rewrite (proj1 (Hnew Hn)). by rewrite (Htext t Ht Hnn) by lia.
Qed.

Lemma X10_short_address_text_always_fits_witness :
  (strlen (chars "dns.google") ≤ 254)%nat ∧ 301 ≠ NULL ∧
  sample_ntop AF_INET [8; 8; 8; 8] = Some (chars "8.8.8.8") ∧
  (length (chars "8.8.8.8") ≤ 19)%nat ∧
  ∃ s',
    dns_poll_cb sample_ntop 301 (chars "dns.google") [8; 8; 8; 8] AF_INET sample_idle
      = Ok tt s' ∧
    resolv (app s') = 301 ∧
    heap s' !! 301 = Some (Slist (Some (chars "dns.google:443:8.8.8.8")) []).
Proof.
  assert (strlen (chars "dns.google") ≤ 254)%nat as H1 by (simpl; lia).
  assert (301 ≠ NULL) as H2 by discriminate.
  assert (length (chars "8.8.8.8") ≤ 19)%nat as H3 by (simpl; lia).
  assert (Forall (λ c, c ≠ NUL) (chars "8.8.8.8")) as H4
    by (repeat constructor; discriminate).
  split; [exact H1|]. split; [exact H2|]. split; [reflexivity|]. split; [exact H3|].
  exact (X10_short_address_text_always_fits sample_ntop sample_idle 301
           (chars "dns.google") [8; 8; 8; 8] AF_INET (chars "8.8.8.8")
           H1 (or_intror (ex_intro _ _ (ex_intro _ _ eq_refl))) H2 eq_refl H4 H3).
Defined.

Lemma released_appended p text h :
  p = NULL ∨ h !! p = None → released p (appended p text h) = h.
Proof.
  intros Hp. unfold released, appended.
  destruct (decide (p = NULL)) as [|Hn]; [done|].
  destruct Hp as [|Hp]; [done|]. by apply delete_insert_id.
Qed.

Lemma released_lookup p h : p ≠ NULL → released p h !! p = None.
Proof. intros Hn. unfold released. rewrite decide_False by done. apply lookup_delete_eq. Qed.

(** X11. The last poll result wins: two calls of [dns_poll_cb] in a row
    leave the slot and the heap as the second call alone would have, the
    list of the first call being released whole. *)
Theorem X11_last_poll_wins
    (inet_ntop_text : Z → list Z → option (list ascii))
    (s : state) (ret1 ret2 : ptr) (host1 host2 : list ascii)
    (addr1 addr2 : list Z) (af1 af2 : Z) :
  (strlen host1 ≤ 254)%nat → (strlen host2 ≤ 254)%nat →
  (resolv (app s) = NULL ∨
   ∃ d rest, heap s !! resolv (app s) = Some (Slist d rest)) →
  ret1 = NULL ∨ heap s !! ret1 = None ∨ ret1 = resolv (app s) →
  ∃ s1 s2 s2',
    dns_poll_cb inet_ntop_text ret1 host1 addr1 af1 s = Ok tt s1 ∧
    dns_poll_cb inet_ntop_text ret2 host2 addr2 af2 s1 = Ok tt s2 ∧
    dns_poll_cb inet_ntop_text ret2 host2 addr2 af2 s = Ok tt s2' ∧
    app s2 = app s2' ∧ heap s2 = heap s2' ∧ inflight s2 = inflight s2'.
Proof.
  intros Hl1 Hl2 Hslot Hret.
  rewrite (dns_poll_cb_ok inet_ntop_text s ret1) by done.
  rewrite (dns_poll_cb_ok inet_ntop_text s ret2) by done.
  eexists _, _, _. split; [done|]. split.
  - apply dns_poll_cb_ok; [done|]. simpl.
    destruct (decide (ret1 = NULL)) as [|Hn]; [by left|]. right.
    unfold appended. rewrite decide_False by done.
    eexists _, _. apply lookup_insert_eq.
  - split; [done|]. simpl. split_and!; try done.
    rewrite released_appended; [done|].
    destruct (decide (ret1 = NULL)) as [|Hn]; [by left|]. right.
    destruct Hret as [?|[Hf| ->]]; [done| |by apply released_lookup].
    unfold released. case_decide; [done|].
    destruct (decide (resolv (app s) = ret1)) as [->|Hne];
      [apply lookup_delete_eq|by rewrite lookup_delete_ne].
Qed.

Lemma X11_last_poll_wins_witness :
  (strlen (chars "dns.google") ≤ 254)%nat ∧
  (∃ d rest, heap sample_idle !! resolv (app sample_idle) = Some (Slist d rest)) ∧
  heap sample_idle !! 301 = None ∧
  ∃ s1 s2 s2',
    dns_poll_cb sample_ntop 301 (chars "dns.google") [8; 8; 8; 8] AF_INET sample_idle
      = Ok tt s1 ∧
    dns_poll_cb sample_ntop 302 (chars "dns.google") [8; 8; 4; 4] AF_INET s1
      = Ok tt s2 ∧
    dns_poll_cb sample_ntop 302 (chars "dns.google") [8; 8; 4; 4] AF_INET sample_idle
      = Ok tt s2' ∧
    heap s2 = heap s2'.
Proof.
  assert (strlen (chars "dns.google") ≤ 254)%nat as H1 by (simpl; lia).
  assert (∃ d rest, heap sample_idle !! resolv (app sample_idle)
                    = Some (Slist d rest)) as H2
    by (eexists _, _; reflexivity).
  split; [exact H1|]. split; [exact H2|]. split; [reflexivity|].
  destruct (X11_last_poll_wins sample_ntop sample_idle 301 302
              (chars "dns.google") (chars "dns.google") [8; 8; 8; 8] [8; 8; 4; 4]
              AF_INET AF_INET H1 H1 (or_intror H2) (or_intror (or_introl eq_refl)))
    as (s1 & s2 & s2' & R1 & R2 & R3 & _ & Hh & _).
  exists s1, s2, s2'. split; [exact R1|]. split; [exact R2|].
  split; [exact R3|exact Hh].
Defined.

(** ** How the callbacks compose *)

(** X12. The gate can close again: when polling is on and libcurl cannot
    allocate the new list, [dns_poll_cb] leaves the slot [NULL], also when
    an override was in place before, and the queries that follow are
    discarded as before the first poll result. *)
Theorem X12_failed_append_closes_gate
    (inet_ntop_text : Z → list Z → option (list ascii))
    (s : state) (hostname : list ascii) (addr : list Z) (af : Z) :
  using_dns_poller (app s) ≠ 0 →
  (strlen hostname ≤ 254)%nat →
  (resolv (app s) = NULL ∨
   ∃ d rest, heap s !! resolv (app s) = Some (Slist d rest)) →
  ∃ s1,
    dns_poll_cb inet_ntop_text NULL hostname addr af s = Ok tt s1 ∧
    resolv (app s1) = NULL ∧ bootstrapping s1 ∧
    ∀ buf payload calloc_ret server qaddr id,
      enabled s1 (Query buf payload calloc_ret server qaddr id) →
      ∃ new,
        react inet_ntop_text (Query buf payload calloc_ret server qaddr id) s1
        = Ok tt (with_events s1 new) ∧
        fetches new = [] ∧ replies new = [].
Proof.
  intros Hpoll Hlen Hslot.
  eexists. split; [by apply dns_poll_cb_ok|]. simpl. split; [done|].
  assert (bootstrapping
    (mk_state (mk_app (https_client (app s)) NULL (resolver_url (app s))
                      (using_dns_poller (app s)))
       (appended NULL (override_text inet_ntop_text hostname af addr)
                 (released (resolv (app s)) (heap s)))
       (inflight s)
       (trace s ++ [EvLog LOG_DEBUG "Received new IP '%s'";
                    EvSlistFreeAll (resolv (app s))]))) as Hg.
  { split; [done|]. by left. }
  split; [exact Hg|].
  intros buf payload calloc_ret server qaddr id Hen.
  eexists. split; [exact (react_query_closed inet_ntop_text _ _ _ _ _ _ _ Hg Hen)|]. done.
Qed.

Lemma X12_failed_append_closes_gate_witness :
  using_dns_poller (app sample_idle) ≠ 0 ∧
  (strlen (chars "dns.google") ≤ 254)%nat ∧
  (∃ d rest, heap sample_idle !! resolv (app sample_idle) = Some (Slist d rest)) ∧
  ∃ s1,
    dns_poll_cb sample_ntop NULL (chars "dns.google") [8; 8; 8; 8] AF_INET sample_idle
      = Ok tt s1 ∧
    resolv (app s1) = NULL ∧ bootstrapping s1.
Proof.
  assert (using_dns_poller (app sample_idle) ≠ 0) as H0 by discriminate.
  assert (strlen (chars "dns.google") ≤ 254)%nat as H1 by (simpl; lia).
  assert (∃ d rest, heap sample_idle !! resolv (app sample_idle)
                    = Some (Slist d rest)) as H2
    by (eexists _, _; reflexivity).
  split; [exact H0|]. split; [exact H1|]. split; [exact H2|].
  destruct (X12_failed_append_closes_gate sample_ntop sample_idle
              (chars "dns.google") [8; 8; 8; 8] AF_INET H0 H1 (or_intror H2))
    as (s1 & R & Hr & Hg & _).
  exists s1. split; [exact R|]. split; [exact Hr|exact Hg].
Defined.

(** X13. A fetch started after a poll result uses that result: after
    [dns_poll_cb] has published a list, the gate is open, and the next
    forwarded query hands [https_client_fetch] the pointer of that list,
    which holds the one entry of that poll. *)
Theorem X13_fetch_after_poll_uses_new_override
    (inet_ntop_text : Z → list Z → option (list ascii))
    (s : state) (append_ret : ptr) (hostname : list ascii) (addr : list Z) (af : Z) :
  (strlen hostname ≤ 254)%nat →
  (resolv (app s) = NULL ∨
   ∃ d rest, heap s !! resolv (app s) = Some (Slist d rest)) →
  append_ret ≠ NULL →
  ∃ s1,
    dns_poll_cb inet_ntop_text append_ret hostname addr af s = Ok tt s1 ∧
    bootstrapped s1 ∧
    ∀ buf payload calloc_ret server qaddr id,
      enabled s1 (Query buf payload calloc_ret server qaddr id) →
      calloc_ret ≠ NULL →
      ∃ s2,
        react inet_ntop_text (Query buf payload calloc_ret server qaddr id) s1
          = Ok tt s2 ∧
        fetches (drop (length (trace s1)) (trace s2))
          = [EvFetch (https_client (app s)) (resolver_url (app s)) buf
                     (Z.of_nat (length payload)) append_ret calloc_ret] ∧
        heap s2 !! append_ret
          = Some (Slist (Some (override_text inet_ntop_text hostname af addr)) []).
Proof.
  intros Hlen Hslot Hn.
  eexists. split; [by apply dns_poll_cb_ok|].
  set (s1 := mk_state _ _ _ _).
  assert (heap s1 !! append_ret
          = Some (Slist (Some (override_text inet_ntop_text hostname af addr)) []))
    as Hnew.
  { simpl. unfold appended. rewrite decide_False by done. apply lookup_insert_eq. }
  assert (bootstrapped s1) as Hg.
  { right. split; [done|]. by eexists _, _. }
  split; [exact Hg|].
  intros buf payload calloc_ret server qaddr id
    (Hbn & Hbf & Hret & n & Hsrv & Hn1 & Hn2) Hcn.
  destruct Hret as [?|[Hcf Hne]]; [done|].
  rewrite (react_query_open inet_ntop_text s1 buf payload calloc_ret server qaddr id n)
    by done.
  eexists. split; [done|]. split.
  - cbn [trace]. by rewrite drop_app_length.
  - cbn [heap]. rewrite !lookup_insert_ne; [exact Hnew|intros E; congruence..].
Qed.

Lemma X13_fetch_after_poll_uses_new_override_witness :
  (strlen (chars "dns.google") ≤ 254)%nat ∧
  resolv (app sample_closed) = NULL ∧ 300 ≠ NULL ∧
  ∃ s1,
    dns_poll_cb sample_ntop 300 (chars "dns.google") [8; 8; 8; 8] AF_INET sample_closed
      = Ok tt s1 ∧
    bootstrapped s1.
Proof.
  assert (strlen (chars "dns.google") ≤ 254)%nat as H1 by (simpl; lia).
  assert (300 ≠ NULL) as H2 by discriminate.
  split; [exact H1|]. split; [reflexivity|]. split; [exact H2|].
  destruct (X13_fetch_after_poll_uses_new_override sample_ntop sample_closed 300
              (chars "dns.google") [8; 8; 8; 8] AF_INET H1 (or_introl eq_refl) H2)
    as (s1 & R & Hg & _).
  exists s1. split; [exact R|exact Hg].
Defined.

(** X14. [dns_poll_cb] releases the list without regard to the fetches
    under way: a query forwarded with the current list and still
    outstanding when the next poll result arrives is left with a pointer
    to a list that is live no more. *)
Theorem X14_poll_releases_list_of_outstanding_fetch
    (inet_ntop_text : Z → list Z → option (list ascii))
    (s : state) (d : list ascii) (rest : list (option (list ascii)))
    (buf : ptr) (payload : list Z) (calloc_ret server : ptr) (qaddr : list Z) (id : Z)
    (append_ret : ptr) (hostname : list ascii) (addr : list Z) (af : Z) :
  resolv (app s) ≠ NULL →
  heap s !! resolv (app s) = Some (Slist (Some d) rest) →
  enabled s (Query buf payload calloc_ret server qaddr id) →
  calloc_ret ≠ NULL →
  (strlen hostname ≤ 254)%nat →
  append_ret ≠ resolv (app s) →
  ∃ s1 s2,
    react inet_ntop_text (Query buf payload calloc_ret server qaddr id) s = Ok tt s1 ∧
    react inet_ntop_text (Poll append_ret hostname addr af) s1 = Ok tt s2 ∧
    EvFetch (https_client (app s)) (resolver_url (app s)) buf
            (Z.of_nat (length payload)) (resolv (app s)) calloc_ret ∈ trace s2 ∧
    calloc_ret ∈ inflight s2 ∧
    heap s2 !! resolv (app s) = None.
Proof.
  intros Hrn Hlist (Hbn & Hbf & Hret & n & Hsrv & Hn1 & Hn2) Hcn Hlen Hne.
  destruct Hret as [?|[Hcf Hcb]]; [done|].
  assert (bootstrapped s) as Hg by (right; split; [done|]; by eexists _, _).
  rewrite (react_query_open inet_ntop_text s buf payload calloc_ret server qaddr id n)
    by done.
  set (s1 := mk_state _ _ _ _).
  assert (heap s1 !! resolv (app s1) = Some (Slist (Some d) rest)) as Hlist1.
  { simpl. rewrite !lookup_insert_ne; [done|intros E; congruence..]. }
  eexists _, _. split; [done|]. split.
  { unfold react. apply dns_poll_cb_ok; [done|]. right. by eexists _, _. }
  cbn [trace inflight heap app resolv]. split_and!.
  - apply elem_of_app. left. apply elem_of_app. right. right. by left.
  - apply elem_of_app. right. by left.
  - unfold appended, released. rewrite (decide_False (P := resolv (app s) = NULL)) by done.
    case_decide; [|rewrite lookup_insert_ne by done]; apply lookup_delete_eq.
Qed.

Lemma X14_poll_releases_list_of_outstanding_fetch_witness :
  resolv (app sample_idle) ≠ NULL ∧
  heap sample_idle !! resolv (app sample_idle)
    = Some (Slist (Some (chars "dns.google:443:8.8.8.8")) []) ∧
  200 ≠ NULL ∧ (strlen (chars "dns.google") ≤ 254)%nat ∧
  301 ≠ resolv (app sample_idle) ∧
  ∃ s1 s2,
    react sample_ntop (Query 100 [18; 52; 1] 200 800 (replicate 16 7) 4660) sample_idle
      = Ok tt s1 ∧
    react sample_ntop (Poll 301 (chars "dns.google") [8; 8; 4; 4] AF_INET) s1
      = Ok tt s2 ∧
    200 ∈ inflight s2 ∧ heap s2 !! 300 = None.
Proof.
  assert (resolv (app sample_idle) ≠ NULL) as H1 by discriminate.
  assert (200 ≠ NULL) as H2 by discriminate.
  assert (strlen (chars "dns.google") ≤ 254)%nat as H3 by (simpl; lia).
  assert (301 ≠ resolv (app sample_idle)) as H4 by discriminate.
  assert (enabled sample_idle (Query 100 [18; 52; 1] 200 800 (replicate 16 7) 4660))
    as H5.
  { split; [discriminate|]. split; [reflexivity|].
    split; [right; split; [reflexivity|discriminate]|].
    exists 16%nat. split; [reflexivity|]. split; vm_compute; lia. }
  split; [exact H1|]. split; [reflexivity|]. split; [exact H2|].
  split; [exact H3|]. split; [exact H4|].
  destruct (X14_poll_releases_list_of_outstanding_fetch sample_ntop sample_idle
              (chars "dns.google:443:8.8.8.8") [] 100 [18; 52; 1] 200 800
              (replicate 16 7) 4660 301 (chars "dns.google") [8; 8; 4; 4] AF_INET
              H1 eq_refl H5 H2 H3 H4)
    as (s1 & s2 & R1 & R2 & _ & Hin & Hdead).
  exists s1, s2. split; [exact R1|]. split; [exact R2|]. split; [exact Hin|exact Hdead].
Defined.

(** ** Further invariants of the reactor *)

Section Shapes.

Variable inet_ntop_text : Z → list Z → option (list ascii).

Lemma react_shape s i :
  wf s → enabled s i → step_shape inet_ntop_text s i (react inet_ntop_text i s).
Proof.
  intros Hwf Hen.
  destruct i as [buf payload cr srv addr id|ctx resp len|ar hn addr af].
  - destruct (wf_gate s Hwf) as [Hg|Hg].
    + rewrite (react_query_closed inet_ntop_text _ _ _ _ _ _ _ Hg Hen).
      by constructor.
    + destruct Hen as (Hbn & Hbf & Hret & n & Hsrv & Hn1 & Hn2).
      destruct (decide (cr = NULL)) as [->|Hcn].
      * unfold react. rewrite dns_server_recv_eq.
        rewrite dns_server_cb_oom by (by apply bootstrapped_insert).
        by constructor.
      * destruct Hret as [?|[Hcf Hne]]; [done|].
        rewrite (react_query_open inet_ntop_text s buf payload cr srv addr id n)
          by done.
        by constructor.
  - destruct (complete_preserves inet_ntop_text s ctx resp len Hwf Hen)
      as (r & bs & Hr & Hb & Hstep & _).
    rewrite Hstep. by econstructor.
  - unfold react. destruct (decide (254 < strlen hn)%nat) as [Hlong|Hshort].
    + rewrite dns_poll_cb_too_long by done. by constructor.
    + rewrite dns_poll_cb_ok; [constructor; lia|lia|].
      destruct (wf_resolv s Hwf) as [?|[d Hd]]; [by left|right; eauto].
Qed.

(** Induction over the runs from a well-formed state, step by step. *)
Lemma wf_runs_ind (P : state → Prop) (Q : input → Prop) :
  (∀ s i s', wf s → wf s' → P s → Q i → enabled s i →
             step_shape inet_ntop_text s i (Ok tt s') → P s') →
  ∀ s ins o, runs inet_ntop_text s ins o → wf s → P s → Forall Q ins →
  ∀ s', o = Ok tt s' → wf s' ∧ P s'.
Proof.
  intros Hstep.
  induction 1 as [s|s i s1 rest o Hen Hreact Hrun IH|s i s1 rest Hen Hreact
                  |s i rest Hen Hreact]; intros Hwf HP HQ s' Ho.
  - by simplify_eq.
  - apply Forall_cons in HQ as [Hi HQ].
    assert (wf s1) as Hwf1.
    { destruct (react_preserves inet_ntop_text s i Hwf Hen) as [(s2 & H2 & Hw)|(s2 & H2)];
        rewrite H2 in Hreact; by simplify_eq. }
    apply IH; try done.
    apply (Hstep s i s1); try done.
    rewrite <- Hreact. by apply react_shape.
  - done.
  - done.
Qed.

Lemma length_remove_first p l :
  p ∈ l → length l = S (length (remove_first p l)).
Proof.
  induction l as [|x l IH]; simpl; [by intros ?%elem_of_nil|].
  intros Hin. case_decide as E; [done|].
  apply elem_of_cons in Hin as [->|Hin]; [done|]. simpl. by rewrite <- IH.
Qed.

Lemma published_keeps s append_ret text q bq :
  wf s →
  append_ret = NULL ∨ heap s !! append_ret = None ∨ append_ret = resolv (app s) →
  heap s !! q = Some bq → (∀ d rest, bq ≠ Slist d rest) →
  appended append_ret text (released (resolv (app s)) (heap s)) !! q = Some bq.
Proof.
  intros Hwf Hen Hq Hns.
  assert (q ≠ append_ret ∨ append_ret = NULL) as Hqa.
  { destruct (decide (append_ret = NULL)) as [|Han]; [by right|]. left. intros ->.
    destruct Hen as [?|[Hf|Hr]]; [done|congruence|].
    destruct (wf_resolv s Hwf) as [Hn|[d Hd]]; [congruence|].
    rewrite <- Hr in Hd. rewrite Hd in Hq. simplify_eq. by eapply Hns. }
  assert (released (resolv (app s)) (heap s) !! q = Some bq) as Hrel.
  { unfold released. case_decide; [done|].
    rewrite lookup_delete_ne; [done|]. intros E.
    destruct (wf_resolv s Hwf) as [Hn|[d Hd]]; [done|].
    rewrite E in Hd. rewrite Hd in Hq. simplify_eq. by eapply Hns. }
  unfold appended. case_decide; [done|].
  destruct Hqa as [Hqa|?]; [|done]. by rewrite lookup_insert_ne.
Qed.

Lemma published_from s append_ret text q bq :
  wf s → tidy s →
  appended append_ret text (released (resolv (app s)) (heap s)) !! q = Some bq →
  (q = append_ret ∧ append_ret ≠ NULL ∧ bq = Slist (Some text) []) ∨
  (heap s !! q = Some bq ∧ ∀ d rest, bq ≠ Slist d rest).
Proof.
  intros Hwf Ht.
  assert (released (resolv (app s)) (heap s) !! q = Some bq →
          heap s !! q = Some bq ∧ ∀ d rest, bq ≠ Slist d rest) as Hrel.
  { unfold released. case_decide as Hrn.
    - intros Hq'. split; [done|]. intros d rest ->.
      pose proof (Ht q _ Hq') as Hs. simpl in Hs.
      rewrite Hs, Hrn, (wf_null s Hwf) in Hq'. done.
    - destruct (decide (q = resolv (app s))) as [->|Hne];
        [by rewrite lookup_delete_eq|].
      rewrite lookup_delete_ne by done. intros Hq'. split; [done|].
      intros d rest ->. by pose proof (Ht q _ Hq'). }
  unfold appended. intros Hq.
  case_decide as Han; [right; by apply Hrel|].
  destruct (decide (q = append_ret)) as [->|Hne].
  - rewrite lookup_insert_eq in Hq. simplify_eq. by left.
  - rewrite lookup_insert_ne in Hq by done. right. by apply Hrel.
Qed.

Lemma tidy_step s i s' :
  wf s → tidy s → enabled s i → step_shape inet_ntop_text s i (Ok tt s') →
  tidy s'.
Proof.
  intros Hwf Ht Hen Hshape.
  inversion Hshape as
    [buf payload cr srv addr id Hg
    |
    |buf payload cr srv addr id n Hg Hcn Hsrv
    |ctx resp len r query Hr Hb
    |
    |ar hn addr af Hlen]; subst; clear Hshape.
  - (* discarded *) exact Ht.
  - (* forwarded *)
    destruct Hen as (Hbn & Hbf & Hret & _).
    destruct Hret as [?|[Hcf Hne]]; [done|].
    intros p b. cbn [heap inflight app].
    destruct (decide (p = cr)) as [->|Hpc].
    { rewrite lookup_insert_eq. intros [= <-]. apply elem_of_app. right. by left. }
    rewrite lookup_insert_ne by done.
    destruct (decide (p = buf)) as [->|Hpb].
    { rewrite lookup_insert_eq. intros [= <-].
      exists cr, (mk_request id (raddr_of addr n) srv buf).
      split; [apply elem_of_app; right; by left|].
      split; [apply lookup_insert_eq|done]. }
    rewrite lookup_insert_ne by done. intros Hp.
    specialize (Ht p b Hp). destruct b as [bs|r|m|d rest]; try done.
    + destruct Ht as (ctx & r & Hin & Hr & Hd).
      exists ctx, r. split; [apply elem_of_app; by left|]. split; [|done].
      rewrite !lookup_insert_ne; [done|intros E; congruence..].
    + apply elem_of_app. by left.
  - (* completed *)
    intros p b. cbn [heap inflight app].
    destruct (decide (p = ctx)) as [->|Hpc]; [by rewrite lookup_delete_eq|].
    rewrite lookup_delete_ne by done.
    destruct (decide (p = dns_req r)) as [->|Hpb]; [by rewrite lookup_delete_eq|].
    rewrite lookup_delete_ne by done. intros Hp.
    specialize (Ht p b Hp). destruct b as [bs|r'|m|d rest]; try done.
    + destruct Ht as (c' & r' & Hin & Hr' & Hd).
      assert (c' ≠ ctx) as Hne by (intros ->; congruence).
      exists c', r'. split; [by apply remove_first_other|]. split; [|done].
      rewrite !lookup_delete_ne; [done| |done]. intros E. congruence.
    + by apply remove_first_other.
  - (* published *)
    simpl in Hen.
    intros p b. cbn [heap inflight app resolv].
    intros Hp.
    destruct (published_from s ar _ p b Hwf Ht Hp) as [(-> & _ & ->)|[Hold Hns]];
      [done|].
    specialize (Ht p b Hold). destruct b as [bs|r|m|d rest]; try done.
    + destruct Ht as (c & r & Hin & Hr & Hd). exists c, r.
      split; [done|]. split; [|done]. by apply published_keeps.
    + by destruct (Hns d rest).
Qed.

(** The callbacks neither create nor release a [dns_server_t]. *)
Lemma server_blocks_step s i s' :
  wf s → tidy s → enabled s i → step_shape inet_ntop_text s i (Ok tt s') →
  ∀ q m, heap s' !! q = Some (Server m) ↔ heap s !! q = Some (Server m).
Proof.
  intros Hwf Ht Hen Hshape.
  inversion Hshape as
    [buf payload cr srv addr id Hg
    |
    |buf payload cr srv addr id n Hg Hcn Hsrv
    |ctx resp len r query Hr Hb
    |
    |ar hn addr af Hlen]; subst; clear Hshape; intros q m; cbn [heap].
  - done.
  - destruct Hen as (Hbn & Hbf & Hret & _).
    destruct Hret as [?|[Hcf Hne]]; [done|].
    destruct (decide (q = cr)) as [->|Hqc].
    { rewrite lookup_insert_eq. split; [done|congruence]. }
    rewrite lookup_insert_ne by done.
    destruct (decide (q = buf)) as [->|Hqb].
    { rewrite lookup_insert_eq. split; [done|congruence]. }
    by rewrite lookup_insert_ne.
  - destruct (decide (q = ctx)) as [->|Hqc].
    { rewrite lookup_delete_eq. split; [done|congruence]. }
    rewrite lookup_delete_ne by done.
    destruct (decide (q = dns_req r)) as [->|Hqb].
    { rewrite lookup_delete_eq. split; [done|congruence]. }
    by rewrite lookup_delete_ne.
  - split.
    + intros Hq. by destruct (published_from s ar _ q _ Hwf Ht Hq)
        as [(_ & _ & ?)|[? _]].
    + intros Hq. by apply published_keeps.
Qed.

Lemma balanced_step s i s' :
  balanced s → enabled s i → step_shape inet_ntop_text s i (Ok tt s') →
  balanced s'.
Proof.
  unfold balanced. intros Hb Hen Hshape.
  inversion Hshape as
    [buf payload cr srv addr id Hg
    |
    |buf payload cr srv addr id n Hg Hcn Hsrv
    |ctx resp len r query Hr Hq
    |
    |ar hn addr af Hlen]; subst; clear Hshape;
    cbn [trace inflight with_events]; rewrite ?fetches_app, ?replies_app, ?length_app.
  - simpl. lia.
  - simpl. lia.
  - simpl in Hen. rewrite (length_remove_first ctx (inflight s) Hen) in Hb.
    unfold completion_events. destruct resp; simpl; lia.
  - simpl. lia.
Qed.

End Shapes.

Lemma main_state_reached opt client server n hostname s0 :
  server ≠ NULL →
  main_poller opt hostname (main_state opt client server n) = Ok tt s0 →
  wf s0 ∧ tidy s0 ∧ balanced s0 ∧ inflight s0 = [] ∧
  heap s0 = {[server := Server n]} ∧ resolv (app s0) = NULL.
Proof.
  intros Hsrv Hrun. split; [by eapply wf_main|].
  assert (∀ a t, resolv a = NULL → replies t = [] →
     let s := mk_state a {[server := Server n]} [] t in
     tidy s ∧ balanced s ∧ inflight s = [] ∧ heap s = {[server := Server n]} ∧
     resolv (app s) = NULL) as Hok.
  { intros a t Ha Ht s. split_and!; try done.
    - intros p b. unfold s. cbn [heap inflight app].
      intros [-> <-]%lookup_singleton_Some. done.
    - unfold balanced, s. cbn [trace inflight]. rewrite Ht. simpl. lia. }
  revert Hrun. unfold main_poller, main_state.
  case_decide; [|intros [= <-]; by apply Hok].
  unfold mbind, M_bind, defined.
  destruct (hostname_from_uri _ _ _) as [[ok h]|]; simpl; [|done].
  case_decide; run_step; intros [= <-]; by apply Hok.
Qed.

Section Loop.

Variable inet_ntop_text : Z → list Z → option (list ascii).

Lemma runs_exit_cause s ins o :
  runs inet_ntop_text s ins o → wf s →
  ∀ s', o = Exit s' →
    (last (trace s') = Some (EvLog LOG_FATAL "Out of mem") ∧
     ∃ buf payload server addr id, Query buf payload NULL server addr id ∈ ins) ∨
    (last (trace s') = Some (EvLog LOG_FATAL "Hostname too long.") ∧
     ∃ append_ret hostname addr af,
       Poll append_ret hostname addr af ∈ ins ∧ (254 < strlen hostname)%nat).
Proof.
  induction 1 as [s|s i s1 rest o Hen Hreact Hrun IH|s i s1 rest Hen Hreact
                  |s i rest Hen Hreact]; intros Hwf s' Ho.
  - done.
  - assert (wf s1) as Hwf1.
    { destruct (react_preserves inet_ntop_text s i Hwf Hen)
        as [(s2 & H2 & Hw)|(s2 & H2)]; rewrite H2 in Hreact; by simplify_eq. }
    destruct (IH Hwf1 s' Ho) as [[Hl (b & p & sv & a & id & Hin)]
                                |[Hl (ar & hn & a & af & Hin & Hlen)]].
    + left. split; [done|]. exists b, p, sv, a, id. by right.
    + right. split; [done|]. exists ar, hn, a, af. split; [by right|done].
  - simplify_eq.
    pose proof (react_shape inet_ntop_text s i Hwf Hen) as Hshape.
    rewrite Hreact in Hshape.
    inversion Hshape as
      [|buf payload srv addr id Hg| | |ar hn addr af Hlen|]; subst; clear Hshape.
    + left. split.
      * cbn [trace with_events]. by rewrite last_app.
      * exists buf, payload, srv, addr, id. by left.
    + right. split.
      * cbn [trace with_events]. by rewrite last_app.
      * exists ar, hn, addr, af. split; [by left|done].
  - done.
Qed.

Lemma fetch_to_step client url polling s i s' :
  https_client (app s) = client → resolver_url (app s) = url →
  using_dns_poller (app s) = polling → Forall (fetch_to client url polling) (trace s) →
  step_shape inet_ntop_text s i (Ok tt s') →
  https_client (app s') = client ∧ resolver_url (app s') = url ∧
  using_dns_poller (app s') = polling ∧
  Forall (fetch_to client url polling) (trace s').
Proof.
  intros Hc Hu Hp Ht Hshape.
  inversion Hshape as
    [buf payload cr srv addr id Hg
    |
    |buf payload cr srv addr id n Hg Hcn Hsrv
    |ctx resp len r query Hr Hb
    |
    |ar hn addr af Hlen]; subst; clear Hshape;
    cbn [app trace with_events https_client resolver_url using_dns_poller];
    split_and!; try done; apply Forall_app; split; try done.
  - by repeat constructor.
  - constructor; [|constructor; [|constructor]]; [done|].
    simpl. split_and!; try done.
    intros Hnull. destruct Hg as [Hg|[Hg _]]; [done|]. by destruct Hg.
  - unfold completion_events. destruct resp; by repeat constructor.
  - by repeat constructor.
Qed.

End Loop.

Lemma main_state_app opt client server n hostname s0 :
  main_poller opt hostname (main_state opt client server n) = Ok tt s0 →
  https_client (app s0) = client ∧ resolver_url (app s0) = opt_resolver_url opt ∧
  fetches (trace s0) = [] ∧
  (poller_initialised (trace s0) = true ↔ using_dns_poller (app s0) ≠ 0).
Proof.
  unfold main_poller, main_state.
  case_decide; [|intros [= <-]; split_and!; try done; simpl; split; done].
  unfold mbind, M_bind, defined.
  destruct (hostname_from_uri _ _ _) as [[ok h]|]; simpl; [|done].
  case_decide; run_step; intros [= <-]; split_and!; try done; simpl; split; done.
Qed.

Lemma main_poller_init opt hostname s s0 b h af :
  poller_initialised (trace s) = false →
  main_poller opt hostname s = Ok tt s0 →
  EvPollerInit b h af ∈ trace s0 →
  ∃ hostname',
    hostname_from_uri (opt_resolver_url opt) hostname 254 = Some (1, hostname') ∧
    h = cstring hostname'.
Proof.
  intros Hnone.
  assert (EvPollerInit b h af ∉ trace s) as Hnot.
  { intros Hin. apply not_true_iff_false in Hnone. apply Hnone.
    unfold poller_initialised. apply existsb_exists.
    exists (EvPollerInit b h af). split; [by apply list_elem_of_In|done]. }
  unfold main_poller. case_decide; [|by intros [= <-]].
  unfold mbind, M_bind, defined.
  destruct (hostname_from_uri _ _ _) as [[ok h']|] eqn:E; simpl; [|done].
  case_decide as Hok; run_step; intros [= <-]; simpl.
  - rewrite <- !app_assoc. intros [?|Hin]%elem_of_app; [done|].
    apply elem_of_cons in Hin as [Hin|Hin].
    + simplify_eq. exists h'. split; [|done].
      destruct (hostname_from_uri_inv _ _ _ _ _ E Hok)
        as (? & ? & ? & _ & _ & _ & _ & _ & _ & -> & _). done.
    + apply list_elem_of_singleton in Hin. discriminate.
  - intros [?|Hin]%elem_of_app; [done|].
    apply list_elem_of_singleton in Hin. discriminate.
Qed.

(** ** From [main] into the loop *)

(** X15. The name that [main] hands to [dns_poller_init] is the host of the
    resolver URL, at most 253 characters long, and [dns_poll_cb] called
    with that name never ends the process with "Hostname too long.": it
    returns, whatever the address and the allocator's answer. *)
Theorem X15_poller_hostname_passes_length_check
    (inet_ntop_text : Z → list Z → option (list ascii))
    (opt : Options) (client server : ptr) (n : nat) (hostname : list ascii)
    (s0 : state) (b h : list ascii) (af : Z) :
  main_poller opt hostname (main_state opt client server n) = Ok tt s0 →
  EvPollerInit b h af ∈ trace s0 →
  host_of_uri (opt_resolver_url opt) h ∧ (strlen h ≤ 253)%nat ∧
  ∀ s append_ret addr af', wf s →
    ∃ s', dns_poll_cb inet_ntop_text append_ret h addr af' s = Ok tt s'.
Proof.
  intros Hmain Hin.
  destruct (main_poller_init opt hostname (main_state opt client server n) s0 b h af
              eq_refl Hmain Hin)
    as (h' & Hparse & ->).
  destruct (hostname_from_uri_inv _ _ _ _ _ Hparse ltac:(done))
    as (host & c & rest & Huri & Hchars & Hend & _ & Hlen & _ & _ & ->).
  assert (Forall (λ c, c ≠ NUL) (host ++ [c])) as Hnn.
  { eapply Forall_impl; [exact Hchars|]. by intros ? [? _]. }
  assert (cstring ((host ++ [c]) ++ [NUL] ++ drop (S (length (host ++ [c]))) hostname)
          = host ++ [c]) as -> by (by apply cstring_app_NUL).
  assert (strlen (host ++ [c]) ≤ 253)%nat as Hs
    by (rewrite strlen_no_NUL by done; lia).
  split; [by exists rest|]. split; [done|].
  intros s ar addr af' Hwf. eexists. apply dns_poll_cb_ok; [lia|].
  destruct (wf_resolv s Hwf) as [?|[d Hd]]; [by left|right; eauto].
Qed.

Lemma X15_poller_hostname_passes_length_check_witness :
  main_poller sample_options sample_array (main_state sample_options 900 800 16)
    = Ok tt sample_start ∧
  EvPollerInit (chars "8.8.8.8") (chars "dns.google") AF_UNSPEC ∈ trace sample_start ∧
  host_of_uri (opt_resolver_url sample_options) (chars "dns.google") ∧
  (strlen (chars "dns.google") ≤ 253)%nat.
Proof.
  assert (main_poller sample_options sample_array
            (main_state sample_options 900 800 16) = Ok tt sample_start) as H1
    by reflexivity.
  assert (EvPollerInit (chars "8.8.8.8") (chars "dns.google") AF_UNSPEC
            ∈ trace sample_start) as H2 by (simpl; left).
  split; [exact H1|]. split; [exact H2|].
  destruct (X15_poller_hostname_passes_length_check sample_ntop sample_options
              900 800 16%nat sample_array sample_start _ _ _ H1 H2) as (Hh & Hl & _).
  split; [exact Hh|exact Hl].
Defined.

(** X16. The loop that [main] enters never runs into undefined behaviour,
    and the callbacks end the process in two ways only: [dns_server_cb]
    with "Out of mem", on a query for which [calloc] returned [NULL], and
    [dns_poll_cb] with "Hostname too long.", on a name of more than 254
    characters. The fatal message is the last event of the trace. *)
Theorem X16_loop_ends_only_on_the_two_fatal_paths
    (inet_ntop_text : Z → list Z → option (list ascii))
    (opt : Options) (client server : ptr) (n : nat) (hostname : list ascii)
    (s0 : state) (ins : list input) (o : outcome unit) :
  server ≠ NULL →
  main_poller opt hostname (main_state opt client server n) = Ok tt s0 →
  runs inet_ntop_text s0 ins o →
  o ≠ Undefined ∧
  ∀ s', o = Exit s' →
    (last (trace s') = Some (EvLog LOG_FATAL "Out of mem") ∧
     ∃ buf payload srv addr id, Query buf payload NULL srv addr id ∈ ins) ∨
    (last (trace s') = Some (EvLog LOG_FATAL "Hostname too long.") ∧
     ∃ append_ret name addr af,
       Poll append_ret name addr af ∈ ins ∧ (254 < strlen name)%nat).
Proof.
  intros Hsrv Hmain Hrun.
  destruct (main_state_reached opt client server n hostname s0 Hsrv Hmain)
    as (Hwf & _).
  split.
  - exact (proj1 (runs_preserve inet_ntop_text s0 ins o Hrun Hwf)).
  - exact (runs_exit_cause inet_ntop_text s0 ins o Hrun Hwf).
Qed.

Lemma X16_loop_ends_only_on_the_two_fatal_paths_witness :
  800 ≠ NULL ∧
  main_poller sample_options sample_array (main_state sample_options 900 800 16)
    = Ok tt sample_start ∧
  ∃ o,
    runs sample_ntop sample_start
      [Poll 300 (chars "dns.google") [8; 8; 8; 8] AF_INET;
       Query 100 [18; 52; 1] NULL 800 (replicate 16 7) 4660] o ∧
    o ≠ Undefined.
Proof.
  assert (800 ≠ NULL) as H0 by discriminate.
  assert (main_poller sample_options sample_array
            (main_state sample_options 900 800 16) = Ok tt sample_start) as H1
    by reflexivity.
  eassert (runs sample_ntop sample_start
      [Poll 300 (chars "dns.google") [8; 8; 8; 8] AF_INET;
       Query 100 [18; 52; 1] NULL 800 (replicate 16 7) 4660] _) as H2.
  { eapply runs_step; [|vm_compute; reflexivity|].
    { right. left. reflexivity. }
    eapply runs_exit; [|vm_compute; reflexivity].
    split; [discriminate|]. split; [reflexivity|]. split; [by left|].
    exists 16%nat. split; [reflexivity|]. split; vm_compute; lia. }
  split; [exact H0|]. split; [exact H1|]. eexists. split; [exact H2|].
  exact (proj1 (X16_loop_ends_only_on_the_two_fatal_paths sample_ntop
    sample_options 900 800 16%nat sample_array sample_start _ _ H0 H1 H2)).
Defined.

(** X17. Nothing leaks: in every state the loop reaches, each live record
    belongs to an outstanding fetch, each live query buffer to the record
    of one, and a live list is the one in the override slot. So when the
    loop returns with no fetch outstanding, [curl_slist_free_all(app.resolv)]
    of line 229 leaves, of all memory the callbacks handled, nothing
    allocated: the heap is as [main] entered the loop. *)
Theorem X17_no_block_leaks
    (inet_ntop_text : Z → list Z → option (list ascii))
    (opt : Options) (client server : ptr) (n : nat) (hostname : list ascii)
    (s0 s' : state) (ins : list input) :
  server ≠ NULL →
  main_poller opt hostname (main_state opt client server n) = Ok tt s0 →
  runs inet_ntop_text s0 ins (Ok tt s') →
  tidy s' ∧
  (inflight s' = [] →
   ∃ s'', curl_slist_free_all (resolv (app s')) s' = Ok tt s'' ∧
          heap s'' = {[server := Server n]}).
Proof.
  intros Hsrv Hmain Hrun.
  destruct (main_state_reached opt client server n hostname s0 Hsrv Hmain)
    as (Hwf & Ht & _ & _ & Hheap & _).
  set (P := λ s : state, tidy s ∧
         ∀ q m, heap s !! q = Some (Server m) ↔ q = server ∧ m = n).
  destruct (wf_runs_ind inet_ntop_text P (λ _, True)) with
    (s := s0) (ins := ins) (o := Ok tt s') (s' := s')
    as (Hwf' & Ht' & Hsv'); try done.
  { intros s i s1 Hw Hw1 [Htd Hsv] _ Hen Hshape. split.
    - exact (tidy_step inet_ntop_text s i s1 Hw Htd Hen Hshape).
    - intros q m.
      rewrite (server_blocks_step inet_ntop_text s i s1 Hw Htd Hen Hshape q m).
      apply Hsv. }
  { split; [done|]. intros q m. rewrite Hheap, lookup_singleton_Some.
    split; [by intros [-> [= ->]]|by intros [-> ->]]. }
  { by apply Forall_true. }
  split; [done|]. intros Hidle.
  assert (∀ p b, heap s' !! p = Some b → p ≠ resolv (app s') →
            p = server ∧ b = Server n) as Hrest.
  { intros p b Hp Hne. pose proof (Ht' p b Hp) as Hb.
    destruct b as [bs|r|m|d rest].
    - destruct Hb as (c & _ & Hc & _). rewrite Hidle in Hc.
      by apply elem_of_nil in Hc.
    - rewrite Hidle in Hb. by apply elem_of_nil in Hb.
    - apply Hsv' in Hp as [-> ->]. done.
    - done. }
  assert (heap s' !! server = Some (Server n)) as Hserver by (by apply Hsv').
  unfold curl_slist_free_all. run_step.
  destruct (decide (resolv (app s') = NULL)) as [Hn|Hn]; simpl.
  - eexists. split; [done|]. simpl. apply map_eq. intros p.
    destruct (decide (p = server)) as [->|Hps].
    + by rewrite lookup_singleton_eq.
    + rewrite lookup_singleton_ne by done.
      destruct (heap s' !! p) as [b|] eqn:E; [|done].
      destruct (Hrest p b E); [|done].
      intros ->. rewrite Hn, (wf_null s' Hwf') in E. done.
  - destruct (wf_resolv s' Hwf') as [?|[d Hd]]; [done|]. rewrite Hd.
    eexists. split; [done|]. simpl. apply map_eq. intros p.
    destruct (decide (p = resolv (app s'))) as [->|Hpr].
    + rewrite lookup_delete_eq. rewrite lookup_singleton_ne; [done|].
      intros E. rewrite E in Hserver. congruence.
    + rewrite lookup_delete_ne by done.
      destruct (decide (p = server)) as [->|Hps].
      * by rewrite lookup_singleton_eq.
      * rewrite lookup_singleton_ne by done.
        destruct (heap s' !! p) as [b|] eqn:E; [|done].
        by destruct (Hrest p b E).
Qed.

Lemma X17_no_block_leaks_witness :
  800 ≠ NULL ∧
  main_poller sample_options sample_array (main_state sample_options 900 800 16)
    = Ok tt sample_start ∧
  ∃ s',
    runs sample_ntop sample_start sample_run (Ok tt s') ∧ inflight s' = [] ∧
    ∃ s'', curl_slist_free_all (resolv (app s')) s' = Ok tt s'' ∧
           heap s'' = {[800 := Server 16]}.
Proof.
  assert (800 ≠ NULL) as H0 by discriminate.
  assert (main_poller sample_options sample_array
            (main_state sample_options 900 800 16) = Ok tt sample_start) as H1
    by reflexivity.
  eassert (runs sample_ntop sample_start sample_run (Ok tt _)) as H2.
  { eapply runs_step; [|vm_compute; reflexivity|].
    { split; [discriminate|]. split; [reflexivity|].
      split; [right; split; [reflexivity|discriminate]|].
      exists 16%nat. split; [reflexivity|]. split; vm_compute; lia. }
    eapply runs_step; [|vm_compute; reflexivity|].
    { right. left. reflexivity. }
    eapply runs_step; [|vm_compute; reflexivity|].
    { split; [discriminate|]. split; [reflexivity|].
      split; [right; split; [reflexivity|discriminate]|].
      exists 16%nat. split; [reflexivity|]. split; vm_compute; lia. }
    eapply runs_step; [|vm_compute; reflexivity|constructor].
    vm_compute. by left. }
  split; [exact H0|]. split; [exact H1|]. eexists. split; [exact H2|].
  split; [reflexivity|].
  exact (proj2 (X17_no_block_leaks sample_ntop sample_options 900 800 16%nat
    sample_array sample_start _ sample_run H0 H1 H2) eq_refl).
Defined.

(** X18. Replies never outnumber fetches: in every state the loop reaches,
    the replies sent so far and the fetches outstanding together are no
    more than the fetches issued. *)
Theorem X18_replies_bounded_by_fetches
    (inet_ntop_text : Z → list Z → option (list ascii))
    (opt : Options) (client server : ptr) (n : nat) (hostname : list ascii)
    (s0 s' : state) (ins : list input) :
  server ≠ NULL →
  main_poller opt hostname (main_state opt client server n) = Ok tt s0 →
  runs inet_ntop_text s0 ins (Ok tt s') →
  (length (replies (trace s')) + length (inflight s')
   ≤ length (fetches (trace s')))%nat.
Proof.
  intros Hsrv Hmain Hrun.
  destruct (main_state_reached opt client server n hostname s0 Hsrv Hmain)
    as (Hwf & _ & Hb & _).
  destruct (wf_runs_ind inet_ntop_text balanced (λ _, True)) with
    (s := s0) (ins := ins) (o := Ok tt s') (s' := s') as (_ & Hb'); try done.
  - intros s i s1 _ _ Hbs _ Hen Hshape.
    exact (balanced_step inet_ntop_text s i s1 Hbs Hen Hshape).
  - by apply Forall_true.
Qed.

Lemma X18_replies_bounded_by_fetches_witness :
  800 ≠ NULL ∧
  main_poller sample_options sample_array (main_state sample_options 900 800 16)
    = Ok tt sample_start ∧
  ∃ s',
    runs sample_ntop sample_start sample_run (Ok tt s') ∧
    (length (replies (trace s')) + length (inflight s')
     ≤ length (fetches (trace s')))%nat.
Proof.
  assert (800 ≠ NULL) as H0 by discriminate.
  assert (main_poller sample_options sample_array
            (main_state sample_options 900 800 16) = Ok tt sample_start) as H1
    by reflexivity.
  eassert (runs sample_ntop sample_start sample_run (Ok tt _)) as H2.
  { eapply runs_step; [|vm_compute; reflexivity|].
    { split; [discriminate|]. split; [reflexivity|].
      split; [right; split; [reflexivity|discriminate]|].
      exists 16%nat. split; [reflexivity|]. split; vm_compute; lia. }
    eapply runs_step; [|vm_compute; reflexivity|].
    { right. left. reflexivity. }
    eapply runs_step; [|vm_compute; reflexivity|].
    { split; [discriminate|]. split; [reflexivity|].
      split; [right; split; [reflexivity|discriminate]|].
      exists 16%nat. split; [reflexivity|]. split; vm_compute; lia. }
    eapply runs_step; [|vm_compute; reflexivity|constructor].
    vm_compute. by left. }
  split; [exact H0|]. split; [exact H1|]. eexists. split; [exact H2|].
  exact (X18_replies_bounded_by_fetches sample_ntop sample_options 900 800 16%nat
    sample_array sample_start _ sample_run H0 H1 H2).
Defined.

(** X19. Where the fetches go: every fetch issued in the loop goes through
    the client that [main] created to the resolver URL of the options, and
    with polling on none goes out with a [NULL] override. The callbacks
    leave [https_client], [resolver_url] and [using_dns_poller] of the
    application state as [main] set them. *)
Theorem X19_fetches_go_to_the_configured_resolver
    (inet_ntop_text : Z → list Z → option (list ascii))
    (opt : Options) (client server : ptr) (n : nat) (hostname : list ascii)
    (s0 s' : state) (ins : list input) :
  server ≠ NULL →
  main_poller opt hostname (main_state opt client server n) = Ok tt s0 →
  runs inet_ntop_text s0 ins (Ok tt s') →
  https_client (app s') = client ∧
  resolver_url (app s') = opt_resolver_url opt ∧
  using_dns_poller (app s') = using_dns_poller (app s0) ∧
  ∀ c u body len l ctx, EvFetch c u body len l ctx ∈ trace s' →
    c = client ∧ u = opt_resolver_url opt ∧
    (l = NULL → using_dns_poller (app s0) = 0).
Proof.
  intros Hsrv Hmain Hrun.
  destruct (main_state_reached opt client server n hostname s0 Hsrv Hmain)
    as (Hwf & _).
  destruct (main_state_app opt client server n hostname s0 Hmain)
    as (Hc & Hu & Hf & _).
  set (polling := using_dns_poller (app s0)).
  set (P := λ s : state,
         https_client (app s) = client ∧
         resolver_url (app s) = opt_resolver_url opt ∧
         using_dns_poller (app s) = polling ∧
         Forall (fetch_to client (opt_resolver_url opt) polling) (trace s)).
  destruct (wf_runs_ind inet_ntop_text P (λ _, True)) with
    (s := s0) (ins := ins) (o := Ok tt s') (s' := s')
    as (_ & Hc' & Hu' & Hp' & Ht'); try done.
  - intros s i s1 _ _ (H1 & H2 & H3 & H4) _ _ Hshape.
    exact (fetch_to_step inet_ntop_text _ _ _ s i s1 H1 H2 H3 H4 Hshape).
  - split_and!; try done.
    apply Forall_forall. intros e He.
    destruct e as [| | |c u body len l ctx| |]; try done.
    assert (EvFetch c u body len l ctx ∈ fetches (trace s0)) as Hin.
    { apply list_elem_of_In, List.filter_In. split; [by apply list_elem_of_In|done]. }
    rewrite Hf in Hin. by apply elem_of_nil in Hin.
  - by apply Forall_true.
  - split_and!; try done. intros c u body len l ctx Hin.
    rewrite Forall_forall in Ht'. exact (Ht' _ Hin).
Qed.

Lemma X19_fetches_go_to_the_configured_resolver_witness :
  800 ≠ NULL ∧
  main_poller sample_options sample_array (main_state sample_options 900 800 16)
    = Ok tt sample_start ∧
  ∃ s',
    runs sample_ntop sample_start sample_run (Ok tt s') ∧
    https_client (app s') = 900 ∧ resolver_url (app s') = sample_url.
Proof.
  assert (800 ≠ NULL) as H0 by discriminate.
  assert (main_poller sample_options sample_array
            (main_state sample_options 900 800 16) = Ok tt sample_start) as H1
    by reflexivity.
  eassert (runs sample_ntop sample_start sample_run (Ok tt _)) as H2.
  { eapply runs_step; [|vm_compute; reflexivity|].
    { split; [discriminate|]. split; [reflexivity|].
      split; [right; split; [reflexivity|discriminate]|].
      exists 16%nat. split; [reflexivity|]. split; vm_compute; lia. }
    eapply runs_step; [|vm_compute; reflexivity|].
    { right. left. reflexivity. }
    eapply runs_step; [|vm_compute; reflexivity|].
    { split; [discriminate|]. split; [reflexivity|].
      split; [right; split; [reflexivity|discriminate]|].
      exists 16%nat. split; [reflexivity|]. split; vm_compute; lia. }
    eapply runs_step; [|vm_compute; reflexivity|constructor].
    vm_compute. by left. }
  split; [exact H0|]. split; [exact H1|]. eexists. split; [exact H2|].
  destruct (X19_fetches_go_to_the_configured_resolver sample_ntop sample_options
    900 800 16%nat sample_array sample_start _ sample_run H0 H1 H2)
    as (Hc & Hu & _).
  split; [exact Hc|exact Hu].
Defined.

(** X20. Once open, the gate stays open as long as libcurl can allocate:
    from a state of the loop in which queries are forwarded, every run in
    which no poll result meets a failing [curl_slist_append] ends in a
    state in which queries are forwarded. Completions, further queries and
    further poll results never close it. *)
Theorem X20_gate_stays_open_while_append_succeeds
    (inet_ntop_text : Z → list Z → option (list ascii))
    (opt : Options) (client server : ptr) (n : nat) (hostname : list ascii)
    (s0 s1 s2 : state) (before after : list input) :
  server ≠ NULL →
  main_poller opt hostname (main_state opt client server n) = Ok tt s0 →
  runs inet_ntop_text s0 before (Ok tt s1) →
  bootstrapped s1 →
  Forall append_succeeds after →
  runs inet_ntop_text s1 after (Ok tt s2) →
  bootstrapped s2.
Proof.
  intros Hsrv Hmain Hrun1 Hopen Hafter Hrun2.
  destruct (main_state_reached opt client server n hostname s0 Hsrv Hmain)
    as (Hwf & _).
  assert (wf s1) as Hwf1
    by (by apply (runs_preserve inet_ntop_text s0 before (Ok tt s1) Hrun1 Hwf)).
  set (P := λ s : state, using_dns_poller (app s) = 0 ∨ resolv (app s) ≠ NULL).
  destruct (wf_runs_ind inet_ntop_text P append_succeeds) with
    (s := s1) (ins := after) (o := Ok tt s2) (s' := s2) as (Hwf2 & HP); try done.
  - intros s i s' _ _ HPs Hi _ Hshape.
    inversion Hshape; subst; try exact HPs. right. exact Hi.
  - destruct Hopen as [?|[? _]]; [by left|by right].
  - destruct HP as [?|Hn]; [by left|]. right. split; [done|].
    destruct (wf_resolv s2 Hwf2) as [?|[d Hd]]; [done|]. eauto.
Qed.

Lemma X20_gate_stays_open_while_append_succeeds_witness :
  800 ≠ NULL ∧
  main_poller sample_options sample_array (main_state sample_options 900 800 16)
    = Ok tt sample_start ∧
  ∃ s1 s2,
    runs sample_ntop sample_start
      [Poll 300 (chars "dns.google") [8; 8; 8; 8] AF_INET] (Ok tt s1) ∧
    bootstrapped s1 ∧
    Forall append_succeeds
      [Query 102 [18; 52; 3] 202 800 (replicate 16 7) 4661;
       Poll 301 (chars "dns.google") [8; 8; 4; 4] AF_INET;
       Complete 202 None 0] ∧
    runs sample_ntop s1
      [Query 102 [18; 52; 3] 202 800 (replicate 16 7) 4661;
       Poll 301 (chars "dns.google") [8; 8; 4; 4] AF_INET;
       Complete 202 None 0] (Ok tt s2) ∧
    bootstrapped s2.
Proof.
  assert (800 ≠ NULL) as H0 by discriminate.
  assert (main_poller sample_options sample_array
            (main_state sample_options 900 800 16) = Ok tt sample_start) as H1
    by reflexivity.
  eassert (runs sample_ntop sample_start
      [Poll 300 (chars "dns.google") [8; 8; 8; 8] AF_INET] (Ok tt _)) as H2.
  { eapply runs_step; [|vm_compute; reflexivity|constructor].
    right. left. reflexivity. }
  match type of H2 with runs _ _ _ (Ok tt ?s) => assert (bootstrapped s) as H3 end.
  { right. split; [simpl; discriminate|]. eexists _, _. reflexivity. }
  assert (Forall append_succeeds
      [Query 102 [18; 52; 3] 202 800 (replicate 16 7) 4661;
       Poll 301 (chars "dns.google") [8; 8; 4; 4] AF_INET;
       Complete 202 None 0]) as H4.
  { repeat constructor. simpl. discriminate. }
  match type of H2 with runs _ _ _ (Ok tt ?s) =>
    eassert (runs sample_ntop s
      [Query 102 [18; 52; 3] 202 800 (replicate 16 7) 4661;
       Poll 301 (chars "dns.google") [8; 8; 4; 4] AF_INET;
       Complete 202 None 0] (Ok tt _)) as H5
  end.
  { eapply runs_step; [|vm_compute; reflexivity|].
    { split; [discriminate|]. split; [reflexivity|].
      split; [right; split; [reflexivity|discriminate]|].
      exists 16%nat. split; [reflexivity|]. split; vm_compute; lia. }
    eapply runs_step; [|vm_compute; reflexivity|].
    { right. left. reflexivity. }
    eapply runs_step; [|vm_compute; reflexivity|constructor].
    vm_compute. by left. }
  split; [exact H0|]. split; [exact H1|]. eexists _, _.
  split; [exact H2|]. split; [exact H3|]. split; [exact H4|]. split; [exact H5|].
  exact (X20_gate_stays_open_while_append_succeeds sample_ntop sample_options
    900 800 16%nat sample_array sample_start _ _ _ _ H0 H1 H2 H3 H4 H5).
Defined.

(** X21. The teardown of [main] does not mirror its setup: after the loop,
    [dns_poller_cleanup] is called whenever the proxy does not resolve
    names, but [dns_poller_init] only when, besides, [hostname_from_uri]
    accepts the resolver URL. A poller that was initialised is always
    cleaned up; the structure is cleaned up without having been
    initialised exactly when the proxy does not resolve names and
    [hostname_from_uri] returns 0, as for a resolver URL whose host is an
    IP address. *)
Theorem X21_cleanup_without_init
    (opt : Options) (client server : ptr) (n : nat) (hostname : list ascii)
    (s0 : state) :
  main_poller opt hostname (main_state opt client server n) = Ok tt s0 →
  (poller_initialised (trace s0) = true → main_poller_cleanup opt = true) ∧
  ((main_poller_cleanup opt = true ∧ poller_initialised (trace s0) = false) ↔
   (¬ proxy_resolves_names (opt_curl_proxy opt) ∧
    ∃ h, hostname_from_uri (opt_resolver_url opt) hostname 254 = Some (0, h))).
Proof.
  destruct (proxy_supports_spec (opt_curl_proxy opt)) as [_ Hspec].
  unfold main_poller, main_state, main_poller_cleanup.
  case_decide as Hp.
  - rewrite bool_decide_true by done. apply Hspec in Hp.
    unfold mbind, M_bind, defined.
    destruct (hostname_from_uri _ _ _) as [[ok h]|] eqn:E; simpl; [|done].
    case_decide as Hok; run_step; intros [= <-]; simpl.
    + split; [done|]. split; [by intros [_ ?]|].
      intros [_ [h' [= ? ?]]]. done.
    + split; [done|]. split; [|done]. intros _. split; [done|].
      exists h. f_equal. f_equal. destruct (decide (ok = 0)); [done|].
      by destruct Hok.
  - rewrite bool_decide_false by done. intros [= <-]. simpl.
    split; [done|]. split; [by intros [? _]|].
    intros [Hn _]. by apply Hspec in Hn.
Qed.

Lemma X21_cleanup_without_init_witness :
  ∃ s0,
    main_poller (mk_options (chars "https://8.8.8.8/resolve") None (chars "8.8.8.8") 0)
      sample_array
      (main_state (mk_options (chars "https://8.8.8.8/resolve") None (chars "8.8.8.8") 0)
         900 800 16) = Ok tt s0 ∧
    main_poller_cleanup
      (mk_options (chars "https://8.8.8.8/resolve") None (chars "8.8.8.8") 0) = true ∧
    poller_initialised (trace s0) = false.
Proof.
  eassert (main_poller
    (mk_options (chars "https://8.8.8.8/resolve") None (chars "8.8.8.8") 0) sample_array
    (main_state (mk_options (chars "https://8.8.8.8/resolve") None (chars "8.8.8.8") 0)
       900 800 16) = Ok tt _) as H1 by reflexivity.
  eexists. split; [exact H1|].
  apply (X21_cleanup_without_init _ 900 800 16%nat sample_array _ H1).
  split.
  - intros (p & t & Hp & _). discriminate Hp.
  - eexists. reflexivity.
Defined.
